(** * Qianwen client: storage factory, memory and log managers, chat session

    A shallow embedding of [config.py] and [qianwen_client_enhanced.py].

    Python objects are records, [async] methods are computations in a small
    state-and-exception monad [M St A] (the state is the receiver object, an
    exception leaves the mutations done so far in place), dictionaries are
    [gmap string PyVal], the two abstract base classes [MemoryStorage] and
    [LogStorage] are type classes, and what a method reads from the process
    environment ([datetime.now()], [uuid.uuid4()], the remote chat API, the
    MongoDB server) is a field of the object that reads it.  [print] calls
    are diagnostics only and are left out, and so are [close], [get_models]
    and the loading of a configuration from the environment ([from_env]).
    The files the multimodal methods read and the configuration files are
    entries of a [Disk.t]. *)

From Stdlib Require Import QArith Ascii.
From stdpp Require Import gmap strings list sorting pretty.

Set Warnings "-register-all".
#[local] Open Scope string_scope.
#[local] Open Scope Z_scope.

(** ** Python values, exceptions and the method monad *)

(** Values that travel through dictionaries: request parameters, response
    dictionaries, metadata, decoded JSON. *)
Inductive PyVal : Type :=
  | PNone
  | PBool (b : bool)
  | PInt (z : Z)
  | PFloat (q : Q)
  | PStr (s : string)
  | PList (l : list PyVal)
  | PDict (d : gmap string PyVal).

Abbreviation PyDict := (gmap string PyVal).

(** [bool(v)]: the test performed by [if v:]. *)
Definition truthy (v : PyVal) : bool :=
  match v with
  | PNone => false
  | PBool b => b
  | PInt z => negb (z =? 0)
  | PFloat q => negb (Qeq_bool q 0)
  | PStr s => negb (String.eqb s "")
  | PList l => negb (Nat.eqb (length l) 0)
  | PDict d => negb (Nat.eqb (size d) 0)
  end.

(** [if s:] for [s : Optional[str]]. *)
Definition str_truthy (s : option string) : bool :=
  match s with
  | Some s => negb (String.eqb s "")
  | None => false
  end.

(** [if n:] for [n : Optional[int]]. *)
Definition int_truthy (n : option Z) : bool :=
  match n with
  | Some n => negb (n =? 0)
  | None => false
  end.

(** [lst[-n:]] for [n <> 0]. *)
Definition last_slice {A} (n : Z) (l : list A) : list A :=
  if 0 <? n then drop (length l - Z.to_nat n) l
  else drop (Z.to_nat (- n)) l.

(** An exception instance: [type(e).__name__] and [str(e)].  Only classes
    derived from [Exception] are modelled, so [except Exception] catches
    every value of this type. *)
Record exn := Exception { exn_type : string; exn_message : string }.

Inductive Outcome (A : Type) : Type :=
  | Ok (a : A)
  | Raise (e : exn).
Arguments Ok {A} a.
Arguments Raise {A} e.

Definition M (St A : Type) : Type := St → Outcome A * St.

Definition ret {St A} (a : A) : M St A := λ s, (Ok a, s).

Definition raise {St A} (e : exn) : M St A := λ s, (Raise e, s).

Definition bind {St A B} (c : M St A) (k : A → M St B) : M St B :=
  λ s, match c s with
       | (Ok a, s') => k a s'
       | (Raise e, s') => (Raise e, s')
       end.

(** [try: c except Exception as e: h e]. *)
Definition try_except {St A} (c : M St A) (h : exn → M St A) : M St A :=
  λ s, match c s with
       | (Ok a, s') => (Ok a, s')
       | (Raise e, s') => h e s'
       end.

Definition get {St} : M St St := λ s, (Ok s, s).

Definition lift {St A} (o : Outcome A) : M St A := λ s, (o, s).

Definition modify {St} (f : St → St) : M St unit := λ s, (Ok tt, f s).

(** Run a computation of a component inside the object that owns it. *)
Definition zoom {St T A} (proj : St → T) (upd : T → St → St) (c : M T A) : M St A :=
  λ s, let '(r, t) := c (proj s) in (r, upd t s).

Notation "x <~ c ;; k" := (bind c (λ x, k))
  (at level 100, c at next level, right associativity).
Notation "c ;;; k" := (bind c (λ _, k))
  (at level 100, right associativity).

(** A source of environment readings consumed in order: the successive
    results of [datetime.now()], [datetime.utcnow()] or [uuid.uuid4()]. *)
Record Oracle (A : Type) := { readings : nat → A; consumed : nat }.
Arguments readings {A} o n.
Arguments consumed {A} o.

Definition next {A} (o : Oracle A) : A * Oracle A :=
  (readings o (consumed o), {| readings := readings o; consumed := S (consumed o) |}).

(** The [json] module: [dumps] on the values above cannot fail; [loads]
    raises [JSONDecodeError] on a text that is not JSON and, on some texts
    that are, another exception: [ValueError] for an integer of more
    digits than the interpreter converts, [RecursionError] for a nesting
    too deep. *)
Class Json := {
  json_dumps : PyVal → string;
  json_loads : string → Outcome PyVal
}.

(** ** config.py: configuration records

    Only the fields read by the modelled methods are kept; connection
    strings, Redis and file settings play no part in them.  Time stamps are
    integers (microseconds). *)

Module MemoryConfig.
Record t (C : Type) := {
  enabled : bool;
  storage_type : string;
  max_history_length : Z;
  ttl_hours : Z;
  custom_storage : option C
}.
Arguments enabled {C} t.
Arguments storage_type {C} t.
Arguments max_history_length {C} t.
Arguments ttl_hours {C} t.
Arguments custom_storage {C} t.
End MemoryConfig.

Module LogConfig.
Record t (D : Type) := {
  enabled : bool;
  storage_type : string;
  log_requests : bool;
  log_responses : bool;
  log_errors : bool;
  custom_storage : option D
}.
Arguments enabled {D} t.
Arguments storage_type {D} t.
Arguments log_requests {D} t.
Arguments log_responses {D} t.
Arguments log_errors {D} t.
Arguments custom_storage {D} t.
End LogConfig.

Record ModelConfig := {
  default_model : string;
  default_temperature : Q;
  default_max_tokens : Z;
  default_system_message : option string
}.

(** ** config.py: the storage interfaces *)

(** One element of the list returned by [MemoryStorage.get_history]: the
    keys [role] and [content] are indexed directly by the manager, the keys
    [timestamp] and [metadata] are read with [dict.get] and a default. *)
Record HistoryEntry := {
  he_role : string;
  he_content : PyVal;
  he_metadata : option PyDict;
  he_timestamp : option Z
}.

(** [class MemoryStorage(ABC)].  The boolean results are discarded by the
    manager; [close] has no effect on the modelled state and is left out.
    [ms_bool] is the truth value of the object, [bool(storage)]: what its
    class answers through [__bool__] or [__len__], in the state the
    object is in, and [True] for a class that defines neither. *)
Class MemoryStorage (S : Type) := {
  ms_bool : S → bool;
  ms_initialize : M S bool;
  ms_save_message :
    string → string → string → string → PyDict → M S bool;
  ms_get_history : string → string → option Z → M S (list HistoryEntry);
  ms_clear_history : string → string → M S bool
}.

(** One element of the list returned by [LogStorage.get_logs]. *)
Record LogRecord := {
  lr_user_id : string;
  lr_session_id : string;
  lr_log_type : string;
  lr_data : PyDict;
  lr_timestamp : Z;
  lr_request_id : option string
}.

(** [class LogStorage(ABC)]; [ls_bool] is the truth value of the object. *)
Class LogStorage (L : Type) := {
  ls_bool : L → bool;
  ls_initialize : M L bool;
  ls_log_request : string → string → PyDict → M L bool;
  ls_log_response : string → string → PyDict → option string → M L bool;
  ls_log_error : string → string → PyDict → M L bool;
  ls_get_logs :
    option string → option string → option Z → option Z → Z → M L (list LogRecord)
}.

(** ** The MongoDB driver, as far as the two built-in storages use it

    A collection lives on the server; every driver call that contacts the
    server raises when the server cannot be reached.  The handle on the
    collection is made without contacting the server, by the import of
    the driver, [AsyncIOMotorClient(uri)] and the two subscripts that
    name the database and the collection; [handle_ok] tells whether these
    succeed: the driver is installed and accepts the URI and the names of
    the configuration.  A cursor is the query
    plan built by [find], [sort] and [limit]; it is evaluated by the server
    when the cursor is iterated.  The server keeps the documents in the
    order of insertion; among documents with equal sort keys the order of
    a sorted result is the one the merge sort gives. *)
Module Mongo.
Section collection.
Context {D : Type}.

Record Collection := { handle_ok : bool; server_up : bool; documents : list D }.

Definition ConnectionFailure : exn :=
  Exception "ServerSelectionTimeoutError" "server unreachable".

(** What the statements that make the handle raise when they fail; which
    exception it is ([ModuleNotFoundError], [InvalidURI], [InvalidName])
    does not reach any caller. *)
Definition HandleFailure : exn :=
  Exception "ConfigurationError" "no handle on the collection".

(** [AsyncIOMotorClient(uri)[database][collection]], after the import. *)
Definition open_handle : M Collection unit :=
  λ c, if handle_ok c then (Ok tt, c) else (Raise HandleFailure, c).

Definition insert_one (d : D) : M Collection unit :=
  λ c, if server_up c
       then (Ok tt, {| handle_ok := handle_ok c; server_up := true;
                       documents := documents c ++ [d] |})
       else (Raise ConnectionFailure, c).

Definition delete_many (query : D → bool) : M Collection unit :=
  λ c, if server_up c
       then (Ok tt, {| handle_ok := handle_ok c; server_up := true;
                       documents := filter (λ d, query d = false) (documents c) |})
       else (Raise ConnectionFailure, c).

Definition create_index : M Collection unit :=
  λ c, if server_up c then (Ok tt, c) else (Raise ConnectionFailure, c).

(** [async for doc in cursor]. *)
Definition to_list (cursor : list D → list D) : M Collection (list D) :=
  λ c, if server_up c then (Ok (cursor (documents c)), c)
       else (Raise ConnectionFailure, c).

(** [cursor.sort("timestamp", 1)] and [cursor.sort("timestamp", -1)]. *)
Definition ascending (key : D → Z) : relation D := λ a b, key a ≤ key b.

Definition descending (key : D → Z) : relation D := λ a b, key b ≤ key a.

#[global] Instance ascending_dec key : RelDecision (ascending key) :=
  λ a b, Z_le_dec (key a) (key b).

#[global] Instance descending_dec key : RelDecision (descending key) :=
  λ a b, Z_le_dec (key b) (key a).

Definition sort_ascending (key : D → Z) (l : list D) : list D :=
  merge_sort (ascending key) l.

Definition sort_descending (key : D → Z) (l : list D) : list D :=
  merge_sort (descending key) l.

(** [cursor.limit(n)]: [0] means no limit, a negative [n] bounds the
    result by its absolute value. *)
Definition limit (n : Z) (l : list D) : list D :=
  if n =? 0 then l else take (Z.abs_nat n) l.
End collection.
Arguments Collection D : clear implicits.
End Mongo.

(** ** config.py: [class MongoMemoryStorage(MemoryStorage)] *)
Module MongoMemoryStorage.

Record Document := {
  doc_user_id : string;
  doc_session_id : string;
  doc_role : string;
  doc_content : string;
  doc_metadata : PyDict;
  doc_timestamp : Z
}.

(** [_collection] is [true] once the handle has been assigned by
    [initialize] and [false] while it is [None]; [remote] is the server
    collection the handle names; [utcnow] supplies [datetime.utcnow()]. *)
Record t (C : Type) := {
  config : MemoryConfig.t C;
  _collection : bool;
  remote : Mongo.Collection Document;
  utcnow : Oracle Z
}.
Arguments config {C} t.
Arguments _collection {C} t.
Arguments remote {C} t.
Arguments utcnow {C} t.

Section methods.
Context {C : Type}.

Definition set_collection (b : bool) (self : t C) : t C :=
  {| config := config self; _collection := b;
     remote := remote self; utcnow := utcnow self |}.

Definition set_remote (r : Mongo.Collection Document) (self : t C) : t C :=
  {| config := config self; _collection := _collection self;
     remote := r; utcnow := utcnow self |}.

Definition read_utcnow : M (t C) Z :=
  λ self, let '(now, o) := next (utcnow self) in
          (Ok now, {| config := config self; _collection := _collection self;
                      remote := remote self; utcnow := o |}).

Definition on_remote {A} (c : M (Mongo.Collection Document) A) : M (t C) A :=
  zoom remote set_remote c.

Definition __init__ (cfg : MemoryConfig.t C)
    (server : Mongo.Collection Document) (clock : Oracle Z) : t C :=
  {| config := cfg; _collection := false; remote := server; utcnow := clock |}.

Definition initialize : M (t C) bool :=
  try_except
    (on_remote Mongo.open_handle;;;
     modify (set_collection true);;;
     on_remote Mongo.create_index;;;
     self <~ get;;
     (if 0 <? MemoryConfig.ttl_hours (config self)
      then on_remote Mongo.create_index
      else ret tt);;;
     ret true)
    (λ _, ret false).

(** [metadata or {}] is [metadata] itself, a dictionary. *)
Definition save_message (user_id session_id role content : string)
    (metadata : PyDict) : M (t C) bool :=
  self <~ get;;
  if negb (_collection self) then ret false
  else
    try_except
      (now <~ read_utcnow;;
       let document :=
         {| doc_user_id := user_id; doc_session_id := session_id;
            doc_role := role; doc_content := content;
            doc_metadata := metadata; doc_timestamp := now |} in
       on_remote (Mongo.insert_one document);;;
       ret true)
      (λ _, ret false).

Definition query (user_id session_id : string) (d : Document) : bool :=
  String.eqb (doc_user_id d) user_id && String.eqb (doc_session_id d) session_id.

Definition to_entry (doc : Document) : HistoryEntry :=
  {| he_role := doc_role doc; he_content := PStr (doc_content doc);
     he_metadata := Some (doc_metadata doc);
     he_timestamp := Some (doc_timestamp doc) |}.

Definition get_history (user_id session_id : string) (limit : option Z)
    : M (t C) (list HistoryEntry) :=
  self <~ get;;
  if negb (_collection self) then ret []
  else
    try_except
      (let cursor := λ docs,
         Mongo.sort_ascending doc_timestamp
           (filter (λ d, query user_id session_id d = true) docs) in
       let cursor :=
         if int_truthy limit
         then λ docs, Mongo.limit (default 0 limit) (cursor docs)
         else if 0 <? MemoryConfig.max_history_length (config self)
              then λ docs,
                     Mongo.limit (MemoryConfig.max_history_length (config self)) (cursor docs)
              else cursor in
       docs <~ on_remote (Mongo.to_list cursor);;
       ret (to_entry <$> docs))
      (λ _, ret []).

Definition clear_history (user_id session_id : string) : M (t C) bool :=
  self <~ get;;
  if negb (_collection self) then ret false
  else
    try_except
      (on_remote (Mongo.delete_many (query user_id session_id));;;
       ret true)
      (λ _, ret false).

(** The class defines neither [__bool__] nor [__len__]. *)
#[global] Instance storage : MemoryStorage (t C) := {
  ms_bool _ := true;
  ms_initialize := initialize;
  ms_save_message := save_message;
  ms_get_history := get_history;
  ms_clear_history := clear_history
}.
End methods.
End MongoMemoryStorage.

(** ** config.py: [class MongoLogStorage(LogStorage)] *)
Module MongoLogStorage.

Record Document := {
  doc_user_id : string;
  doc_session_id : string;
  doc_log_type : string;
  doc_data : PyDict;
  doc_request_id : option string;
  doc_timestamp : Z
}.

Record t (D : Type) := {
  config : LogConfig.t D;
  _collection : bool;
  remote : Mongo.Collection Document;
  utcnow : Oracle Z
}.
Arguments config {D} t.
Arguments _collection {D} t.
Arguments remote {D} t.
Arguments utcnow {D} t.

Section methods.
Context {D : Type}.

Definition set_collection (b : bool) (self : t D) : t D :=
  {| config := config self; _collection := b;
     remote := remote self; utcnow := utcnow self |}.

Definition set_remote (r : Mongo.Collection Document) (self : t D) : t D :=
  {| config := config self; _collection := _collection self;
     remote := r; utcnow := utcnow self |}.

Definition read_utcnow : M (t D) Z :=
  λ self, let '(now, o) := next (utcnow self) in
          (Ok now, {| config := config self; _collection := _collection self;
                      remote := remote self; utcnow := o |}).

Definition on_remote {A} (c : M (Mongo.Collection Document) A) : M (t D) A :=
  zoom remote set_remote c.

Definition __init__ (cfg : LogConfig.t D)
    (server : Mongo.Collection Document) (clock : Oracle Z) : t D :=
  {| config := cfg; _collection := false; remote := server; utcnow := clock |}.

Definition initialize : M (t D) bool :=
  try_except
    (on_remote Mongo.open_handle;;;
     modify (set_collection true);;;
     on_remote Mongo.create_index;;;
     on_remote Mongo.create_index;;;
     on_remote Mongo.create_index;;;
     ret true)
    (λ _, ret false).

(** The body shared by the three writers once their guard has passed. *)
Definition insert (user_id session_id log_type : string) (data : PyDict)
    (request_id : option string) : M (t D) bool :=
  try_except
    (now <~ read_utcnow;;
     let document :=
       {| doc_user_id := user_id; doc_session_id := session_id;
          doc_log_type := log_type; doc_data := data;
          doc_request_id := request_id; doc_timestamp := now |} in
     on_remote (Mongo.insert_one document);;;
     ret true)
    (λ _, ret false).

Definition log_request (user_id session_id : string) (request_data : PyDict)
    : M (t D) bool :=
  self <~ get;;
  if negb (LogConfig.log_requests (config self)) || negb (_collection self) then ret false
  else insert user_id session_id "request" request_data None.

Definition log_response (user_id session_id : string) (response_data : PyDict)
    (request_id : option string) : M (t D) bool :=
  self <~ get;;
  if negb (LogConfig.log_responses (config self)) || negb (_collection self) then ret false
  else insert user_id session_id "response" response_data request_id.

Definition log_error (user_id session_id : string) (error_data : PyDict)
    : M (t D) bool :=
  self <~ get;;
  if negb (LogConfig.log_errors (config self)) || negb (_collection self) then ret false
  else insert user_id session_id "error" error_data None.

(** The filter assembled in [query]; a [datetime] bound is always truthy. *)
Definition query (user_id session_id : option string)
    (start_time end_time : option Z) (d : Document) : bool :=
  (if str_truthy user_id then bool_decide (Some (doc_user_id d) = user_id) else true)
  && (if str_truthy session_id then bool_decide (Some (doc_session_id d) = session_id) else true)
  && match start_time with Some t0 => t0 <=? doc_timestamp d | None => true end
  && match end_time with Some t1 => doc_timestamp d <=? t1 | None => true end.

Definition to_record (doc : Document) : LogRecord :=
  {| lr_user_id := doc_user_id doc; lr_session_id := doc_session_id doc;
     lr_log_type := doc_log_type doc; lr_data := doc_data doc;
     lr_timestamp := doc_timestamp doc; lr_request_id := doc_request_id doc |}.

Definition get_logs (user_id session_id : option string)
    (start_time end_time : option Z) (limit : Z) : M (t D) (list LogRecord) :=
  self <~ get;;
  if negb (_collection self) then ret []
  else
    try_except
      (let cursor := λ docs,
         Mongo.limit limit
           (Mongo.sort_descending doc_timestamp
              (filter (λ d, query user_id session_id start_time end_time d = true) docs)) in
       docs <~ on_remote (Mongo.to_list cursor);;
       ret (to_record <$> docs))
      (λ _, ret []).

(** The class defines neither [__bool__] nor [__len__]. *)
#[global] Instance storage : LogStorage (t D) := {
  ls_bool _ := true;
  ls_initialize := initialize;
  ls_log_request := log_request;
  ls_log_response := log_response;
  ls_log_error := log_error;
  ls_get_logs := get_logs
}.
End methods.
End MongoLogStorage.

(** ** qianwen_client_enhanced.py: data classes *)

Record ChatMessage := {
  role : string;
  content : PyVal;
  timestamp : Z;
  user_id : string;
  session_id : string;
  metadata : PyDict
}.

(** ** qianwen_client_enhanced.py: [class StorageFactory]

    The factory answers with the object stored in the configuration or with
    a new built-in object, so the storage held by a manager is one of the
    two.  [if config.custom_storage:] is a truth test: it fails when there
    is no object and when the object is there and falsy, and in both cases
    the storage type decides. *)
Module StorageFactory.

Inductive MemoryBackend (C : Type) :=
  | CustomMemory (c : C)
  | BuiltinMemory (m : MongoMemoryStorage.t C).
Arguments CustomMemory {C} c.
Arguments BuiltinMemory {C} m.

Inductive LogBackend (D : Type) :=
  | CustomLog (d : D)
  | BuiltinLog (m : MongoLogStorage.t D).
Arguments CustomLog {D} d.
Arguments BuiltinLog {D} m.

Definition NotImplementedError (msg : string) : exn :=
  Exception "NotImplementedError" msg.

Definition ValueError (msg : string) : exn := Exception "ValueError" msg.

(** The dispatch on [config.storage_type] that ends
    [create_memory_storage].  The server and the clock are what a new
    [MongoMemoryStorage] will talk to once initialised. *)
Definition memory_storage_of_type {C}
    (server : Mongo.Collection MongoMemoryStorage.Document)
    (clock : Oracle Z) (config : MemoryConfig.t C) : Outcome (option (MemoryBackend C)) :=
  if String.eqb (MemoryConfig.storage_type config) "mongodb"
  then Ok (Some (BuiltinMemory (MongoMemoryStorage.__init__ config server clock)))
  else if String.eqb (MemoryConfig.storage_type config) "redis"
  then Raise (NotImplementedError "Redis存储尚未实现，请使用自定义存储")
  else if String.eqb (MemoryConfig.storage_type config) "file"
  then Raise (NotImplementedError "文件存储尚未实现，请使用自定义存储")
  else Raise (ValueError ("不支持的存储类型: " ++ MemoryConfig.storage_type config)).

Definition create_memory_storage {C} `{!MemoryStorage C}
    (server : Mongo.Collection MongoMemoryStorage.Document)
    (clock : Oracle Z) (config : MemoryConfig.t C) : Outcome (option (MemoryBackend C)) :=
  if negb (MemoryConfig.enabled config) then Ok None
  else match MemoryConfig.custom_storage config with
       | Some custom =>
           if ms_bool custom then Ok (Some (CustomMemory custom))
           else memory_storage_of_type server clock config
       | None => memory_storage_of_type server clock config
       end.

(** The dispatch on [config.storage_type] that ends [create_log_storage]. *)
Definition log_storage_of_type {D}
    (server : Mongo.Collection MongoLogStorage.Document)
    (clock : Oracle Z) (config : LogConfig.t D) : Outcome (option (LogBackend D)) :=
  if String.eqb (LogConfig.storage_type config) "mongodb"
  then Ok (Some (BuiltinLog (MongoLogStorage.__init__ config server clock)))
  else if String.eqb (LogConfig.storage_type config) "file"
  then Raise (NotImplementedError "文件日志存储尚未实现，请使用自定义存储")
  else Raise (ValueError ("不支持的日志存储类型: " ++ LogConfig.storage_type config)).

Definition create_log_storage {D} `{!LogStorage D}
    (server : Mongo.Collection MongoLogStorage.Document)
    (clock : Oracle Z) (config : LogConfig.t D) : Outcome (option (LogBackend D)) :=
  if negb (LogConfig.enabled config) then Ok None
  else match LogConfig.custom_storage config with
       | Some custom =>
           if ls_bool custom then Ok (Some (CustomLog custom))
           else log_storage_of_type server clock config
       | None => log_storage_of_type server clock config
       end.

(** A method call on the object returned by the factory runs the method
    of the object's class. *)
Definition on_memory_backend {C A} (custom : M C A)
    (builtin : M (MongoMemoryStorage.t C) A) : M (MemoryBackend C) A :=
  λ b, match b with
       | CustomMemory c => let '(r, c') := custom c in (r, CustomMemory c')
       | BuiltinMemory m => let '(r, m') := builtin m in (r, BuiltinMemory m')
       end.

Definition on_log_backend {D A} (custom : M D A)
    (builtin : M (MongoLogStorage.t D) A) : M (LogBackend D) A :=
  λ b, match b with
       | CustomLog d => let '(r, d') := custom d in (r, CustomLog d')
       | BuiltinLog m => let '(r, m') := builtin m in (r, BuiltinLog m')
       end.

(** The truth value of the object returned by the factory. *)
Definition memory_backend_bool {C} `{!MemoryStorage C} (b : MemoryBackend C) : bool :=
  match b with
  | CustomMemory c => ms_bool c
  | BuiltinMemory m => ms_bool m
  end.

Definition log_backend_bool {D} `{!LogStorage D} (b : LogBackend D) : bool :=
  match b with
  | CustomLog d => ls_bool d
  | BuiltinLog m => ls_bool m
  end.

#[global] Instance memory_backend {C} `{!MemoryStorage C} : MemoryStorage (MemoryBackend C) := {
  ms_bool := memory_backend_bool;
  ms_initialize := on_memory_backend ms_initialize MongoMemoryStorage.initialize;
  ms_save_message u s r c m :=
    on_memory_backend (ms_save_message u s r c m) (MongoMemoryStorage.save_message u s r c m);
  ms_get_history u s n :=
    on_memory_backend (ms_get_history u s n) (MongoMemoryStorage.get_history u s n);
  ms_clear_history u s :=
    on_memory_backend (ms_clear_history u s) (MongoMemoryStorage.clear_history u s)
}.

#[global] Instance log_backend {D} `{!LogStorage D} : LogStorage (LogBackend D) := {
  ls_bool := log_backend_bool;
  ls_initialize := on_log_backend ls_initialize MongoLogStorage.initialize;
  ls_log_request u s d :=
    on_log_backend (ls_log_request u s d) (MongoLogStorage.log_request u s d);
  ls_log_response u s d r :=
    on_log_backend (ls_log_response u s d r) (MongoLogStorage.log_response u s d r);
  ls_log_error u s d :=
    on_log_backend (ls_log_error u s d) (MongoLogStorage.log_error u s d);
  ls_get_logs u s t0 t1 n :=
    on_log_backend (ls_get_logs u s t0 t1 n) (MongoLogStorage.get_logs u s t0 t1 n)
}.

End StorageFactory.

(** ** qianwen_client_enhanced.py: [class MemoryManager] *)
Module MemoryManager.

(** [cachetools.TTLCache]: a mapping from cache key to the cached list.
    Its truth value is that of a container, [len(cache) != 0]; expiry
    after the time to live and eviction beyond [maxsize] only ever remove
    keys. *)
Abbreviation TTLCache := (gmap string (list ChatMessage)).

Definition cache_truthy (cache : option TTLCache) : bool :=
  match cache with
  | Some c => negb (Nat.eqb (size c) 0)
  | None => false
  end.

(** [storage] is the object made by the factory, [_local_cache] is [None]
    or a [TTLCache], [now] supplies [datetime.now()]. *)
Record t (C : Type) := {
  config : MemoryConfig.t C;
  storage : option (StorageFactory.MemoryBackend C);
  _local_cache : option TTLCache;
  now : Oracle Z
}.
Arguments config {C} t.
Arguments storage {C} t.
Arguments _local_cache {C} t.
Arguments now {C} t.

(** [__init__]; [cachetools] tells whether the import of [TTLCache]
    succeeded. *)
Definition __init__ {C} `{!MemoryStorage C} (cachetools : bool)
    (server : Mongo.Collection MongoMemoryStorage.Document) (utc clock : Oracle Z)
    (cfg : MemoryConfig.t C) : Outcome (t C) :=
  match StorageFactory.create_memory_storage server utc cfg with
  | Raise e => Raise e
  | Ok st =>
      Ok {| config := cfg; storage := st;
            _local_cache := if cachetools && MemoryConfig.enabled cfg then Some ∅ else None;
            now := clock |}
  end.

Section methods.
Context {C : Type} `{!MemoryStorage C} {json_module : Json}.

Abbreviation Backend := (StorageFactory.MemoryBackend C).

Definition set_storage (st : option Backend) (self : t C) : t C :=
  {| config := config self; storage := st;
     _local_cache := _local_cache self; now := now self |}.

Definition set_cache (c : option TTLCache) (self : t C) : t C :=
  {| config := config self; storage := storage self;
     _local_cache := c; now := now self |}.

Definition read_now : M (t C) Z :=
  λ self, let '(t0, o) := next (now self) in
          (Ok t0, {| config := config self; storage := storage self;
                     _local_cache := _local_cache self; now := o |}).

Definition AttributeError : exn :=
  Exception "AttributeError" "'NoneType' object has no attribute".

(** A method call on [self.storage]. *)
Definition on_storage {A} (c : M Backend A) : M (t C) A :=
  λ self, match storage self with
          | Some st => let '(r, st') := c st in (r, set_storage (Some st') self)
          | None => (Raise AttributeError, self)
          end.

(** [bool(self.storage)], the test of [if self.storage:] and of
    [if not self.storage:]: [None] is falsy, an object answers for
    itself. *)
Definition storage_bool (self : t C) : bool :=
  match storage self with
  | Some st => ms_bool st
  | None => false
  end.

Definition cache_key (user_id session_id : string) : string :=
  user_id ++ ":" ++ session_id.

Definition initialize : M (t C) bool :=
  self <~ get;;
  if storage_bool self then on_storage ms_initialize
  else ret true.

Definition save_message (message : ChatMessage) : M (t C) unit :=
  self <~ get;;
  if negb (storage_bool self) then ret tt
  else
    try_except
      (on_storage
         (ms_save_message (user_id message) (session_id message) (role message)
            (match content message with
             | PStr s => s
             | v => json_dumps v
             end)
            (metadata message));;;
       self <~ get;;
       if cache_truthy (_local_cache self)
       then
         let key := cache_key (user_id message) (session_id message) in
         match default ∅ (_local_cache self) !! key with
         | Some cached =>
             modify (set_cache
                       (Some (<[key := (cached ++ [message])%list]>
                                (default ∅ (_local_cache self)))))
         | None => ret tt
         end
       else ret tt)
      (λ _, ret tt).

(** [except (json.JSONDecodeError, TypeError)]: whether the handler
    catches the exception ([json.loads] raises no subclass of the two). *)
Definition decode_error (e : exn) : bool :=
  String.eqb (exn_type e) "JSONDecodeError" || String.eqb (exn_type e) "TypeError".

(** The inner [try] of the loop of [get_history]: [json.loads(content)]
    with the two exceptions caught; on a content that is not a string
    [json.loads] raises [TypeError], which is one of them. *)
Definition loads_or_keep (content : PyVal) : Outcome PyVal :=
  match content with
  | PStr s => match json_loads s with
              | Ok v => Ok v
              | Raise e => if decode_error e then Ok (PStr s) else Raise e
              end
  | v => Ok v
  end.

(** The body of the [for msg_data in messages_data] loop. *)
Definition to_message (user_id session_id : string) (msg_data : HistoryEntry)
    : M (t C) ChatMessage :=
  content <~ lift (loads_or_keep (he_content msg_data));;
  t0 <~ read_now;;
  ret {| role := he_role msg_data; content := content;
         timestamp := default t0 (he_timestamp msg_data);
         user_id := user_id; session_id := session_id;
         metadata := default ∅ (he_metadata msg_data) |}.

Fixpoint for_each {A B} (f : A → M (t C) B) (l : list A) : M (t C) (list B) :=
  match l with
  | [] => ret []
  | x :: l => y <~ f x;; ys <~ for_each f l;; ret (y :: ys)
  end.

Definition get_history (user_id session_id : string) (limit : option Z)
    : M (t C) (list ChatMessage) :=
  self <~ get;;
  if negb (storage_bool self) then ret []
  else
    try_except
      (let key := cache_key user_id session_id in
       match (if cache_truthy (_local_cache self)
              then default ∅ (_local_cache self) !! key else None) with
       | Some cached_messages =>
           if int_truthy limit
           then ret (last_slice (default 0 limit) cached_messages)
           else ret cached_messages
       | None =>
           messages_data <~ on_storage (ms_get_history user_id session_id limit);;
           messages <~ for_each (to_message user_id session_id) messages_data;;
           self <~ get;;
           (if cache_truthy (_local_cache self)
            then modify (set_cache (Some (<[key := messages]> (default ∅ (_local_cache self)))))
            else ret tt);;;
           ret messages
       end)
      (λ _, ret []).

Definition clear_history (user_id session_id : string) : M (t C) unit :=
  self <~ get;;
  if negb (storage_bool self) then ret tt
  else
    try_except
      (on_storage (ms_clear_history user_id session_id);;;
       self <~ get;;
       if cache_truthy (_local_cache self)
       then modify (set_cache (Some (delete (cache_key user_id session_id)
                                       (default ∅ (_local_cache self)))))
       else ret tt)
      (λ _, ret tt).
End methods.
End MemoryManager.

(** ** qianwen_client_enhanced.py: [class LogManager] *)
Module LogManager.

(** [uuid4] supplies [str(uuid.uuid4())]. *)
Record t (D : Type) := {
  config : LogConfig.t D;
  storage : option (StorageFactory.LogBackend D);
  uuid4 : Oracle string
}.
Arguments config {D} t.
Arguments storage {D} t.
Arguments uuid4 {D} t.

Definition __init__ {D} `{!LogStorage D}
    (server : Mongo.Collection MongoLogStorage.Document)
    (utc : Oracle Z) (uuids : Oracle string)
    (cfg : LogConfig.t D) : Outcome (t D) :=
  match StorageFactory.create_log_storage server utc cfg with
  | Raise e => Raise e
  | Ok st => Ok {| config := cfg; storage := st; uuid4 := uuids |}
  end.

Section methods.
Context {D : Type} `{!LogStorage D}.

Abbreviation Backend := (StorageFactory.LogBackend D).

Definition set_storage (st : option Backend) (self : t D) : t D :=
  {| config := config self; storage := st; uuid4 := uuid4 self |}.

Definition AttributeError : exn :=
  Exception "AttributeError" "'NoneType' object has no attribute".

Definition read_uuid4 : M (t D) string :=
  λ self, let '(u, o) := next (uuid4 self) in
          (Ok u, {| config := config self; storage := storage self; uuid4 := o |}).

Definition on_storage {A} (c : M Backend A) : M (t D) A :=
  λ self, match storage self with
          | Some st => let '(r, st') := c st in (r, set_storage (Some st') self)
          | None => (Raise AttributeError, self)
          end.

(** [bool(self.storage)]. *)
Definition storage_bool (self : t D) : bool :=
  match storage self with
  | Some st => ls_bool st
  | None => false
  end.

(** [d.get(key)]. *)
Definition dict_get (d : PyDict) (key : string) : PyVal := default PNone (d !! key).

Definition initialize : M (t D) bool :=
  self <~ get;;
  if storage_bool self then on_storage ls_initialize
  else ret true.

(** [request_id or str(uuid.uuid4())]. *)
Definition or_uuid4 (request_id : option string) : M (t D) string :=
  if str_truthy request_id then ret (default "" request_id) else read_uuid4.

Definition log_request (user_id session_id : string) (request_data : PyDict)
    (request_id : option string) : M (t D) string :=
  self <~ get;;
  if negb (storage_bool self) then or_uuid4 request_id
  else
    request_id <~ or_uuid4 request_id;;
    try_except
      (let log_data : PyDict :=
         <["request_id" := PStr request_id]>
         (<["model" := dict_get request_data "model"]>
         (<["messages" := dict_get request_data "messages"]>
         (<["temperature" := dict_get request_data "temperature"]>
         (<["max_tokens" := dict_get request_data "max_tokens"]>
         (<["stream" := default (PBool false) (request_data !! "stream")]> ∅))))) in
       on_storage (ls_log_request user_id session_id log_data);;;
       ret tt)
      (λ _, ret tt);;;
    ret request_id.

Definition log_response (user_id session_id : string) (response_data : PyDict)
    (request_id : option string) : M (t D) unit :=
  self <~ get;;
  if negb (storage_bool self) then ret tt
  else
    try_except
      (let log_data : PyDict :=
         <["choices" := dict_get response_data "choices"]>
         (<["usage" := dict_get response_data "usage"]>
         (<["model" := dict_get response_data "model"]>
         (<["created" := dict_get response_data "created"]> ∅))) in
       on_storage (ls_log_response user_id session_id log_data request_id);;;
       ret tt)
      (λ _, ret tt).

Definition log_error (user_id session_id : string) (error_data : PyDict)
    : M (t D) unit :=
  self <~ get;;
  if negb (storage_bool self) then ret tt
  else
    try_except
      (on_storage (ls_log_error user_id session_id error_data);;;
       ret tt)
      (λ _, ret tt).

Definition get_logs (user_id session_id : option string)
    (start_time end_time : option Z) (limit : Z) : M (t D) (list LogRecord) :=
  self <~ get;;
  if negb (storage_bool self) then ret []
  else
    try_except
      (on_storage (ls_get_logs user_id session_id start_time end_time limit))
      (λ _, ret []).
End methods.
End LogManager.

(** ** Subscripting, as the interpreter does it

    The texts of the exceptions are those of CPython 3.11 and later.  A
    [str] is held as its UTF-8 bytes. *)

Definition TypeError (msg : string) : exn := Exception "TypeError" msg.

(** [type(v).__name__]. *)
Definition type_name (v : PyVal) : string :=
  match v with
  | PNone => "NoneType"
  | PBool _ => "bool"
  | PInt _ => "int"
  | PFloat _ => "float"
  | PStr _ => "str"
  | PList _ => "list"
  | PDict _ => "dict"
  end.

Definition not_subscriptable (v : PyVal) : exn :=
  TypeError ("'" ++ type_name v ++ "' object is not subscriptable").

Definition double_quote : Ascii.ascii := Ascii.ascii_of_nat 34.

Fixpoint occurs (c : Ascii.ascii) (s : string) : bool :=
  match s with
  | "" => false
  | String c' s' => Ascii.eqb c c' || occurs c s'
  end.

Definition hex_digit (n : N) : string :=
  String (Ascii.ascii_of_N (if (n <? 10)%N then 48 + n else 87 + n)) "".

Definition backslash : Ascii.ascii := Ascii.ascii_of_nat 92.

(** One character inside [repr(s)], between quotes [quote]. *)
Definition repr_char (quote c : Ascii.ascii) : string :=
  let n := Ascii.N_of_ascii c in
  if Ascii.eqb c backslash then String backslash (String backslash "")
  else if Ascii.eqb c quote then String backslash (String c "")
  else if (n =? 10)%N then String backslash "n"
  else if (n =? 13)%N then String backslash "r"
  else if (n =? 9)%N then String backslash "t"
  else if (n <? 32)%N || (n =? 127)%N
       then String backslash "x" ++ hex_digit (n / 16) ++ hex_digit (n mod 16)
       else String c "".

Fixpoint repr_chars (quote : Ascii.ascii) (s : string) : string :=
  match s with
  | "" => ""
  | String c s' => repr_char quote c ++ repr_chars quote s'
  end.

(** [repr(s)] for a [str]: between single quotes, unless the string has
    a single quote and no double quote; the backslash, the quote and the
    ASCII control characters are escaped.  The bytes above 127 are kept:
    the characters they encode are taken to be printable. *)
Definition repr (s : string) : string :=
  let quote := if occurs "'"%char s && negb (occurs double_quote s)
               then double_quote else "'"%char in
  String quote (repr_chars quote s ++ String quote "").

(** [KeyError(key)]: its text is [repr(key)]. *)
Definition KeyError (key : string) : exn := Exception "KeyError" (repr key).

(** [v[key]] for a string key. *)
Definition getitem (v : PyVal) (key : string) : Outcome PyVal :=
  match v with
  | PDict d =>
      match d !! key with
      | Some x => Ok x
      | None => Raise (KeyError key)
      end
  | PList _ => Raise (TypeError "list indices must be integers or slices, not str")
  | PStr _ => Raise (TypeError "string indices must be integers, not 'str'")
  | v => Raise (not_subscriptable v)
  end.

(** The bytes that continue the UTF-8 encoding of a character. *)
Fixpoint continuation (s : string) : string :=
  match s with
  | String c s' =>
      let n := Ascii.N_of_ascii c in
      if (128 <=? n)%N && (n <? 192)%N then String c (continuation s') else ""
  | "" => ""
  end.

(** [v[0]]; the keys of a [PDict] are strings, so [0] is none of them. *)
Definition getitem0 (v : PyVal) : Outcome PyVal :=
  match v with
  | PList (x :: _) => Ok x
  | PList [] => Raise (Exception "IndexError" "list index out of range")
  | PStr (String c s) => Ok (PStr (String c (continuation s)))
  | PStr "" => Raise (Exception "IndexError" "string index out of range")
  | PDict _ => Raise (Exception "KeyError" "0")
  | v => Raise (not_subscriptable v)
  end.

(** [max(a, b)] and [min(a, b)] on numbers: the first argument is kept
    unless the second is strictly greater (smaller). *)
Definition py_max (a b : Q) : Q := if Qle_bool b a then a else b.

Definition py_min (a b : Q) : Q := if Qle_bool a b then a else b.

Definition py_max_int (a b : Z) : Z := if b <=? a then a else b.

(** ** The local files

    What [os.path.exists] and [open] find.  A path names a regular file
    with its bytes, a directory, or a file the process may not open; a
    path that names nothing may or may not be one where a file can be
    created.  A [str] is held as its UTF-8 bytes, so writing a text in
    UTF-8 stores the text; what reading in text mode makes of the bytes
    of a file and what [base64.b64encode] makes of them are the library's
    business and are parameters. *)
Module Disk.

Inductive Entry :=
  | File (data : string)
  | Directory
  | Forbidden.

Record t := { entries : gmap string Entry; can_create : string → bool }.

(** [read_text] is [open(path, 'r', encoding='utf-8').read()] on the bytes
    of a file, [None] where it raises [UnicodeDecodeError]; [b64encode] is
    [base64.b64encode(data).decode('utf-8')]. *)
Class Codec := {
  read_text : string → option string;
  b64encode : string → string
}.

Definition FileNotFoundError (path : string) : exn :=
  Exception "FileNotFoundError" ("No such file or directory: " ++ path).

Definition IsADirectoryError (path : string) : exn :=
  Exception "IsADirectoryError" ("Is a directory: " ++ path).

Definition PermissionError (path : string) : exn :=
  Exception "PermissionError" ("Permission denied: " ++ path).

(** [os.path.exists(path)]. *)
Definition path_exists (disk : t) (path : string) : bool :=
  bool_decide (is_Some (entries disk !! path)).

(** [open(path, 'r')] and [open(path, 'rb')], up to the bytes of the file. *)
Definition open_read (disk : t) (path : string) : Outcome string :=
  match entries disk !! path with
  | Some (File data) => Ok data
  | Some Directory => Raise (IsADirectoryError path)
  | Some Forbidden => Raise (PermissionError path)
  | None => Raise (FileNotFoundError path)
  end.

(** [open(path, 'w')]: an existing file is emptied, a missing one is
    created empty. *)
Definition open_write (path : string) : M t unit :=
  λ disk,
  match entries disk !! path with
  | Some (File _) =>
      (Ok tt, {| entries := <[path := File ""]> (entries disk);
                 can_create := can_create disk |})
  | Some Directory => (Raise (IsADirectoryError path), disk)
  | Some Forbidden => (Raise (PermissionError path), disk)
  | None =>
      if can_create disk path
      then (Ok tt, {| entries := <[path := File ""]> (entries disk);
                      can_create := can_create disk |})
      else (Raise (FileNotFoundError path), disk)
  end.

(** [f.write(text)] on the file opened at [path]. *)
Definition write (path text : string) : M t unit :=
  λ disk,
  (Ok tt,
   {| entries :=
        <[path := File (match entries disk !! path with
                        | Some (File data) => data ++ text
                        | _ => text
                        end)]> (entries disk);
      can_create := can_create disk |}).

(** [s.endswith(suffix)]. *)
Definition endswith (s suffix : string) : bool :=
  String.eqb
    (String.substring (String.length s - String.length suffix) (String.length suffix) s)
    suffix.
End Disk.

(** ** config.py: the data classes as Python builds them

    The constructor a [@dataclass] generates checks the names of its
    keyword arguments and nothing else: a field holds whatever value it is
    given.  The records of this part keep every field, each a Python
    value; the typed records above are what the managers read of them.
    [cls( **v)] needs [v] to be a mapping. *)
Module ConfigData.

Definition not_a_mapping (cls : string) : exn :=
  TypeError (cls ++ "() argument after ** must be a mapping").

Definition unexpected_keyword (cls : string) : exn :=
  TypeError (cls ++ ".__init__() got an unexpected keyword argument").

(** The keyword arguments of [cls( **v)], when [v] is a mapping and names
    fields only. *)
Definition keywords (cls : string) (fields : list string) (v : PyVal) : Outcome PyDict :=
  match v with
  | PDict kwargs =>
      if bool_decide (Forall (λ key, key ∈ fields) (map_to_list kwargs).*1)
      then Ok kwargs
      else Raise (unexpected_keyword cls)
  | _ => Raise (not_a_mapping cls)
  end.

(** The value of a field: the keyword argument, else the default. *)
Definition field (kwargs : PyDict) (name : string) (dflt : PyVal) : PyVal :=
  default dflt (kwargs !! name).

(** [key in v] for a string [key]. *)
Definition contains (v : PyVal) (key : string) : Outcome bool :=
  match v with
  | PDict d => Ok (bool_decide (is_Some (d !! key)))
  | PList l =>
      Ok (existsb (λ x, match x with PStr s => String.eqb s key | _ => false end) l)
  | PStr s => Ok (bool_decide (is_Some (String.index 0 key s)))
  | _ => Raise (TypeError "argument is not iterable")
  end.

Module APIConfig.
Record t := {
  api_key : PyVal;
  base_url : PyVal;
  timeout : PyVal;
  max_retries : PyVal;
  retry_delay : PyVal
}.

Definition fields : list string :=
  ["api_key"; "base_url"; "timeout"; "max_retries"; "retry_delay"].

Definition make (kwargs : PyDict) : t :=
  {| api_key := field kwargs "api_key" PNone;
     base_url := field kwargs "base_url"
                   (PStr "https://dashscope.aliyuncs.com/compatible-mode/v1");
     timeout := field kwargs "timeout" (PInt 60);
     max_retries := field kwargs "max_retries" (PInt 3);
     retry_delay := field kwargs "retry_delay" (PFloat 1) |}.

Definition __init__ (v : PyVal) : Outcome t :=
  match keywords "APIConfig" fields v with
  | Ok kwargs => Ok (make kwargs)
  | Raise e => Raise e
  end.
End APIConfig.

Module ModelConfig.
Record t := {
  default_model : PyVal;
  default_temperature : PyVal;
  default_max_tokens : PyVal;
  default_system_message : PyVal;
  available_models : PyVal
}.

Definition fields : list string :=
  ["default_model"; "default_temperature"; "default_max_tokens";
   "default_system_message"; "available_models"].

Definition make (kwargs : PyDict) : t :=
  {| default_model := field kwargs "default_model" (PStr "qwen-plus");
     default_temperature := field kwargs "default_temperature" (PFloat 0.7);
     default_max_tokens := field kwargs "default_max_tokens" (PInt 2000);
     default_system_message := field kwargs "default_system_message" PNone;
     available_models :=
       field kwargs "available_models"
         (PList [PStr "qwen-plus"; PStr "qwen-max"; PStr "qwen-vl-plus";
                 PStr "qwen-vl-max"]) |}.

Definition __init__ (v : PyVal) : Outcome t :=
  match keywords "ModelConfig" fields v with
  | Ok kwargs => Ok (make kwargs)
  | Raise e => Raise e
  end.
End ModelConfig.

Module MemoryConfig.
Record t := {
  enabled : PyVal;
  storage_type : PyVal;
  max_history_length : PyVal;
  ttl_hours : PyVal;
  mongo_uri : PyVal;
  mongo_database : PyVal;
  mongo_collection : PyVal;
  redis_host : PyVal;
  redis_port : PyVal;
  redis_db : PyVal;
  redis_password : PyVal;
  file_storage_path : PyVal;
  custom_storage : PyVal
}.

Definition fields : list string :=
  ["enabled"; "storage_type"; "max_history_length"; "ttl_hours"; "mongo_uri";
   "mongo_database"; "mongo_collection"; "redis_host"; "redis_port"; "redis_db";
   "redis_password"; "file_storage_path"; "custom_storage"].

Definition make (kwargs : PyDict) : t :=
  {| enabled := field kwargs "enabled" (PBool true);
     storage_type := field kwargs "storage_type" (PStr "mongodb");
     max_history_length := field kwargs "max_history_length" (PInt 10);
     ttl_hours := field kwargs "ttl_hours" (PInt (24 * 7));
     mongo_uri := field kwargs "mongo_uri" (PStr "mongodb://localhost:27017");
     mongo_database := field kwargs "mongo_database" (PStr "qianwen_memory");
     mongo_collection := field kwargs "mongo_collection" (PStr "conversations");
     redis_host := field kwargs "redis_host" (PStr "localhost");
     redis_port := field kwargs "redis_port" (PInt 6379);
     redis_db := field kwargs "redis_db" (PInt 0);
     redis_password := field kwargs "redis_password" PNone;
     file_storage_path := field kwargs "file_storage_path" (PStr "./memory_data");
     custom_storage := field kwargs "custom_storage" PNone |}.

Definition __init__ (v : PyVal) : Outcome t :=
  match keywords "MemoryConfig" fields v with
  | Ok kwargs => Ok (make kwargs)
  | Raise e => Raise e
  end.
End MemoryConfig.

Module LogConfig.
Record t := {
  enabled : PyVal;
  storage_type : PyVal;
  log_level : PyVal;
  log_requests : PyVal;
  log_responses : PyVal;
  log_errors : PyVal;
  mongo_uri : PyVal;
  mongo_database : PyVal;
  mongo_collection : PyVal;
  file_storage_path : PyVal;
  file_rotation : PyVal;
  max_file_size : PyVal;
  custom_storage : PyVal
}.

Definition fields : list string :=
  ["enabled"; "storage_type"; "log_level"; "log_requests"; "log_responses";
   "log_errors"; "mongo_uri"; "mongo_database"; "mongo_collection";
   "file_storage_path"; "file_rotation"; "max_file_size"; "custom_storage"].

Definition make (kwargs : PyDict) : t :=
  {| enabled := field kwargs "enabled" (PBool true);
     storage_type := field kwargs "storage_type" (PStr "mongodb");
     log_level := field kwargs "log_level" (PStr "INFO");
     log_requests := field kwargs "log_requests" (PBool true);
     log_responses := field kwargs "log_responses" (PBool true);
     log_errors := field kwargs "log_errors" (PBool true);
     mongo_uri := field kwargs "mongo_uri" (PStr "mongodb://localhost:27017");
     mongo_database := field kwargs "mongo_database" (PStr "qianwen_logs");
     mongo_collection := field kwargs "mongo_collection" (PStr "api_logs");
     file_storage_path := field kwargs "file_storage_path" (PStr "./logs");
     file_rotation := field kwargs "file_rotation" (PStr "daily");
     max_file_size := field kwargs "max_file_size" (PStr "100MB");
     custom_storage := field kwargs "custom_storage" PNone |}.

Definition __init__ (v : PyVal) : Outcome t :=
  match keywords "LogConfig" fields v with
  | Ok kwargs => Ok (make kwargs)
  | Raise e => Raise e
  end.
End LogConfig.

Module QianwenConfig.
Record t := {
  api : APIConfig.t;
  model : ModelConfig.t;
  memory : MemoryConfig.t;
  log : LogConfig.t
}.

(** [cls()]: every part with its defaults. *)
Definition __init__ : t :=
  {| api := APIConfig.make ∅; model := ModelConfig.make ∅;
     memory := MemoryConfig.make ∅; log := LogConfig.make ∅ |}.

(** [if key in config_dict: config.part = Part( **config_dict[key])]: the
    part after the statement. *)
Definition part {T} (config_dict : PyVal) (key : string) (current : T)
    (construct : PyVal → Outcome T) : Outcome T :=
  match contains config_dict key with
  | Raise e => Raise e
  | Ok false => Ok current
  | Ok true =>
      match getitem config_dict key with
      | Ok v => construct v
      | Raise e => Raise e
      end
  end.

Definition from_dict (config_dict : PyVal) : Outcome t :=
  let config := __init__ in
  match part config_dict "api" (api config) APIConfig.__init__ with
  | Raise e => Raise e
  | Ok api_config =>
      match part config_dict "model" (model config) ModelConfig.__init__ with
      | Raise e => Raise e
      | Ok model_config =>
          match part config_dict "memory" (memory config) MemoryConfig.__init__ with
          | Raise e => Raise e
          | Ok memory_config =>
              match part config_dict "log" (log config) LogConfig.__init__ with
              | Raise e => Raise e
              | Ok log_config =>
                  Ok {| api := api_config; model := model_config;
                        memory := memory_config; log := log_config |}
              end
          end
      end
  end.

Definition to_dict (self : t) : PyDict :=
  <["api" :=
      PDict (<["api_key" := APIConfig.api_key (api self)]>
            (<["base_url" := APIConfig.base_url (api self)]>
            (<["timeout" := APIConfig.timeout (api self)]>
            (<["max_retries" := APIConfig.max_retries (api self)]>
            (<["retry_delay" := APIConfig.retry_delay (api self)]> ∅)))))]>
  (<["model" :=
      PDict (<["default_model" := ModelConfig.default_model (model self)]>
            (<["default_temperature" := ModelConfig.default_temperature (model self)]>
            (<["default_max_tokens" := ModelConfig.default_max_tokens (model self)]>
            (<["default_system_message" :=
                 ModelConfig.default_system_message (model self)]>
            (<["available_models" := ModelConfig.available_models (model self)]> ∅)))))]>
  (<["memory" :=
      PDict (<["enabled" := MemoryConfig.enabled (memory self)]>
            (<["storage_type" := MemoryConfig.storage_type (memory self)]>
            (<["max_history_length" := MemoryConfig.max_history_length (memory self)]>
            (<["ttl_hours" := MemoryConfig.ttl_hours (memory self)]>
            (<["mongo_uri" := MemoryConfig.mongo_uri (memory self)]>
            (<["mongo_database" := MemoryConfig.mongo_database (memory self)]>
            (<["mongo_collection" := MemoryConfig.mongo_collection (memory self)]>
            (<["redis_host" := MemoryConfig.redis_host (memory self)]>
            (<["redis_port" := MemoryConfig.redis_port (memory self)]>
            (<["redis_db" := MemoryConfig.redis_db (memory self)]>
            (<["file_storage_path" :=
                 MemoryConfig.file_storage_path (memory self)]> ∅)))))))))))]>
  (<["log" :=
      PDict (<["enabled" := LogConfig.enabled (log self)]>
            (<["storage_type" := LogConfig.storage_type (log self)]>
            (<["log_level" := LogConfig.log_level (log self)]>
            (<["log_requests" := LogConfig.log_requests (log self)]>
            (<["log_responses" := LogConfig.log_responses (log self)]>
            (<["log_errors" := LogConfig.log_errors (log self)]>
            (<["mongo_uri" := LogConfig.mongo_uri (log self)]>
            (<["mongo_database" := LogConfig.mongo_database (log self)]>
            (<["mongo_collection" := LogConfig.mongo_collection (log self)]>
            (<["file_storage_path" := LogConfig.file_storage_path (log self)]>
            (<["file_rotation" := LogConfig.file_rotation (log self)]>
            (<["max_file_size" := LogConfig.max_file_size (log self)]> ∅))))))))))))]>
  ∅))).

Section files.
Context {json_module : Json} {codec : Disk.Codec}.

(** [json_dump_indent] is the text [json.dump(obj, f, indent=2,
    ensure_ascii=False)] writes. *)
Context (json_dump_indent : PyVal → string).

Definition UnicodeDecodeError : exn :=
  Exception "UnicodeDecodeError" "'utf-8' codec can't decode bytes".

Definition from_file (disk : Disk.t) (config_file : string) : Outcome t :=
  match Disk.open_read disk config_file with
  | Raise e => Raise e
  | Ok data =>
      if Disk.endswith config_file ".json"
      then match Disk.read_text data with
           | None => Raise UnicodeDecodeError
           | Some text =>
               match json_loads text with
               | Raise e => Raise e
               | Ok config_dict => from_dict config_dict
               end
           end
      else Raise (StorageFactory.ValueError ("不支持的配置文件格式: " ++ config_file))
  end.

Definition save_to_file (self : t) (config_file : string) : M Disk.t unit :=
  let config_dict := to_dict self in
  Disk.open_write config_file;;;
  if Disk.endswith config_file ".json"
  then Disk.write config_file (json_dump_indent (PDict config_dict))
  else raise (StorageFactory.ValueError ("不支持的配置文件格式: " ++ config_file)).
End files.
End QianwenConfig.
End ConfigData.

(** ** config_examples.py: the configuration given as a dictionary *)
Module ConfigExamples.

Definition example_dict_config : PyDict :=
  <["api" :=
      PDict (<["api_key" := PStr "your-api-key-here"]>
            (<["base_url" := PStr "https://dashscope.aliyuncs.com/compatible-mode/v1"]>
            (<["timeout" := PInt 30]> ∅)))]>
  (<["model" :=
      PDict (<["default_model" := PStr "qwen-plus"]>
            (<["default_temperature" := PFloat 0.7]>
            (<["default_max_tokens" := PInt 2000]> ∅)))]>
  (<["memory" :=
      PDict (<["enabled" := PBool true]>
            (<["storage_type" := PStr "mongodb"]>
            (<["max_history_length" := PInt 20]>
            (<["mongodb_url" := PStr "mongodb://localhost:27017"]>
            (<["database_name" := PStr "qianwen_memory"]> ∅)))))]>
  (<["log" :=
      PDict (<["enabled" := PBool true]>
            (<["storage_type" := PStr "mongodb"]>
            (<["mongodb_url" := PStr "mongodb://localhost:27017"]>
            (<["database_name" := PStr "qianwen_logs"]> ∅))))]>
  ∅))).
End ConfigExamples.

(** ** qianwen_client_enhanced.py: [class QianwenClient] *)

Module QianwenConfig.
Record t (C D : Type) := {
  model : ModelConfig;
  memory : MemoryConfig.t C;
  log : LogConfig.t D
}.
Arguments model {C D} t.
Arguments memory {C D} t.
Arguments log {C D} t.
End QianwenConfig.

(** A chunk of a streamed completion, as far as [stream] looks into it:
    [chunk.choices[i].delta.content]. *)
Record ChunkChoice := { delta_content : option string }.

Record Chunk := { chunk_choices : list ChunkChoice }.

(** The asynchronous iterator returned for a streaming request: the chunks
    it delivers and, possibly, the exception that ends it early. *)
Record ChunkStream := { chunks : list Chunk; failure : option exn }.

Module QianwenClient.

(** [create] is [async_client.chat.completions.create] followed by
    [model_dump()]; [create_stream] is the same call for a streaming
    request; [now] supplies the [datetime.now()] default of
    [ChatMessage.timestamp]. *)
Record t (C D : Type) := {
  config : QianwenConfig.t C D;
  create : PyDict → Outcome PyDict;
  create_stream : PyDict → Outcome ChunkStream;
  now : Oracle Z;
  memory_manager : option (MemoryManager.t C);
  log_manager : option (LogManager.t D)
}.
Arguments config {C D} t.
Arguments create {C D} t.
Arguments create_stream {C D} t.
Arguments now {C D} t.
Arguments memory_manager {C D} t.
Arguments log_manager {C D} t.

(** What the constructors of the two managers find in the process. *)
Record Env := {
  cachetools : bool;
  memory_server : Mongo.Collection MongoMemoryStorage.Document;
  memory_utcnow : Oracle Z;
  manager_now : Oracle Z;
  log_server : Mongo.Collection MongoLogStorage.Document;
  log_utcnow : Oracle Z;
  uuids : Oracle string
}.

Section methods.
Context {C D : Type} `{!MemoryStorage C} `{!LogStorage D} {json_module : Json}.

Definition __init__ (cfg : QianwenConfig.t C D) (api : PyDict → Outcome PyDict)
    (api_stream : PyDict → Outcome ChunkStream) (clock : Oracle Z) : t C D :=
  {| config := cfg; create := api; create_stream := api_stream; now := clock;
     memory_manager := None; log_manager := None |}.

Definition set_memory_manager
    (m : option (MemoryManager.t C)) (self : t C D) : t C D :=
  {| config := config self; create := create self; create_stream := create_stream self;
     now := now self; memory_manager := m; log_manager := log_manager self |}.

Definition set_log_manager
    (l : option (LogManager.t D)) (self : t C D) : t C D :=
  {| config := config self; create := create self; create_stream := create_stream self;
     now := now self; memory_manager := memory_manager self; log_manager := l |}.

Definition read_now : M (t C D) Z :=
  λ self, let '(t0, o) := next (now self) in
          (Ok t0, {| config := config self; create := create self;
                     create_stream := create_stream self; now := o;
                     memory_manager := memory_manager self;
                     log_manager := log_manager self |}).

Definition AttributeError : exn :=
  Exception "AttributeError" "'NoneType' object has no attribute".

(** A method call on [self.memory_manager] and on [self.log_manager]. *)
Definition on_memory_manager {A}
    (c : M (MemoryManager.t C) A) : M (t C D) A :=
  λ self, match memory_manager self with
          | Some m => let '(r, m') := c m in (r, set_memory_manager (Some m') self)
          | None => (Raise AttributeError, self)
          end.

Definition on_log_manager {A}
    (c : M (LogManager.t D) A) : M (t C D) A :=
  λ self, match log_manager self with
          | Some l => let '(r, l') := c l in (r, set_log_manager (Some l') self)
          | None => (Raise AttributeError, self)
          end.

Definition initialize (env : Env) : M (t C D) unit :=
  self <~ get;;
  (if MemoryConfig.enabled (QianwenConfig.memory (config self))
   then
     m <~ lift (MemoryManager.__init__ (cachetools env) (memory_server env)
                  (memory_utcnow env) (manager_now env) (QianwenConfig.memory (config self)));;
     modify (set_memory_manager (Some m));;;
     on_memory_manager MemoryManager.initialize;;;
     ret tt
   else ret tt);;;
  (if LogConfig.enabled (QianwenConfig.log (config self))
   then
     l <~ lift (LogManager.__init__ (log_server env) (log_utcnow env) (uuids env)
                  (QianwenConfig.log (config self)));;
     modify (set_log_manager (Some l));;;
     on_log_manager LogManager.initialize;;;
     ret tt
   else ret tt).

Definition get_logs (user_id session_id : option string)
    (start_time end_time : option Z) (limit : Z) : M (t C D) (list LogRecord) :=
  self <~ get;;
  if bool_decide (is_Some (log_manager self))
  then on_log_manager (LogManager.get_logs user_id session_id start_time end_time limit)
  else ret [].

(** [_encode_image]; [disk] is what [open] finds. *)
Definition _encode_image {codec : Disk.Codec} (disk : Disk.t) (image_path : string)
    : Outcome string :=
  match Disk.open_read disk image_path with
  | Ok data => Ok (Disk.b64encode data)
  | Raise e => Raise e
  end.
End methods.
End QianwenClient.

(** ** qianwen_client_enhanced.py: [class QianwenChat]

    The session keeps a reference to its client; its methods that talk to
    the managers therefore run on the client.  The chained mutators return
    [self], modelled as the updated record. *)
Module QianwenChat.

Record t := {
  _user_id : string;
  _session_id : string;
  _model : string;
  _temperature : Q;
  _max_tokens : Z;
  _system_message : option string;
  _search_enabled : bool;
  _memory_enabled : bool
}.

(** [stamp] is [datetime.now().strftime('%Y%m%d_%H%M%S')]. *)
Definition __init__ {C D} (client : QianwenClient.t C D)
    (user_id session_id : option string) (stamp : string) : t :=
  let config := QianwenClient.config client in
  {| _user_id := if str_truthy user_id then default "" user_id else "default_user";
     _session_id := if str_truthy session_id then default "" session_id
                    else "session_" ++ stamp;
     _model := default_model (QianwenConfig.model config);
     _temperature := default_temperature (QianwenConfig.model config);
     _max_tokens := default_max_tokens (QianwenConfig.model config);
     _system_message := default_system_message (QianwenConfig.model config);
     _search_enabled := false;
     _memory_enabled := MemoryConfig.enabled (QianwenConfig.memory config) |}.

Definition model (model_name : string) (self : t) : t :=
  {| _user_id := _user_id self; _session_id := _session_id self;
     _model := model_name; _temperature := _temperature self;
     _max_tokens := _max_tokens self; _system_message := _system_message self;
     _search_enabled := _search_enabled self; _memory_enabled := _memory_enabled self |}.

Definition temperature (temp : Q) (self : t) : t :=
  {| _user_id := _user_id self; _session_id := _session_id self;
     _model := _model self; _temperature := py_max 0 (py_min 1 temp);
     _max_tokens := _max_tokens self; _system_message := _system_message self;
     _search_enabled := _search_enabled self; _memory_enabled := _memory_enabled self |}.

Definition max_tokens (tokens : Z) (self : t) : t :=
  {| _user_id := _user_id self; _session_id := _session_id self;
     _model := _model self; _temperature := _temperature self;
     _max_tokens := py_max_int 1 tokens; _system_message := _system_message self;
     _search_enabled := _search_enabled self; _memory_enabled := _memory_enabled self |}.

Definition system (message : string) (self : t) : t :=
  {| _user_id := _user_id self; _session_id := _session_id self;
     _model := _model self; _temperature := _temperature self;
     _max_tokens := _max_tokens self; _system_message := Some message;
     _search_enabled := _search_enabled self; _memory_enabled := _memory_enabled self |}.

Definition search (enabled : bool) (self : t) : t :=
  {| _user_id := _user_id self; _session_id := _session_id self;
     _model := _model self; _temperature := _temperature self;
     _max_tokens := _max_tokens self; _system_message := _system_message self;
     _search_enabled := enabled; _memory_enabled := _memory_enabled self |}.

Definition memory (enabled : bool) (self : t) : t :=
  {| _user_id := _user_id self; _session_id := _session_id self;
     _model := _model self; _temperature := _temperature self;
     _max_tokens := _max_tokens self; _system_message := _system_message self;
     _search_enabled := _search_enabled self; _memory_enabled := enabled |}.

Definition user (user_id : string) (self : t) : t :=
  {| _user_id := user_id; _session_id := _session_id self;
     _model := _model self; _temperature := _temperature self;
     _max_tokens := _max_tokens self; _system_message := _system_message self;
     _search_enabled := _search_enabled self; _memory_enabled := _memory_enabled self |}.

Definition session (session_id : string) (self : t) : t :=
  {| _user_id := _user_id self; _session_id := session_id;
     _model := _model self; _temperature := _temperature self;
     _max_tokens := _max_tokens self; _system_message := _system_message self;
     _search_enabled := _search_enabled self; _memory_enabled := _memory_enabled self |}.

(** One call of a chained mutator. *)
Inductive Mutator :=
  | Model (model_name : string)
  | Temperature (temp : Q)
  | MaxTokens (tokens : Z)
  | System (message : string)
  | Search (enabled : bool)
  | Memory (enabled : bool)
  | User (user_id : string)
  | Session (session_id : string).

Definition call (m : Mutator) (self : t) : t :=
  match m with
  | Model x => model x self
  | Temperature x => temperature x self
  | MaxTokens x => max_tokens x self
  | System x => system x self
  | Search x => search x self
  | Memory x => memory x self
  | User x => user x self
  | Session x => session x self
  end.

(** [chat.m1(..).m2(..)...]: the calls of a chain, applied left to right. *)
Definition chain (ms : list Mutator) (self : t) : t :=
  fold_left (λ s m, call m s) ms self.

(** [{"role": r, "content": c}]. *)
Definition message_dict (r : string) (c : PyVal) : PyDict :=
  <["role" := PStr r]> (<["content" := c]> ∅).

Definition QianwenAPIError (msg : string) : exn := Exception "QianwenAPIError" msg.

Definition web_search_tools : PyVal :=
  PList [PDict (<["type" := PStr "web_search"]>
                (<["web_search" := PDict (<["enable" := PBool true]> ∅)]> ∅))].

(** The text accumulated by the [async for] loop of [stream]. *)
Definition accumulate (full_content : string) (chunk : Chunk) : string :=
  match chunk_choices chunk with
  | c :: _ =>
      if str_truthy (delta_content c)
      then full_content ++ default "" (delta_content c)
      else full_content
  | [] => full_content
  end.

Section methods.
Context {C D : Type} `{!MemoryStorage C} `{!LogStorage D} {json_module : Json}.

Abbreviation Client := (QianwenClient.t C D).

Definition _build_messages (self : t) (message : string) : M Client (list PyDict) :=
  let messages :=
    if str_truthy (_system_message self)
    then [message_dict "system" (PStr (default "" (_system_message self)))]
    else [] in
  client <~ get;;
  messages <~
    (if _memory_enabled self && bool_decide (is_Some (QianwenClient.memory_manager client))
     then
       history <~ QianwenClient.on_memory_manager
                    (MemoryManager.get_history (_user_id self) (_session_id self)
                       (Some (MemoryConfig.max_history_length
                                (QianwenConfig.memory (QianwenClient.config client)))));;
       ret (messages ++ ((λ msg, message_dict (role msg) (content msg)) <$> history))%list
     else ret messages);;
  ret (messages ++ [message_dict "user" (PStr message)])%list.

(** The [except Exception as e] clause shared by [ask] and [stream];
    [request_params] is [locals().get('request_params', {})]. *)
Definition on_error {A} (self : t) (prefix : string) (request_params : PyDict)
    (e : exn) : M Client A :=
  client <~ get;;
  (if bool_decide (is_Some (QianwenClient.log_manager client))
   then QianwenClient.on_log_manager
          (LogManager.log_error (_user_id self) (_session_id self)
             (<["error_type" := PStr (exn_type e)]>
              (<["error_message" := PStr (exn_message e)]>
               (<["request_params" := PDict request_params]> ∅))))
   else ret tt);;;
  raise (QianwenAPIError (prefix ++ exn_message e)).

(** The dictionary literal [{"model": ..., **kwargs}]: keys given in
    [kwargs] replace the ones written before them. *)
Definition base_params (self : t) (messages : list PyDict) : PyDict :=
  <["model" := PStr (_model self)]>
  (<["messages" := PList (PDict <$> messages)]>
  (<["temperature" := PFloat (_temperature self)]>
  (<["max_tokens" := PInt (_max_tokens self)]> ∅))).

(** [request_id = None], then, [if self.client.log_manager:], the call of
    [log_request] that assigns it. *)
Definition log_request (self : t) (request_params : PyDict) : M Client (option string) :=
  client <~ get;;
  if bool_decide (is_Some (QianwenClient.log_manager client))
  then
    request_id <~ QianwenClient.on_log_manager
                    (LogManager.log_request (_user_id self) (_session_id self)
                       request_params None);;
    ret (Some request_id)
  else ret None.

(** [ChatMessage(role=r, content=c, user_id=self._user_id,
    session_id=self._session_id)]: the time stamp and the metadata take
    their defaults, [datetime.now()] and [{}]. *)
Definition new_message (self : t) (r : string) (c : PyVal) : M Client ChatMessage :=
  t0 <~ QianwenClient.read_now;;
  ret {| role := r; content := c; timestamp := t0;
         user_id := _user_id self; session_id := _session_id self; metadata := ∅ |}.

Definition ask (self : t) (message : string) (kwargs : PyDict) : M Client PyDict :=
  messages <~ try_except (_build_messages self message)
                (on_error self "API调用失败: " ∅);;
  let request_params := kwargs ∪ base_params self messages in
  let request_params :=
    if _search_enabled self
    then <["tools" := web_search_tools]> request_params
    else request_params in
  try_except
    (request_id <~ log_request self request_params;;
     client <~ get;;
     response_dict <~ lift (QianwenClient.create client request_params);;
     (if bool_decide (is_Some (QianwenClient.log_manager client))
      then QianwenClient.on_log_manager
             (LogManager.log_response (_user_id self) (_session_id self)
                response_dict request_id)
      else ret tt);;;
     (if _memory_enabled self && bool_decide (is_Some (QianwenClient.memory_manager client))
      then
        user_message <~ new_message self "user" (PStr message);;
        QianwenClient.on_memory_manager (MemoryManager.save_message user_message);;;
        if truthy (LogManager.dict_get response_dict "choices")
        then
          choices <~ lift (getitem (PDict response_dict) "choices");;
          choice <~ lift (getitem0 choices);;
          reply <~ lift (getitem choice "message");;
          assistant_content <~ lift (getitem reply "content");;
          assistant_message <~ new_message self "assistant" assistant_content;;
          QianwenClient.on_memory_manager (MemoryManager.save_message assistant_message)
        else ret tt
      else ret tt);;;
     ret response_dict)
    (on_error self "API调用失败: " request_params).

(** The inner [try] of [stream]: the request is first sent with
    [stream_options]; a [TypeError] makes it be sent again without.  The
    first component is [request_params] as the call leaves it. *)
Definition connect (client : Client) (request_params : PyDict)
    : PyDict * Outcome ChunkStream :=
  let with_options :=
    <["stream_options" := PDict (<["include_usage" := PBool true]> ∅)]> request_params in
  match QianwenClient.create_stream client with_options with
  | Ok s => (with_options, Ok s)
  | Raise e =>
      if String.eqb (exn_type e) "TypeError"
      then (delete "stream_options" with_options,
            QianwenClient.create_stream client (delete "stream_options" with_options))
      else (with_options, Raise e)
  end.

(** What follows the [async for] loop inside the [try] of [stream]. *)
Definition finish (self : t) (message full_content : string)
    (request_id : option string) : M Client unit :=
  client <~ get;;
  (if _memory_enabled self && bool_decide (is_Some (QianwenClient.memory_manager client))
      && negb (String.eqb full_content "")
   then
     user_message <~ new_message self "user" (PStr message);;
     QianwenClient.on_memory_manager (MemoryManager.save_message user_message);;;
     assistant_message <~ new_message self "assistant" (PStr full_content);;
     QianwenClient.on_memory_manager (MemoryManager.save_message assistant_message)
   else ret tt);;;
  (if bool_decide (is_Some (QianwenClient.log_manager client))
   then QianwenClient.on_log_manager
          (LogManager.log_response (_user_id self) (_session_id self)
             (<["content" := PStr full_content]> (<["stream" := PBool true]> ∅))
             request_id)
   else ret tt).

(** [stream], consumed to its end: the chunks yielded to the caller, in
    order, and how the generator terminates. *)
Definition stream (self : t) (message : string) (kwargs : PyDict)
    : Client → list Chunk * (Outcome unit * Client) :=
  λ client,
  match try_except (_build_messages self message)
          (on_error self "流式API调用失败: " ∅) client with
  | (Raise e, client) => ([], (Raise e, client))
  | (Ok messages, client) =>
      let request_params :=
        kwargs ∪ <["stream" := PBool true]> (base_params self messages) in
      let request_params :=
        if _search_enabled self
        then <["tools" := web_search_tools]> request_params
        else request_params in
      match log_request self request_params client with
      | (Raise e, client) =>
          ([], on_error self "流式API调用失败: " request_params e client)
      | (Ok request_id, client) =>
          match connect client request_params with
          | (request_params, Raise e) =>
              ([], on_error self "流式API调用失败: " request_params e client)
          | (request_params, Ok source) =>
              let full_content := fold_left accumulate (chunks source) "" in
              (chunks source,
               match failure source with
               | Some e => on_error self "流式API调用失败: " request_params e client
               | None =>
                   try_except (finish self message full_content request_id)
                     (on_error self "流式API调用失败: " request_params) client
               end)
          end
      end
  end.

(** [clear_memory] and [get_history]. *)
Definition clear_memory (self : t) : M Client unit :=
  client <~ get;;
  if bool_decide (is_Some (QianwenClient.memory_manager client))
  then QianwenClient.on_memory_manager
         (MemoryManager.clear_history (_user_id self) (_session_id self))
  else ret tt.

Definition get_history (self : t) (limit : option Z) : M Client (list ChatMessage) :=
  client <~ get;;
  if bool_decide (is_Some (QianwenClient.memory_manager client))
  then QianwenClient.on_memory_manager
         (MemoryManager.get_history (_user_id self) (_session_id self) limit)
  else ret [].

(** The two kinds of part of a multimodal message: [{"type": "text",
    "text": message}] and [{"type": "image_url", "image_url": {"url":
    "data:image/jpeg;base64," + image_base64}}]. *)
Definition text_part (message : string) : PyDict :=
  <["type" := PStr "text"]> (<["text" := PStr message]> ∅).

Definition image_part (image_base64 : string) : PyDict :=
  <["type" := PStr "image_url"]>
  (<["image_url" :=
       PDict (<["url" := PStr ("data:image/jpeg;base64," ++ image_base64)]> ∅)]> ∅).

(** The first statements of [_multimodal_request], which build the
    messages of the request: the history, then the system message put in
    front of it, then the multimodal message. *)
Definition _multimodal_messages (self : t) (multimodal_content : list PyDict)
    : M Client (list PyDict) :=
  client <~ get;;
  messages <~
    (if _memory_enabled self && bool_decide (is_Some (QianwenClient.memory_manager client))
     then
       history <~ QianwenClient.on_memory_manager
                    (MemoryManager.get_history (_user_id self) (_session_id self)
                       (Some (MemoryConfig.max_history_length
                                (QianwenConfig.memory (QianwenClient.config client)))));;
       ret ((λ msg, message_dict (role msg) (content msg)) <$> history)
     else ret []);;
  let messages :=
    if str_truthy (_system_message self)
    then message_dict "system" (PStr (default "" (_system_message self))) :: messages
    else messages in
  ret (messages ++ [message_dict "user" (PList (PDict <$> multimodal_content))])%list.

Definition _multimodal_request (self : t) (multimodal_content : list PyDict)
    (kwargs : PyDict) : M Client PyDict :=
  messages <~ try_except (_multimodal_messages self multimodal_content)
                (on_error self "多模态API调用失败: " ∅);;
  let request_params := kwargs ∪ base_params self messages in
  try_except
    (request_id <~ log_request self request_params;;
     client <~ get;;
     response_dict <~ lift (QianwenClient.create client request_params);;
     (if bool_decide (is_Some (QianwenClient.log_manager client))
      then QianwenClient.on_log_manager
             (LogManager.log_response (_user_id self) (_session_id self)
                response_dict request_id)
      else ret tt);;;
     (if _memory_enabled self && bool_decide (is_Some (QianwenClient.memory_manager client))
      then
        user_message <~ new_message self "user" (PList (PDict <$> multimodal_content));;
        QianwenClient.on_memory_manager (MemoryManager.save_message user_message);;;
        if truthy (LogManager.dict_get response_dict "choices")
        then
          choices <~ lift (getitem (PDict response_dict) "choices");;
          choice <~ lift (getitem0 choices);;
          reply <~ lift (getitem choice "message");;
          assistant_content <~ lift (getitem reply "content");;
          assistant_message <~ new_message self "assistant" assistant_content;;
          QianwenClient.on_memory_manager (MemoryManager.save_message assistant_message)
        else ret tt
      else ret tt);;;
     ret response_dict)
    (on_error self "多模态API调用失败: " request_params).

Section local_files.
Context {codec : Disk.Codec}.

Definition image (disk : Disk.t) (self : t) (message image_path : string)
    (kwargs : PyDict) : M Client PyDict :=
  if negb (Disk.path_exists disk image_path)
  then raise (QianwenAPIError ("图片文件不存在: " ++ image_path))
  else
    image_base64 <~ lift (QianwenClient._encode_image disk image_path);;
    _multimodal_request self [text_part message; image_part image_base64] kwargs.

(** The [for frame_path in video_frames] loop of [video]: the parts it
    appends, or the exception that ends it. *)
Fixpoint frame_parts (disk : Disk.t) (video_frames : list string)
    : Outcome (list PyDict) :=
  match video_frames with
  | [] => Ok []
  | frame_path :: video_frames =>
      if negb (Disk.path_exists disk frame_path)
      then Raise (QianwenAPIError ("视频帧文件不存在: " ++ frame_path))
      else
        match QianwenClient._encode_image disk frame_path with
        | Raise e => Raise e
        | Ok frame_base64 =>
            match frame_parts disk video_frames with
            | Raise e => Raise e
            | Ok parts => Ok (image_part frame_base64 :: parts)
            end
        end
  end.

Definition video (disk : Disk.t) (self : t) (message : string)
    (video_frames : list string) (kwargs : PyDict) : M Client PyDict :=
  parts <~ lift (frame_parts disk video_frames);;
  _multimodal_request self (text_part message :: parts) kwargs.

(** The line feed of ["\n"]. *)
Definition newline : string := String (Ascii.ascii_of_nat 10) "".

Definition document (disk : Disk.t) (self : t) (message document_path : string)
    (kwargs : PyDict) : M Client PyDict :=
  if negb (Disk.path_exists disk document_path)
  then raise (QianwenAPIError ("文档文件不存在: " ++ document_path))
  else
    data <~ lift (Disk.open_read disk document_path);;
    match Disk.read_text data with
    | None => raise (QianwenAPIError ("无法读取文档内容: " ++ document_path))
    | Some doc_content =>
        ask self (message ++ newline ++ newline ++ "文档内容：" ++ newline ++ doc_content)
          kwargs
    end.
End local_files.
End methods.
End QianwenChat.

(** ** config_examples.py: the custom storages shipped with the library

    Both write to files.  [disk_ok] tells whether [open] succeeds; the
    classes catch [FileNotFoundError] only, so any other failure of [open]
    leaves the method as an [OSError]. *)

Definition OSError : exn := Exception "OSError" "cannot open file".

(** [os.path.join(a, b)] as [posixpath] defines it: a [b] that starts at
    the root replaces [a]; otherwise the two are put together with one
    separator between them, none when [a] is empty or ends with one. *)
Definition starts_at_root (path : string) : bool :=
  match path with
  | String c _ => Ascii.eqb c "/"%char
  | "" => false
  end.

Fixpoint ends_with_separator (path : string) : bool :=
  match path with
  | "" => false
  | String c "" => Ascii.eqb c "/"%char
  | String _ rest => ends_with_separator rest
  end.

Definition os_path_join (a b : string) : string :=
  if starts_at_root b then b
  else if String.eqb a "" || ends_with_separator a then a ++ b
  else a ++ "/" ++ b.

Module FileMemoryStorage.

(** [locate] is what the file system makes of a path: the file it names,
    so that two paths name the same file exactly when [locate] sends them
    to the same place ([u.json] and [./u.json], say).  [files] maps a
    place to the list of messages stored in the file there. *)
Record t := {
  disk_ok : bool;
  locate : string → string;
  files : gmap string (list HistoryEntry);
  now : Oracle Z
}.

(** [self.storage_dir]: [MemoryConfig] has no attribute [storage_dir], so
    the default of the [getattr] is taken. *)
Definition storage_dir : string := "./memory_data".

Definition _get_file_path (user_id session_id : string) : string :=
  os_path_join storage_dir (user_id ++ "_" ++ session_id ++ ".json").

Definition initialize : M t bool := ret true.

Definition save_message (user_id session_id role content : string)
    (metadata : PyDict) : M t bool :=
  λ self,
  if negb (disk_ok self) then (Raise OSError, self)
  else
    let file_path := _get_file_path user_id session_id in
    let messages := default [] (files self !! locate self file_path) in
    let '(t0, o) := next (now self) in
    let message_data :=
      {| he_role := role; he_content := PStr content;
         he_metadata := Some metadata; he_timestamp := Some t0 |} in
    (Ok false,
     {| disk_ok := true; locate := locate self;
        files := <[locate self file_path := (messages ++ [message_data])%list]>
                   (files self);
        now := o |}).

Definition get_history (user_id session_id : string) (limit : option Z)
    : M t (list HistoryEntry) :=
  λ self,
  if negb (disk_ok self) then (Raise OSError, self)
  else
    match files self !! locate self (_get_file_path user_id session_id) with
    | Some messages =>
        (Ok (if int_truthy limit
             then last_slice (default 0 limit) messages
             else messages), self)
    | None => (Ok [], self)
    end.

Definition clear_history (user_id session_id : string) : M t bool :=
  λ self,
  if negb (disk_ok self) then (Raise OSError, self)
  else
    (Ok false,
     {| disk_ok := true; locate := locate self;
        files := delete (locate self (_get_file_path user_id session_id)) (files self);
        now := now self |}).

(** The class defines neither [__bool__] nor [__len__]. *)
#[global] Instance storage : MemoryStorage t := {
  ms_bool _ := true;
  ms_initialize := initialize;
  ms_save_message := save_message;
  ms_get_history := get_history;
  ms_clear_history := clear_history
}.
End FileMemoryStorage.

Module FileLogStorage.

(** [lines] is what has been appended to the log files, oldest first; the
    file a line went to is named after its [lr_log_type]. *)
Record t := {
  disk_ok : bool;
  lines : list LogRecord;
  now : Oracle Z
}.

Definition initialize : M t bool := ret true.

Definition append (user_id session_id log_type : string) (data : PyDict)
    (request_id : option string) : M t bool :=
  λ self,
  if negb (disk_ok self) then (Raise OSError, self)
  else
    let '(t0, o) := next (now self) in
    let log_entry :=
      {| lr_user_id := user_id; lr_session_id := session_id;
         lr_log_type := log_type; lr_data := data;
         lr_timestamp := t0; lr_request_id := request_id |} in
    (Ok false,
     {| disk_ok := true; lines := (lines self ++ [log_entry])%list; now := o |}).

Definition log_request (user_id session_id : string) (request_data : PyDict) : M t bool :=
  append user_id session_id "request" request_data None.

Definition log_response (user_id session_id : string) (response_data : PyDict)
    (request_id : option string) : M t bool :=
  append user_id session_id "response" response_data request_id.

Definition log_error (user_id session_id : string) (error_data : PyDict) : M t bool :=
  append user_id session_id "error" error_data None.

Definition get_logs (user_id session_id : option string)
    (start_time end_time : option Z) (limit : Z) : M t (list LogRecord) :=
  ret [].

(** The class defines neither [__bool__] nor [__len__]. *)
#[global] Instance storage : LogStorage t := {
  ls_bool _ := true;
  ls_initialize := initialize;
  ls_log_request := log_request;
  ls_log_response := log_response;
  ls_log_error := log_error;
  ls_get_logs := get_logs
}.
End FileLogStorage.

(** ** A [json] instance to run the model on concrete inputs

    [loads] decodes the JSON texts that are plain decimal integers, up
    to the 4300 digits the interpreter converts ([sys.int_max_str_digits]);
    on a longer one it raises [ValueError], as [int] does inside
    [json.loads], and it rejects every other text.  [dumps] writes
    [None], [True], [False] and the integers, the only values the runs
    below hand to it. *)
Module IntegerJson.

Definition JSONDecodeError : exn := Exception "JSONDecodeError" "Expecting value".

Definition too_many_digits (n : nat) : exn :=
  Exception "ValueError"
    ("Exceeds the limit (4300 digits) for integer string conversion: value has "
     ++ pretty n ++ " digits; use sys.set_int_max_str_digits() to increase the limit").

Definition digit (c : Ascii.ascii) : option Z :=
  let n := Z.of_N (Ascii.N_of_ascii c) in
  if (48 <=? n) && (n <=? 57) then Some (n - 48) else None.

Fixpoint digits (acc : Z) (s : string) : option Z :=
  match s with
  | "" => Some acc
  | String c s' =>
      match digit c with
      | Some d => digits (10 * acc + d) s'
      | None => None
      end
  end.

Definition loads (s : string) : Outcome PyVal :=
  match s with
  | "" => Raise JSONDecodeError
  | String "0"%char (String _ _) => Raise JSONDecodeError
  | _ =>
      match digits 0 s with
      | Some z =>
          if (4300 <? String.length s)%nat then Raise (too_many_digits (String.length s))
          else Ok (PInt z)
      | None => Raise JSONDecodeError
      end
  end.

Definition dumps (v : PyVal) : string :=
  match v with
  | PBool true => "true"
  | PBool false => "false"
  | PInt z => pretty z
  | _ => "null"
  end.

Definition json : Json := {| json_dumps := dumps; json_loads := loads |}.
End IntegerJson.

(** ** A storage that fails

    A custom storage written without any [try], whose backend is down:
    every method raises.  It implements both interfaces and serves as the
    failing implementation in the runs below. *)
Module DownStorage.

Inductive t := Down.

Definition ConnectionError : exn := Exception "ConnectionError" "backend is down".

#[global] Instance memory : MemoryStorage t := {
  ms_bool _ := true;
  ms_initialize := raise ConnectionError;
  ms_save_message _ _ _ _ _ := raise ConnectionError;
  ms_get_history _ _ _ := raise ConnectionError;
  ms_clear_history _ _ := raise ConnectionError
}.

#[global] Instance log : LogStorage t := {
  ls_bool _ := true;
  ls_initialize := raise ConnectionError;
  ls_log_request _ _ _ := raise ConnectionError;
  ls_log_response _ _ _ _ := raise ConnectionError;
  ls_log_error _ _ _ := raise ConnectionError;
  ls_get_logs _ _ _ _ _ := raise ConnectionError
}.
End DownStorage.

(** ** A storage with a length

    Two custom storages, one for each interface, that keep what they are
    given in a list of their own and, as containers do, define [__len__]
    as the length of that list:

      def __init__(self): self.messages = []
      def __len__(self): return len(self.messages)

    An instance that holds nothing is falsy. *)
Module ListStorage.

(** [ListMemoryStorage]: the messages, each with its user and session. *)
Record Memory := { messages : list (string * string * HistoryEntry) }.

Definition of_session (user_id session_id : string)
    (row : string * string * HistoryEntry) : bool :=
  String.eqb row.1.1 user_id && String.eqb row.1.2 session_id.

#[global] Instance memory : MemoryStorage Memory := {
  ms_bool self := negb (Nat.eqb (length (messages self)) 0);
  ms_initialize := ret true;
  ms_save_message user_id session_id role content metadata :=
    λ self,
    (Ok true,
     {| messages :=
          (messages self
           ++ [(user_id, session_id,
                {| he_role := role; he_content := PStr content;
                   he_metadata := Some metadata; he_timestamp := None |})])%list |});
  ms_get_history user_id session_id limit :=
    λ self,
    (Ok (snd <$> filter (λ row, of_session user_id session_id row = true) (messages self)),
     self);
  ms_clear_history user_id session_id :=
    λ self,
    (Ok true,
     {| messages := filter (λ row, of_session user_id session_id row = false)
                      (messages self) |})
}.

(** [ListLogStorage]: the kind and the data of what was logged. *)
Record Log := { records : list (string * PyDict) }.

Definition append (kind : string) (data : PyDict) : M Log bool :=
  λ self, (Ok true, {| records := (records self ++ [(kind, data)])%list |}).

#[global] Instance log : LogStorage Log := {
  ls_bool self := negb (Nat.eqb (length (records self)) 0);
  ls_initialize := ret true;
  ls_log_request _ _ data := append "request" data;
  ls_log_response _ _ data _ := append "response" data;
  ls_log_error _ _ data := append "error" data;
  ls_get_logs _ _ _ _ _ := ret []
}.
End ListStorage.

(** * The vocabulary of the statements *)

(** The closed interval the temperature is clamped to. *)
Definition in_unit (q : Q) : Prop := (0 <= q)%Q ∧ (q <= 1)%Q.

(** The computation [c], started in [s], returns normally. *)
Definition returns {St A} (c : M St A) (s : St) : Prop :=
  ∃ a s', c s = (Ok a, s').

(** Running [c] from [s] ends in an outcome and a state that satisfy [Q]. *)
Definition wp {St A} (c : M St A) (Q : Outcome A → St → Prop) (s : St) : Prop :=
  Q (c s).1 (c s).2.

(** The documents of one session, oldest first: what the cursor of
    [MongoMemoryStorage.get_history] selects before any limit. *)
Definition session_documents (user session : string)
    (docs : list MongoMemoryStorage.Document) : list MongoMemoryStorage.Document :=
  Mongo.sort_ascending MongoMemoryStorage.doc_timestamp
    (filter (λ d, MongoMemoryStorage.query user session d = true) docs).

(** The limit the storage puts on its cursor: the magnitude of the [limit]
    argument when that is given and not zero, else the configured
    [MemoryConfig.max_history_length] when that is positive, else none. *)
Definition applied_limit (limit : option Z) (configured : Z) : option nat :=
  if int_truthy limit then Some (Z.abs_nat (default 0 limit))
  else if 0 <? configured then Some (Z.abs_nat configured)
  else None.

(** A list cut after the limit, when there is one. *)
Definition truncate {A} (k : option nat) (l : list A) : list A :=
  match k with
  | Some k => take k l
  | None => l
  end.

(** The oracle after [k] more readings. *)
Definition advance {A} (k : nat) (o : Oracle A) : Oracle A :=
  {| readings := readings o; consumed := consumed o + k |}.

(** Messages in non-decreasing order of time stamp. *)
Definition by_timestamp : relation ChatMessage := λ a b, timestamp a ≤ timestamp b.

(** The content fragment a chunk carries: [choices[0].delta.content], or
    nothing when the chunk has no choice or the choice no content. *)
Definition fragment (chunk : Chunk) : string :=
  match chunk_choices chunk with
  | c :: _ => default "" (delta_content c)
  | [] => ""
  end.

(** The fragments of a sequence of chunks, concatenated in order. *)
Definition concat_fragments (yielded : list Chunk) : string :=
  foldr (λ chunk rest, fragment chunk ++ rest) "" yielded.

(** The documents of the built-in storage of a client. *)
Definition memory_documents {C D} (client : QianwenClient.t C D)
    : list MongoMemoryStorage.Document :=
  match QianwenClient.memory_manager client with
  | Some m =>
      match MemoryManager.storage m with
      | Some (StorageFactory.BuiltinMemory mongo) =>
          Mongo.documents (MongoMemoryStorage.remote mongo)
      | _ => []
      end
  | None => []
  end.

Section statements.
Context {C D : Type} `{!MemoryStorage C} `{!LogStorage D} {json_module : Json}.

(** The string handed to the storage for the content of a message. *)
Definition stored_content (message : ChatMessage) : string :=
  match content message with
  | PStr s => s
  | v => json_dumps v
  end.

(** An initialised storage whose server answers. *)
Definition ready (self : MongoMemoryStorage.t C) : Prop :=
  MongoMemoryStorage._collection self = true
  ∧ Mongo.server_up (MongoMemoryStorage.remote self) = true.

(** [json.loads] settles a text when it returns a value or raises one of
    the two exceptions the manager provides for, [JSONDecodeError] and
    [TypeError]; it does not when it raises another one ([ValueError],
    [RecursionError]). *)
Definition settled (s : string) : bool :=
  match json_loads s with
  | Ok _ => true
  | Raise e => MemoryManager.decode_error e
  end.

(** The same for the [content] of an entry; [json.loads] raises
    [TypeError] on a content that is not a string. *)
Definition settled_content (v : PyVal) : bool :=
  match v with
  | PStr s => settled s
  | _ => true
  end.

(** What the manager makes of the [content] of a stored entry, a text
    [json.loads] settles when it is a string. *)
Definition decode (v : PyVal) : PyVal :=
  match v with
  | PStr s => match json_loads s with
              | Ok v => v
              | Raise _ => PStr s
              end
  | v => v
  end.

(** The message the manager builds from a document of the built-in
    storage. *)
Definition message_of_document (user session : string)
    (d : MongoMemoryStorage.Document) : ChatMessage :=
  {| role := MongoMemoryStorage.doc_role d;
     content := decode (PStr (MongoMemoryStorage.doc_content d));
     timestamp := MongoMemoryStorage.doc_timestamp d;
     user_id := user; session_id := session;
     metadata := MongoMemoryStorage.doc_metadata d |}.

(** The messages the manager builds from the documents the built-in
    storage returns: one for each, unless [json.loads] does not settle
    the content of one of them, and then none at all. *)
Definition messages_of_documents (user session : string)
    (docs : list MongoMemoryStorage.Document) : list ChatMessage :=
  if forallb (λ d, settled (MongoMemoryStorage.doc_content d)) docs
  then message_of_document user session <$> docs
  else [].

(** The number of documents before the first whose content [json.loads]
    does not settle: the messages the manager gets to build, each with a
    reading of its clock. *)
Fixpoint settled_prefix (docs : list MongoMemoryStorage.Document) : nat :=
  match docs with
  | d :: docs =>
      if settled (MongoMemoryStorage.doc_content d) then S (settled_prefix docs) else 0%nat
  | [] => 0%nat
  end.

(** The manager after it has read its clock up to [o]. *)
Definition with_now (o : Oracle Z) (m : MemoryManager.t C) : MemoryManager.t C :=
  {| MemoryManager.config := MemoryManager.config m;
     MemoryManager.storage := MemoryManager.storage m;
     MemoryManager._local_cache := MemoryManager._local_cache m;
     MemoryManager.now := o |}.

(** The document [insert_one] receives. *)
Definition new_document (mongo : MongoMemoryStorage.t C)
    (user session r text : string) (md : PyDict) : MongoMemoryStorage.Document :=
  {| MongoMemoryStorage.doc_user_id := user; MongoMemoryStorage.doc_session_id := session;
     MongoMemoryStorage.doc_role := r;
     MongoMemoryStorage.doc_content := text; MongoMemoryStorage.doc_metadata := md;
     MongoMemoryStorage.doc_timestamp := (next (MongoMemoryStorage.utcnow mongo)).1 |}.

(** The storage after a successful [save_message]. *)
Definition inserted (mongo : MongoMemoryStorage.t C)
    (user session r text : string) (md : PyDict) : MongoMemoryStorage.t C :=
  {| MongoMemoryStorage.config := MongoMemoryStorage.config mongo;
   MongoMemoryStorage._collection := MongoMemoryStorage._collection mongo;
     MongoMemoryStorage.remote := {| Mongo.handle_ok :=
                    Mongo.handle_ok (MongoMemoryStorage.remote mongo);
                  Mongo.server_up := true;
                  Mongo.documents :=
                    Mongo.documents (MongoMemoryStorage.remote mongo)
                    ++ [new_document mongo user session r text md] |};
     MongoMemoryStorage.utcnow := (next (MongoMemoryStorage.utcnow mongo)).2 |}.

(** The client's memory manager sits on the built-in storage in state
    [mongo], and its cache is falsy. *)
Definition holds (client : QianwenClient.t C D) (mongo : MongoMemoryStorage.t C) : Prop :=
  ∃ m, QianwenClient.memory_manager client = Some m
       ∧ MemoryManager.storage m = Some (StorageFactory.BuiltinMemory mongo)
       ∧ MemoryManager.cache_truthy (MemoryManager._local_cache m) = false.

(** The storage after [save_message] for a message of the session, ready
    or not. *)
Definition saved (self : QianwenChat.t) (mongo : MongoMemoryStorage.t C)
    (r text : string) : MongoMemoryStorage.t C :=
  (MongoMemoryStorage.save_message (QianwenChat._user_id self)
     (QianwenChat._session_id self) r text ∅ mongo).2.

(** [response_dict['choices'][0]['message']['content']]. *)
Definition first_choice_content (response_dict : PyDict) : Outcome PyVal :=
  match getitem (PDict response_dict) "choices" with
  | Ok choices =>
      match getitem0 choices with
      | Ok choice =>
          match getitem choice "message" with
          | Ok reply => getitem reply "content"
          | Raise e => Raise e
          end
      | Raise e => Raise e
      end
  | Raise e => Raise e
  end.

(** The string stored for a content. *)
Definition text_of (c : PyVal) : string :=
  match c with
  | PStr s => s
  | v => json_dumps v
  end.

(** What [ask] leaves in the built-in storage, by outcome. *)
Definition ask_post (self : QianwenChat.t) (message : string)
    (mongo : MongoMemoryStorage.t C) (r : Outcome PyDict)
    (mongo' : MongoMemoryStorage.t C) : Prop :=
  match r with
  | Ok response_dict =>
      if truthy (LogManager.dict_get response_dict "choices")
      then ∃ c, first_choice_content response_dict = Ok c
                ∧ mongo' = saved self (saved self mongo "user" message)
                             "assistant" (text_of c)
      else mongo' = saved self mongo "user" message
  | Raise e =>
      exn_type e = "QianwenAPIError"
      ∧ (mongo' = mongo ∨ mongo' = saved self mongo "user" message)
  end.
End statements.

(** ** Vocabulary of the session-level properties *)

Section frames.
Context {C D : Type}.

(** What a call leaves of the client it started from: the remote API and
    the configuration are the same, and each manager is present exactly
    when it was. *)
Definition evolves (client0 client : QianwenClient.t C D) : Prop :=
  QianwenClient.create client = QianwenClient.create client0
  ∧ QianwenClient.create_stream client = QianwenClient.create_stream client0
  ∧ QianwenClient.config client = QianwenClient.config client0
  ∧ (is_Some (QianwenClient.memory_manager client)
     ↔ is_Some (QianwenClient.memory_manager client0))
  ∧ (is_Some (QianwenClient.log_manager client)
     ↔ is_Some (QianwenClient.log_manager client0)).

(** Properties of the client that a call on its log manager, a call on its
    memory manager, a reading of its clock cannot change. *)
Definition log_stable (P : QianwenClient.t C D → Prop) : Prop :=
  ∀ l client,
    is_Some (QianwenClient.log_manager client) →
    P client → P (QianwenClient.set_log_manager (Some l) client).

Definition memory_stable (P : QianwenClient.t C D → Prop) : Prop :=
  ∀ m client,
    is_Some (QianwenClient.memory_manager client) →
    P client → P (QianwenClient.set_memory_manager (Some m) client).

Definition clock_stable (P : QianwenClient.t C D → Prop) : Prop :=
  ∀ client, P client → P (QianwenClient.read_now client).2.

(** The memory manager and the remote API are those of [client0]. *)
Definition memory_untouched (client0 client : QianwenClient.t C D) : Prop :=
  QianwenClient.memory_manager client = QianwenClient.memory_manager client0
  ∧ QianwenClient.create client = QianwenClient.create client0.
End frames.

(** The messages that open a request: the system message, when there is
    a non-empty one. *)
Definition opening (self : QianwenChat.t) : list PyDict :=
  if str_truthy (QianwenChat._system_message self)
  then [QianwenChat.message_dict "system"
          (PStr (default "" (QianwenChat._system_message self)))]
  else [].

(** The request [ask] sends for a list of messages. *)
Definition request_of (self : QianwenChat.t) (kwargs : PyDict)
    (messages : list PyDict) : PyDict :=
  if QianwenChat._search_enabled self
  then <["tools" := QianwenChat.web_search_tools]>
         (kwargs ∪ QianwenChat.base_params self messages)
  else kwargs ∪ QianwenChat.base_params self messages.

(** The outcome is a normal return or a [QianwenAPIError] whose text
    starts with [prefix]. *)
Definition api_error_or_ok {A} (prefix : string) (r : Outcome A) : Prop :=
  match r with
  | Ok _ => True
  | Raise e => ∃ cause, e = QianwenChat.QianwenAPIError (prefix ++ cause)
  end.

(** The request [stream] hands to [connect] for a list of messages. *)
Definition stream_request_of (self : QianwenChat.t) (kwargs : PyDict)
    (messages : list PyDict) : PyDict :=
  if QianwenChat._search_enabled self
  then <["tools" := QianwenChat.web_search_tools]>
         (kwargs ∪ <["stream" := PBool true]> (QianwenChat.base_params self messages))
  else kwargs ∪ <["stream" := PBool true]> (QianwenChat.base_params self messages).

(** The error a chat method raises for the exception it has caught: a
    [QianwenAPIError] whose text is the prefix of the method followed by
    the text of that exception. *)
Definition api_error (prefix : string) (caught : exn) : exn :=
  QianwenChat.QianwenAPIError (prefix ++ exn_message caught).

(** How [ask] ends, given what the remote API answers to its request;
    [saves] tells whether the turn is to be saved, and only then does
    [ask] subscript the reply, when its [choices] is truthy. *)
Definition ask_outcome (saves : bool) (answer : Outcome PyDict) : Outcome PyDict :=
  match answer with
  | Raise e => Raise (api_error "API调用失败: " e)
  | Ok reply =>
      if saves && truthy (LogManager.dict_get reply "choices")
      then match first_choice_content reply with
           | Ok _ => Ok reply
           | Raise e => Raise (api_error "API调用失败: " e)
           end
      else Ok reply
  end.

(** How [stream] ends, given what opening the stream gives. *)
Definition stream_outcome (opened : Outcome ChunkStream) : Outcome unit :=
  match opened with
  | Raise e => Raise (api_error "流式API调用失败: " e)
  | Ok source =>
      match failure source with
      | Some e => Raise (api_error "流式API调用失败: " e)
      | None => Ok tt
      end
  end.

(** ** Vocabulary of the properties of the memory *)

(** The handle is assigned and the server answers. *)
Definition reachable {C} (mongo : MongoMemoryStorage.t C) : bool :=
  MongoMemoryStorage._collection mongo
  && Mongo.server_up (MongoMemoryStorage.remote mongo).

(** The documents that do not belong to a session: what [delete_many]
    leaves in the collection. *)
Definition other_sessions (user session : string)
    (docs : list MongoMemoryStorage.Document) : list MongoMemoryStorage.Document :=
  filter (λ d, MongoMemoryStorage.query user session d = false) docs.

(** One call on a memory manager, and the manager after a sequence of
    calls, each started where the one before ended. *)
Inductive ManagerCall :=
  | Initialize
  | SaveMessage (message : ChatMessage)
  | GetHistory (user session : string) (limit : option Z)
  | ClearHistory (user session : string).

Section manager_calls.
Context {C : Type} `{!MemoryStorage C} {json_module : Json}.

Definition perform (m : MemoryManager.t C) (call : ManagerCall) : MemoryManager.t C :=
  match call with
  | Initialize => (MemoryManager.initialize m).2
  | SaveMessage message => (MemoryManager.save_message message m).2
  | GetHistory user session limit => (MemoryManager.get_history user session limit m).2
  | ClearHistory user session => (MemoryManager.clear_history user session m).2
  end.

Definition perform_all (calls : list ManagerCall) (m : MemoryManager.t C)
    : MemoryManager.t C :=
  fold_left perform calls m.
End manager_calls.

(** ** Vocabulary of the properties of the logs *)

(** An initialised log storage whose server answers. *)
Definition ready_log {D} (mongo : MongoLogStorage.t D) : Prop :=
  MongoLogStorage._collection mongo = true
  ∧ Mongo.server_up (MongoLogStorage.remote mongo) = true.

(** Log records, the most recent first. *)
Definition newest_first : relation LogRecord :=
  λ a b, lr_timestamp b ≤ lr_timestamp a.

(** What the arguments of [get_logs] ask of a record: the user and the
    session when they are given and not empty, the time stamp within the
    bounds that are given. *)
Definition selected (user session : option string) (start_time end_time : option Z)
    (record : LogRecord) : Prop :=
  (str_truthy user = true → Some (lr_user_id record) = user)
  ∧ (str_truthy session = true → Some (lr_session_id record) = session)
  ∧ (∀ t0, start_time = Some t0 → t0 ≤ lr_timestamp record)
  ∧ (∀ t1, end_time = Some t1 → lr_timestamp record ≤ t1).

(** The identifier [log_request] answers: the one it is given, when that
    is not empty, else the next [uuid4]. *)
Definition request_id_of {D} (l : LogManager.t D) (request_id : option string) : string :=
  if str_truthy request_id then default "" request_id
  else (next (LogManager.uuid4 l)).1.

(** What [LogManager.log_request] and [LogManager.log_response] hand to
    the storage. *)
Definition request_log_data (request_id : string) (request_data : PyDict) : PyDict :=
  <["request_id" := PStr request_id]>
  (<["model" := LogManager.dict_get request_data "model"]>
  (<["messages" := LogManager.dict_get request_data "messages"]>
  (<["temperature" := LogManager.dict_get request_data "temperature"]>
  (<["max_tokens" := LogManager.dict_get request_data "max_tokens"]>
  (<["stream" := default (PBool false) (request_data !! "stream")]> ∅))))).

Definition response_log_data (response_data : PyDict) : PyDict :=
  <["choices" := LogManager.dict_get response_data "choices"]>
  (<["usage" := LogManager.dict_get response_data "usage"]>
  (<["model" := LogManager.dict_get response_data "model"]>
  (<["created" := LogManager.dict_get response_data "created"]> ∅))).

(** The document the built-in log storage inserts. *)
Definition log_document {D} (mongo : MongoLogStorage.t D)
    (user session log_type : string) (data : PyDict) (request_id : option string)
    : MongoLogStorage.Document :=
  {| MongoLogStorage.doc_user_id := user;
     MongoLogStorage.doc_session_id := session;
     MongoLogStorage.doc_log_type := log_type;
     MongoLogStorage.doc_data := data;
     MongoLogStorage.doc_request_id := request_id;
     MongoLogStorage.doc_timestamp := (next (MongoLogStorage.utcnow mongo)).1 |}.

(** The log storage after a successful insertion. *)
Definition logged {D} (mongo : MongoLogStorage.t D)
    (user session log_type : string) (data : PyDict) (request_id : option string)
    : MongoLogStorage.t D :=
  {| MongoLogStorage.config := MongoLogStorage.config mongo;
     MongoLogStorage._collection := MongoLogStorage._collection mongo;
     MongoLogStorage.remote :=
       {| Mongo.handle_ok := Mongo.handle_ok (MongoLogStorage.remote mongo);
          Mongo.server_up := true;
          Mongo.documents :=
            Mongo.documents (MongoLogStorage.remote mongo)
            ++ [log_document mongo user session log_type data request_id] |};
     MongoLogStorage.utcnow := (next (MongoLogStorage.utcnow mongo)).2 |}.

(** ** Vocabulary of the properties of the file storage and of the client *)

(** The entry [FileMemoryStorage.save_message] appends to the file. *)
Definition file_entry (f : FileMemoryStorage.t) (r text : string) (md : PyDict)
    : HistoryEntry :=
  {| he_role := r; he_content := PStr text; he_metadata := Some md;
     he_timestamp := Some (next (FileMemoryStorage.now f)).1 |}.

(** The messages in the file of a session; none when there is no file. *)
Definition file_messages (f : FileMemoryStorage.t) (user session : string)
    : list HistoryEntry :=
  default []
    (FileMemoryStorage.files f
       !! FileMemoryStorage.locate f (FileMemoryStorage._get_file_path user session)).

(** A part of the configuration that needs no custom storage: switched
    off, or on the built-in MongoDB backend. *)
Definition memory_off_or_builtin {C} (cfg : MemoryConfig.t C) : Prop :=
  MemoryConfig.enabled cfg = false
  ∨ (MemoryConfig.custom_storage cfg = None ∧ MemoryConfig.storage_type cfg = "mongodb").

Definition log_off_or_builtin {D} (cfg : LogConfig.t D) : Prop :=
  LogConfig.enabled cfg = false
  ∨ (LogConfig.custom_storage cfg = None ∧ LogConfig.storage_type cfg = "mongodb").

(** ** Vocabulary of the properties of the configuration *)

(** The names of the parts of a configuration dictionary, and the fields
    of the data class of each part. *)
Definition part_names : list string := ["api"; "model"; "memory"; "log"].

Definition part_fields (key : string) : list string :=
  if String.eqb key "api" then ConfigData.APIConfig.fields
  else if String.eqb key "model" then ConfigData.ModelConfig.fields
  else if String.eqb key "memory" then ConfigData.MemoryConfig.fields
  else if String.eqb key "log" then ConfigData.LogConfig.fields
  else [].

(** A configuration without what [to_dict] does not write: the Redis
    password and the two custom storages. *)
Definition without_unsaved (c : ConfigData.QianwenConfig.t) : ConfigData.QianwenConfig.t :=
  let memory := ConfigData.QianwenConfig.memory c in
  let log := ConfigData.QianwenConfig.log c in
  {| ConfigData.QianwenConfig.api := ConfigData.QianwenConfig.api c;
     ConfigData.QianwenConfig.model := ConfigData.QianwenConfig.model c;
     ConfigData.QianwenConfig.memory :=
       {| ConfigData.MemoryConfig.enabled := ConfigData.MemoryConfig.enabled memory;
          ConfigData.MemoryConfig.storage_type := ConfigData.MemoryConfig.storage_type memory;
          ConfigData.MemoryConfig.max_history_length :=
            ConfigData.MemoryConfig.max_history_length memory;
          ConfigData.MemoryConfig.ttl_hours := ConfigData.MemoryConfig.ttl_hours memory;
          ConfigData.MemoryConfig.mongo_uri := ConfigData.MemoryConfig.mongo_uri memory;
          ConfigData.MemoryConfig.mongo_database :=
            ConfigData.MemoryConfig.mongo_database memory;
          ConfigData.MemoryConfig.mongo_collection :=
            ConfigData.MemoryConfig.mongo_collection memory;
          ConfigData.MemoryConfig.redis_host := ConfigData.MemoryConfig.redis_host memory;
          ConfigData.MemoryConfig.redis_port := ConfigData.MemoryConfig.redis_port memory;
          ConfigData.MemoryConfig.redis_db := ConfigData.MemoryConfig.redis_db memory;
          ConfigData.MemoryConfig.redis_password := PNone;
          ConfigData.MemoryConfig.file_storage_path :=
            ConfigData.MemoryConfig.file_storage_path memory;
          ConfigData.MemoryConfig.custom_storage := PNone |};
     ConfigData.QianwenConfig.log :=
       {| ConfigData.LogConfig.enabled := ConfigData.LogConfig.enabled log;
          ConfigData.LogConfig.storage_type := ConfigData.LogConfig.storage_type log;
          ConfigData.LogConfig.log_level := ConfigData.LogConfig.log_level log;
          ConfigData.LogConfig.log_requests := ConfigData.LogConfig.log_requests log;
          ConfigData.LogConfig.log_responses := ConfigData.LogConfig.log_responses log;
          ConfigData.LogConfig.log_errors := ConfigData.LogConfig.log_errors log;
          ConfigData.LogConfig.mongo_uri := ConfigData.LogConfig.mongo_uri log;
          ConfigData.LogConfig.mongo_database := ConfigData.LogConfig.mongo_database log;
          ConfigData.LogConfig.mongo_collection := ConfigData.LogConfig.mongo_collection log;
          ConfigData.LogConfig.file_storage_path :=
            ConfigData.LogConfig.file_storage_path log;
          ConfigData.LogConfig.file_rotation := ConfigData.LogConfig.file_rotation log;
          ConfigData.LogConfig.max_file_size := ConfigData.LogConfig.max_file_size log;
          ConfigData.LogConfig.custom_storage := PNone |} |}.

(** ** Vocabulary of the properties of the multimodal methods *)

(** What a method that tests [os.path.exists(path)] and then opens the
    file raises before it has read anything: its own error, whose text
    starts with [missing], for a path that names nothing, and the error
    of [open] for a directory and for a file it may not read.  [None]
    for a regular file. *)
Definition refusal (missing : string) (disk : Disk.t) (path : string) : option exn :=
  match Disk.entries disk !! path with
  | None => Some (QianwenChat.QianwenAPIError (missing ++ path))
  | Some Disk.Directory => Some (Disk.IsADirectoryError path)
  | Some Disk.Forbidden => Some (Disk.PermissionError path)
  | Some (Disk.File _) => None
  end.

(** * Objects for the concrete runs *)

(** Sample environment pieces shared by the concrete runs below. *)
Definition clock0 : Oracle Z := {| readings := λ n, Z.of_nat n; consumed := 0 |}.

Definition uuids0 : Oracle string :=
  {| readings := λ n, "uuid-" ++ pretty n; consumed := 0 |}.

Definition empty_server {Doc} : Mongo.Collection Doc :=
  {| Mongo.handle_ok := true; Mongo.server_up := true; Mongo.documents := [] |}.

(** The components of a path, between the separators. *)
Fixpoint components (path : string) : list string :=
  match path with
  | "" => [""]
  | String c rest =>
      if Ascii.eqb c "/"%char then "" :: components rest
      else match components rest with
           | first :: others => String c first :: others
           | [] => [String c ""]
           end
  end.

(** One step of [normpath]: [kept] holds the components kept so far, the
    last one first. *)
Definition keep_component (rooted : bool) (kept : list string) (name : string)
    : list string :=
  if String.eqb name "" || String.eqb name "." then kept
  else if String.eqb name ".."
       then match kept with
            | previous :: before =>
                if String.eqb previous ".." then name :: kept else before
            | [] => if rooted then [] else [name]
            end
       else name :: kept.

(** What a file system without links makes of a path: its normal form,
    as [os.path.normpath] spells it. *)
Definition normpath (path : string) : string :=
  let rooted := starts_at_root path in
  let joined :=
    String.concat "/" (rev (fold_left (keep_component rooted) (components path) [])) in
  if rooted then "/" ++ joined
  else if String.eqb joined "" then "." else joined.

Definition file_memory0 : FileMemoryStorage.t :=
  {| FileMemoryStorage.disk_ok := true; FileMemoryStorage.locate := normpath;
     FileMemoryStorage.files := ∅;
     FileMemoryStorage.now := clock0 |}.

Definition file_log0 : FileLogStorage.t :=
  {| FileLogStorage.disk_ok := true; FileLogStorage.lines := [];
     FileLogStorage.now := clock0 |}.

(** A memory manager and a log manager over the failing storage. *)
Definition down_memory_config : MemoryConfig.t DownStorage.t :=
  {| MemoryConfig.enabled := true; MemoryConfig.storage_type := "custom";
     MemoryConfig.max_history_length := 10;
     MemoryConfig.ttl_hours := 168; MemoryConfig.custom_storage := Some DownStorage.Down |}.

Definition down_log_config : LogConfig.t DownStorage.t :=
  {| LogConfig.enabled := true; LogConfig.storage_type := "custom";
     LogConfig.log_requests := true;
     LogConfig.log_responses := true; LogConfig.log_errors := true;
     LogConfig.custom_storage := Some DownStorage.Down |}.

Definition down_memory_manager : MemoryManager.t DownStorage.t :=
  {| MemoryManager.config := down_memory_config;
     MemoryManager.storage := Some (StorageFactory.CustomMemory DownStorage.Down);
     MemoryManager._local_cache := Some ∅;
     MemoryManager.now := clock0 |}.

Definition down_log_manager : LogManager.t DownStorage.t :=
  {| LogManager.config := down_log_config;
     LogManager.storage := Some (StorageFactory.CustomLog DownStorage.Down);
     LogManager.uuid4 := uuids0 |}.

Definition hello : ChatMessage :=
  {| role := "user"; content := PStr "hello"; timestamp := 0;
     user_id := "u"; session_id := "s"; metadata := ∅ |}.

Definition quiet_log_config : LogConfig.t FileLogStorage.t :=
  {| LogConfig.enabled := true; LogConfig.storage_type := "custom";
     LogConfig.log_requests := false;
     LogConfig.log_responses := false; LogConfig.log_errors := false;
     LogConfig.custom_storage := Some file_log0 |}.

Definition quiet_log_manager : LogManager.t FileLogStorage.t :=
  {| LogManager.config := quiet_log_config;
     LogManager.storage := Some (StorageFactory.CustomLog file_log0);
     LogManager.uuid4 := uuids0 |}.

(** The lines in the files of a manager over a [FileLogStorage]. *)
Definition written (l : LogManager.t FileLogStorage.t) : list LogRecord :=
  match LogManager.storage l with
  | Some (StorageFactory.CustomLog f) => FileLogStorage.lines f
  | _ => []
  end.

(** Three stored messages of session [("u", "s")], the first the oldest. *)
Definition stored (t : Z) (r text : string) : MongoMemoryStorage.Document :=
  {| MongoMemoryStorage.doc_user_id := "u"; MongoMemoryStorage.doc_session_id := "s";
     MongoMemoryStorage.doc_role := r; MongoMemoryStorage.doc_content := text;
     MongoMemoryStorage.doc_metadata := ∅; MongoMemoryStorage.doc_timestamp := t |}.

Definition three_turns : Mongo.Collection MongoMemoryStorage.Document :=
  {| Mongo.handle_ok := true; Mongo.server_up := true;
     Mongo.documents := [stored 1 "user" "t1"; stored 2 "assistant" "t2";
                         stored 3 "user" "t3"] |}.

Definition builtin_memory_config (n : Z) : MemoryConfig.t FileMemoryStorage.t :=
  {| MemoryConfig.enabled := true; MemoryConfig.storage_type := "mongodb";
     MemoryConfig.max_history_length := n;
     MemoryConfig.ttl_hours := 168; MemoryConfig.custom_storage := None |}.

(** The built-in storage made from that configuration, after
    [initialize], and the manager that holds it. *)
Definition builtin_storage (n : Z) : MongoMemoryStorage.t FileMemoryStorage.t :=
  {| MongoMemoryStorage.config := builtin_memory_config n;
     MongoMemoryStorage._collection := true;
     MongoMemoryStorage.remote := three_turns;
     MongoMemoryStorage.utcnow := clock0 |}.

Definition builtin_manager (n : Z) : MemoryManager.t FileMemoryStorage.t :=
  {| MemoryManager.config := builtin_memory_config n;
     MemoryManager.storage := Some (StorageFactory.BuiltinMemory (builtin_storage n));
     MemoryManager._local_cache := Some ∅;
     MemoryManager.now := clock0 |}.

(** The message read back from [stored t r text]. *)
Definition read_back (t : Z) (r text : string) : ChatMessage :=
  {| role := r; content := PStr text; timestamp := t;
     user_id := "u"; session_id := "s"; metadata := ∅ |}.

Definition sample_model_config : ModelConfig :=
  {| default_model := "qwen-plus"; default_temperature := 0.7;
     default_max_tokens := 2000; default_system_message := None |}.

Definition no_log_config : LogConfig.t FileLogStorage.t :=
  {| LogConfig.enabled := false; LogConfig.storage_type := "mongodb";
     LogConfig.log_requests := true;
     LogConfig.log_responses := true; LogConfig.log_errors := true;
     LogConfig.custom_storage := None |}.

(** A reply with one choice whose message has the given content. *)
Definition reply_with (text : PyVal) : PyDict :=
  <["choices" := PList [PDict (<["message" := PDict (<["content" := text]> ∅)]> ∅)]]> ∅.

(** An initialised client with the built-in memory storage holding
    [three_turns], [MemoryConfig.max_history_length = n], logging disabled, and a
    remote API that answers [reply] and streams [source]. *)
Definition client_with (n : Z) (reply : PyDict) (source : ChunkStream)
    : QianwenClient.t FileMemoryStorage.t FileLogStorage.t :=
  {| QianwenClient.config :=
       {| QianwenConfig.model := sample_model_config;
          QianwenConfig.memory := builtin_memory_config n;
          QianwenConfig.log := no_log_config |};
     QianwenClient.create := λ _, Ok reply;
     QianwenClient.create_stream := λ _, Ok source;
     QianwenClient.now := clock0;
     QianwenClient.memory_manager := Some (builtin_manager n);
     QianwenClient.log_manager := None |}.

Definition builtin_client (n : Z) : QianwenClient.t FileMemoryStorage.t FileLogStorage.t :=
  client_with n (reply_with (PStr "fine")) {| chunks := []; failure := None |}.

Definition builtin_env : QianwenClient.Env :=
  {| QianwenClient.cachetools := true;
     QianwenClient.memory_server := three_turns;
     QianwenClient.memory_utcnow := clock0;
     QianwenClient.manager_now := clock0;
     QianwenClient.log_server := empty_server;
     QianwenClient.log_utcnow := clock0;
     QianwenClient.uuids := uuids0 |}.

(** The session [client.chat("u", "s")]. *)
Definition chat_of {C D} (client : QianwenClient.t C D) : QianwenChat.t :=
  QianwenChat.__init__ client (Some "u") (Some "s") "20250125_000000".

(** The same three messages in the file storage of [config_examples.py],
    used as custom storage. *)
Definition filed (t : Z) (r text : string) : HistoryEntry :=
  {| he_role := r; he_content := PStr text; he_metadata := Some ∅;
     he_timestamp := Some t |}.

Definition three_turns_on_file : FileMemoryStorage.t :=
  {| FileMemoryStorage.disk_ok := true; FileMemoryStorage.locate := normpath;
     FileMemoryStorage.files :=
       <[normpath (FileMemoryStorage._get_file_path "u" "s") :=
           [filed 1 "user" "t1"; filed 2 "assistant" "t2"; filed 3 "user" "t3"]]> ∅;
     FileMemoryStorage.now := clock0 |}.

Definition file_memory_config (n : Z) : MemoryConfig.t FileMemoryStorage.t :=
  {| MemoryConfig.enabled := true; MemoryConfig.storage_type := "custom";
     MemoryConfig.max_history_length := n;
     MemoryConfig.ttl_hours := 168; MemoryConfig.custom_storage := Some three_turns_on_file |}.

Definition file_client (n : Z) : QianwenClient.t FileMemoryStorage.t FileLogStorage.t :=
  {| QianwenClient.config :=
       {| QianwenConfig.model := sample_model_config;
          QianwenConfig.memory := file_memory_config n;
          QianwenConfig.log := no_log_config |};
     QianwenClient.create := λ _, Ok (reply_with (PStr "fine"));
     QianwenClient.create_stream := λ _, Ok {| chunks := []; failure := None |};
     QianwenClient.now := clock0;
     QianwenClient.memory_manager :=
       Some {| MemoryManager.config := file_memory_config n;
               MemoryManager.storage :=
                 Some (StorageFactory.CustomMemory three_turns_on_file);
               MemoryManager._local_cache := Some ∅;
               MemoryManager.now := clock0 |};
     QianwenClient.log_manager := None |}.




Definition chunk_of (text : string) : Chunk :=
  {| chunk_choices := [{| delta_content := Some text |}] |}.

Definition hello_world : ChunkStream :=
  {| chunks := [chunk_of "Hel"; chunk_of "lo, "; chunk_of "world!"]; failure := None |}.

Definition streaming_client : QianwenClient.t FileMemoryStorage.t FileLogStorage.t :=
  client_with 2 (reply_with (PStr "fine")) hello_world.

(** A log manager over the built-in log storage, initialised, with the
    three switches off. *)
Definition switched_off_config : LogConfig.t FileLogStorage.t :=
  {| LogConfig.enabled := true; LogConfig.storage_type := "mongodb";
     LogConfig.log_requests := false;
     LogConfig.log_responses := false; LogConfig.log_errors := false;
     LogConfig.custom_storage := None |}.

Definition switched_off_storage : MongoLogStorage.t FileLogStorage.t :=
  {| MongoLogStorage.config := switched_off_config;
     MongoLogStorage._collection := true;
     MongoLogStorage.remote := empty_server;
     MongoLogStorage.utcnow := clock0 |}.

Definition switched_off_manager : LogManager.t FileLogStorage.t :=
  {| LogManager.config := switched_off_config;
     LogManager.storage := Some (StorageFactory.BuiltinLog switched_off_storage);
     LogManager.uuid4 := uuids0 |}.

(** A client whose two storages are down. *)
Definition down_client : QianwenClient.t DownStorage.t DownStorage.t :=
  {| QianwenClient.config :=
       {| QianwenConfig.model := sample_model_config;
          QianwenConfig.memory := down_memory_config;
          QianwenConfig.log := down_log_config |};
     QianwenClient.create := λ _, Ok (reply_with (PStr "fine"));
     QianwenClient.create_stream := λ _, Ok hello_world;
     QianwenClient.now := clock0;
     QianwenClient.memory_manager := Some down_memory_manager;
     QianwenClient.log_manager := Some down_log_manager |}.

(** A stream that delivers one chunk and then fails. *)
Definition broken_stream : ChunkStream :=
  {| chunks := [chunk_of "Hel"];
     failure := Some (Exception "APIConnectionError" "connection lost") |}.

Definition broken_stream_client : QianwenClient.t FileMemoryStorage.t FileLogStorage.t :=
  client_with 2 (reply_with (PStr "fine")) broken_stream.

(** A message whose content is not a string. *)
Definition number_message : ChatMessage :=
  {| role := "user"; content := PInt 7; timestamp := 0;
     user_id := "v"; session_id := "s"; metadata := ∅ |}.

(** The manager of the runs as [__init__] makes it, before [initialize]. *)
Definition builtin_manager_new (n : Z) : MemoryManager.t FileMemoryStorage.t :=
  {| MemoryManager.config := builtin_memory_config n;
     MemoryManager.storage :=
       Some (StorageFactory.BuiltinMemory
               (MongoMemoryStorage.__init__ (builtin_memory_config n) three_turns clock0));
     MemoryManager._local_cache := Some ∅;
     MemoryManager.now := clock0 |}.

(** A log manager over the built-in log storage, initialised, with every
    switch on and two records in the collection. *)
Definition verbose_log_config : LogConfig.t FileLogStorage.t :=
  {| LogConfig.enabled := true; LogConfig.storage_type := "mongodb";
     LogConfig.log_requests := true;
     LogConfig.log_responses := true; LogConfig.log_errors := true;
     LogConfig.custom_storage := None |}.

Definition two_logs : Mongo.Collection MongoLogStorage.Document :=
  {| Mongo.handle_ok := true; Mongo.server_up := true;
     Mongo.documents :=
       [{| MongoLogStorage.doc_user_id := "u"; MongoLogStorage.doc_session_id := "s";
           MongoLogStorage.doc_log_type := "request"; MongoLogStorage.doc_data := ∅;
           MongoLogStorage.doc_request_id := None; MongoLogStorage.doc_timestamp := -2 |};
        {| MongoLogStorage.doc_user_id := "v"; MongoLogStorage.doc_session_id := "s";
           MongoLogStorage.doc_log_type := "error"; MongoLogStorage.doc_data := ∅;
           MongoLogStorage.doc_request_id := None; MongoLogStorage.doc_timestamp := -1 |}] |}.

Definition verbose_storage : MongoLogStorage.t FileLogStorage.t :=
  {| MongoLogStorage.config := verbose_log_config;
     MongoLogStorage._collection := true;
     MongoLogStorage.remote := two_logs;
     MongoLogStorage.utcnow := clock0 |}.

Definition verbose_manager : LogManager.t FileLogStorage.t :=
  {| LogManager.config := verbose_log_config;
     LogManager.storage := Some (StorageFactory.BuiltinLog verbose_storage);
     LogManager.uuid4 := uuids0 |}.

Definition logging_client : QianwenClient.t FileMemoryStorage.t FileLogStorage.t :=
  {| QianwenClient.config :=
       {| QianwenConfig.model := sample_model_config;
          QianwenConfig.memory := builtin_memory_config 10;
          QianwenConfig.log := verbose_log_config |};
     QianwenClient.create := λ _, Ok (reply_with (PStr "fine"));
     QianwenClient.create_stream := λ _, Ok hello_world;
     QianwenClient.now := clock0;
     QianwenClient.memory_manager := Some (builtin_manager 10);
     QianwenClient.log_manager := Some verbose_manager |}.

(** An environment in which neither MongoDB server can be reached. *)
Definition offline_env : QianwenClient.Env :=
  {| QianwenClient.cachetools := true;
     QianwenClient.memory_server :=
       {| Mongo.handle_ok := true; Mongo.server_up := false; Mongo.documents := [] |};
     QianwenClient.memory_utcnow := clock0;
     QianwenClient.manager_now := clock0;
     QianwenClient.log_server :=
       {| Mongo.handle_ok := true; Mongo.server_up := false; Mongo.documents := [] |};
     QianwenClient.log_utcnow := clock0;
     QianwenClient.uuids := uuids0 |}.

(** A client, not yet initialised, for a given pair of configurations. *)
Definition new_client (memory : MemoryConfig.t FileMemoryStorage.t)
    (log : LogConfig.t FileLogStorage.t)
    : QianwenClient.t FileMemoryStorage.t FileLogStorage.t :=
  QianwenClient.__init__
    {| QianwenConfig.model := sample_model_config;
       QianwenConfig.memory := memory; QianwenConfig.log := log |}
    (λ _, Ok (reply_with (PStr "fine")))
    (λ _, Ok {| chunks := []; failure := None |}) clock0.

Definition redis_memory_config : MemoryConfig.t FileMemoryStorage.t :=
  {| MemoryConfig.enabled := true; MemoryConfig.storage_type := "redis";
     MemoryConfig.max_history_length := 10;
     MemoryConfig.ttl_hours := 168; MemoryConfig.custom_storage := None |}.

(** A disk with one file, a configuration written in YAML. *)
Definition yaml_disk : Disk.t :=
  {| Disk.entries := <["config.yaml" := Disk.File "model: qwen-plus"]> ∅;
     Disk.can_create := λ _, true |}.

(** A stand-in for the two library codecs: every file reads as its own
    text, and the base64 text of some bytes is written [b64(bytes)]. *)
Definition sample_codec : Disk.Codec :=
  {| Disk.read_text := Some; Disk.b64encode := λ data, "b64(" ++ data ++ ")" |}.

(** A disk with a picture, a directory and a picture that may not be
    read. *)
Definition picture_disk : Disk.t :=
  {| Disk.entries :=
       <["cat.jpg" := Disk.File "JFIF"]>
       (<["album" := Disk.Directory]>
       (<["secret.jpg" := Disk.Forbidden]> ∅));
     Disk.can_create := λ _, true |}.

(** * Properties *)

(** ** The chained mutators *)
Section mutators.
Import QianwenChat.
#[local] Open Scope Q_scope.

Lemma py_min_spec (a b : Q) :
  (b < a ∧ py_min a b = b) ∨ (a <= b ∧ py_min a b = a).
Proof.
  unfold py_min. destruct (Qle_bool a b) eqn:E.
  - right. split; [by apply Qle_bool_iff | done].
  - left. split; [| done]. apply Qnot_le_lt. intros H.
    apply Qle_bool_iff in H. congruence.
Qed.

Lemma py_max_spec (a b : Q) :
  (a < b ∧ py_max a b = b) ∨ (b <= a ∧ py_max a b = a).
Proof.
  unfold py_max. destruct (Qle_bool b a) eqn:E.
  - right. split; [by apply Qle_bool_iff | done].
  - left. split; [| done]. apply Qnot_le_lt. intros H.
    apply Qle_bool_iff in H. congruence.
Qed.

Lemma clamp_cases (t : Q) :
  (t < 0 ∧ py_max 0 (py_min 1 t) = 0)
  ∨ (1 < t ∧ py_max 0 (py_min 1 t) = 1)
  ∨ (0 <= t ∧ t <= 1 ∧ py_max 0 (py_min 1 t) == t).
Proof.
  destruct (py_min_spec 1 t) as [[Hlt ->] | [Hle ->]].
  - destruct (py_max_spec 0 t) as [[H0 ->] | [H0 ->]].
    + right; right. split; [| split].
      * by apply Qlt_le_weak.
      * by apply Qlt_le_weak.
      * apply Qeq_refl.
    + destruct (Qle_lt_or_eq _ _ H0) as [H | H].
      * by left.
      * right; right. split; [| split].
        -- rewrite H. apply Qle_refl.
        -- by apply Qlt_le_weak.
        -- by apply Qeq_sym.
  - destruct (Qle_lt_or_eq _ _ Hle) as [H | H].
    + right; left. by split.
    + right; right. split; [| split].
      * rewrite <- H. discriminate.
      * rewrite <- H. apply Qle_refl.
      * assert (py_max 0 1 = 1) as -> by reflexivity. exact H.
Qed.

Lemma clamp_in_unit (t : Q) : in_unit (py_max 0 (py_min 1 t)).
Proof.
  destruct (clamp_cases t) as [[_ ->] | [[_ ->] | (H0 & H1 & H)]].
  - split; [apply Qle_refl | discriminate].
  - split; [discriminate | apply Qle_refl].
  - split; rewrite H; assumption.
Qed.

Lemma call_keeps_in_unit (m : Mutator) (self : t) :
  in_unit (_temperature self) → in_unit (_temperature (call m self)).
Proof. destruct m; simpl; auto using clamp_in_unit. Qed.

Lemma chain_keeps_in_unit (ms : list Mutator) (self : t) :
  in_unit (_temperature self) → in_unit (_temperature (chain ms self)).
Proof.
  unfold chain. revert self.
  induction ms as [| m ms IH]; intros self H; simpl; [done |].
  apply IH. by apply call_keeps_in_unit.
Qed.

(** C9: [temperature(t)] stores [t] clamped to [0, 1]: [0] below the
    interval, [1] above it, [t] itself inside; the three inputs of the
    specification give 0.0, 1.0 and 0.4; and whatever mutators are chained
    after the call, the stored temperature stays in [0, 1]. *)
Theorem temperature_clamps (self : t) (temp : Q) :
  let effective := _temperature (temperature temp self) in
  ((temp < 0 ∧ effective = 0)
   ∨ (1 < temp ∧ effective = 1)
   ∨ (0 <= temp ∧ temp <= 1 ∧ effective == temp))
  ∧ _temperature (temperature (-0.5) self) = 0
  ∧ _temperature (temperature 1.7 self) = 1
  ∧ _temperature (temperature 0.4 self) = 0.4
  ∧ ∀ ms, in_unit (_temperature (chain ms (temperature temp self))).
Proof.
  simpl. split; [apply clamp_cases |].
  repeat split; try reflexivity.
  - apply chain_keeps_in_unit, clamp_in_unit.
  - apply chain_keeps_in_unit, clamp_in_unit.
Qed.
End mutators.

(** ** The storage factory *)

(** C7, as stated, fails: the test [if config.custom_storage:] is a truth
    test, and an instance that is there but falsy does not pass it.  With
    a [ListStorage] that holds nothing as custom storage and the storage
    type ["mongodb"], each factory method answers with a new built-in
    storage, not with the instance supplied. *)
Lemma falsy_custom_storage_is_passed_over :
  let mcfg :=
    {| MemoryConfig.enabled := true; MemoryConfig.storage_type := "mongodb";
       MemoryConfig.max_history_length := 10; MemoryConfig.ttl_hours := 168;
       MemoryConfig.custom_storage := Some {| ListStorage.messages := [] |} |} in
  let lcfg :=
    {| LogConfig.enabled := true; LogConfig.storage_type := "mongodb";
       LogConfig.log_requests := true;
       LogConfig.log_responses := true; LogConfig.log_errors := true;
       LogConfig.custom_storage := Some {| ListStorage.records := [] |} |} in
  StorageFactory.create_memory_storage empty_server clock0 mcfg
    = Ok (Some (StorageFactory.BuiltinMemory
                  (MongoMemoryStorage.__init__ mcfg empty_server clock0)))
  ∧ StorageFactory.create_log_storage empty_server clock0 lcfg
    = Ok (Some (StorageFactory.BuiltinLog
                  (MongoLogStorage.__init__ lcfg empty_server clock0))).
Proof. split; reflexivity. Qed.

Section factory.
Context {C D : Type} `{!MemoryStorage C} `{!LogStorage D}.

(** C7, amended: with storage enabled and a custom instance in the
    configuration, each factory method answers with that very instance
    when the instance is truthy, whatever the storage-type tag says, the
    tag of a built-in backend included; an instance that is falsy is
    passed over, and the factory does what it does without one: the tag
    decides. *)
Theorem truthy_custom_storage_overrides
    (mserver : Mongo.Collection MongoMemoryStorage.Document)
    (lserver : Mongo.Collection MongoLogStorage.Document)
    (clock : Oracle Z) (mcfg : MemoryConfig.t C) (lcfg : LogConfig.t D)
    (custom_memory : C) (custom_log : D) :
  MemoryConfig.enabled mcfg = true →
  MemoryConfig.custom_storage mcfg = Some custom_memory →
  LogConfig.enabled lcfg = true →
  LogConfig.custom_storage lcfg = Some custom_log →
  (ms_bool custom_memory = true →
   StorageFactory.create_memory_storage mserver clock mcfg
   = Ok (Some (StorageFactory.CustomMemory custom_memory)))
  ∧ (ms_bool custom_memory = false →
     StorageFactory.create_memory_storage mserver clock mcfg
     = StorageFactory.memory_storage_of_type mserver clock mcfg)
  ∧ (ls_bool custom_log = true →
     StorageFactory.create_log_storage lserver clock lcfg
     = Ok (Some (StorageFactory.CustomLog custom_log)))
  ∧ (ls_bool custom_log = false →
     StorageFactory.create_log_storage lserver clock lcfg
     = StorageFactory.log_storage_of_type lserver clock lcfg).
Proof.
  intros Hm Hc Hl Hd. unfold StorageFactory.create_memory_storage,
    StorageFactory.create_log_storage.
  rewrite Hm, Hc, Hl, Hd. simpl.
  split_and!; by intros ->.
Qed.

(** Without a custom instance the tag decides, and only ["mongodb"] names
    a backend that exists. *)
Lemma builtin_storage_by_tag
    (mserver : Mongo.Collection MongoMemoryStorage.Document)
    (clock : Oracle Z) (mcfg : MemoryConfig.t C) :
  MemoryConfig.enabled mcfg = true →
  MemoryConfig.custom_storage mcfg = None →
  MemoryConfig.storage_type mcfg = "mongodb" →
  StorageFactory.create_memory_storage mserver clock mcfg
    = Ok (Some (StorageFactory.BuiltinMemory
                  (MongoMemoryStorage.__init__ mcfg mserver clock))).
Proof.
  intros Hm Hc Ht. unfold StorageFactory.create_memory_storage,
    StorageFactory.memory_storage_of_type.
  by rewrite Hm, Hc, Ht.
Qed.
End factory.

Lemma truthy_custom_storage_overrides_witness :
  StorageFactory.create_memory_storage empty_server clock0
    {| MemoryConfig.enabled := true; MemoryConfig.storage_type := "mongodb";
       MemoryConfig.max_history_length := 10;
       MemoryConfig.ttl_hours := 168; MemoryConfig.custom_storage := Some file_memory0 |}
    = Ok (Some (StorageFactory.CustomMemory file_memory0))
  ∧ StorageFactory.create_log_storage empty_server clock0
      {| LogConfig.enabled := true; LogConfig.storage_type := "mongodb";
         LogConfig.log_requests := true;
         LogConfig.log_responses := true; LogConfig.log_errors := true;
         LogConfig.custom_storage := Some file_log0 |}
    = Ok (Some (StorageFactory.CustomLog file_log0)).
Proof.
  destruct (truthy_custom_storage_overrides empty_server empty_server clock0
              {| MemoryConfig.enabled := true; MemoryConfig.storage_type := "mongodb";
                 MemoryConfig.max_history_length := 10;
                 MemoryConfig.ttl_hours := 168;
                 MemoryConfig.custom_storage := Some file_memory0 |}
              {| LogConfig.enabled := true; LogConfig.storage_type := "mongodb";
                 LogConfig.log_requests := true;
                 LogConfig.log_responses := true; LogConfig.log_errors := true;
                 LogConfig.custom_storage := Some file_log0 |}
              file_memory0 file_log0 eq_refl eq_refl eq_refl eq_refl)
    as (Hmemory & _ & Hlog & _).
  split; [exact (Hmemory eq_refl) | exact (Hlog eq_refl)].
Defined.

(** ** The memory manager without storage *)
Section disabled_memory.
Context {C : Type} `{!MemoryStorage C} {json_module : Json}.

(** C5: with memory disabled the factory makes no storage, the manager
    holds none, and [save_message], [get_history] and [clear_history]
    return normally (the history empty) leaving the manager as it was. *)
Theorem disabled_memory_is_noop (cachetools : bool)
    (server : Mongo.Collection MongoMemoryStorage.Document)
    (utc clock : Oracle Z) (cfg : MemoryConfig.t C) :
  MemoryConfig.enabled cfg = false →
  StorageFactory.create_memory_storage server utc cfg = Ok None
  ∧ ∃ m, MemoryManager.__init__ cachetools server utc clock cfg = Ok m
      ∧ MemoryManager.storage m = None
      ∧ ∀ message user_id session_id limit,
          MemoryManager.save_message message m = (Ok tt, m)
          ∧ MemoryManager.get_history user_id session_id limit m = (Ok [], m)
          ∧ MemoryManager.clear_history user_id session_id m = (Ok tt, m).
Proof.
  intros Hoff. unfold MemoryManager.__init__, StorageFactory.create_memory_storage.
  rewrite Hoff. simpl. split; [done |]. eexists. split; [done |].
  split; [done |]. intros. by rewrite andb_false_r.
Qed.
End disabled_memory.

Lemma disabled_memory_is_noop_witness :
  let cfg := {| MemoryConfig.enabled := false; MemoryConfig.storage_type := "mongodb";
                MemoryConfig.max_history_length := 10; MemoryConfig.ttl_hours := 168;
                MemoryConfig.custom_storage := Some file_memory0 |} in
  StorageFactory.create_memory_storage empty_server clock0 cfg = Ok None
  ∧ ∃ m, MemoryManager.__init__ true empty_server clock0 clock0 cfg = Ok m
      ∧ MemoryManager.storage m = None
      ∧ ∀ message user_id session_id limit,
          MemoryManager.save_message (json_module := IntegerJson.json) message m = (Ok tt, m)
          ∧ MemoryManager.get_history (json_module := IntegerJson.json)
              user_id session_id limit m = (Ok [], m)
          ∧ MemoryManager.clear_history user_id session_id m = (Ok tt, m).
Proof.
  intros cfg.
  apply (disabled_memory_is_noop (json_module := IntegerJson.json)
           true empty_server clock0 clock0 cfg).
  reflexivity.
Defined.

(** ** Exceptions of the storage stop at the managers *)

(** [self <~ get;; k] started in [s] is [k s] started in [s]. *)
Lemma bind_get {St A} (k : St → M St A) (s : St) : (self <~ get;; k self) s = k s s.
Proof. reflexivity. Qed.

Ltac run_get := unfold returns; try rewrite bind_get; cbv beta.

(** The same, for a method of a manager that starts with the truth test
    of its storage. *)
Ltac run_guard :=
  rewrite bind_get; unfold MemoryManager.storage_bool, LogManager.storage_bool.

Lemma try_except_returns {St A} (c : M St A) (a : A) (s : St) :
  returns (try_except c (λ _, ret a)) s.
Proof.
  unfold returns, try_except, ret.
  destruct (c s) as [[r | e] s']; eauto.
Qed.

Section swallowing.
Context {C D : Type} `{!MemoryStorage C} `{!LogStorage D} {json_module : Json}.

Lemma save_message_returns (message : ChatMessage) (m : MemoryManager.t C) :
  returns (MemoryManager.save_message message) m.
Proof.
  unfold MemoryManager.save_message. run_get.
  destruct (negb _); [by repeat eexists | apply try_except_returns].
Qed.

Lemma get_history_returns user_id session_id limit (m : MemoryManager.t C) :
  returns (MemoryManager.get_history user_id session_id limit) m.
Proof.
  unfold MemoryManager.get_history. run_get.
  destruct (negb _); [by repeat eexists | apply try_except_returns].
Qed.

Lemma clear_history_returns user_id session_id (m : MemoryManager.t C) :
  returns (MemoryManager.clear_history user_id session_id) m.
Proof.
  unfold MemoryManager.clear_history. run_get.
  destruct (negb _); [by repeat eexists | apply try_except_returns].
Qed.

Lemma or_uuid4_returns request_id (l : LogManager.t D) :
  ∃ id l', LogManager.or_uuid4 request_id l = (Ok id, l')
           ∧ LogManager.storage l' = LogManager.storage l.
Proof.
  unfold LogManager.or_uuid4. destruct (str_truthy request_id).
  - by repeat eexists.
  - unfold LogManager.read_uuid4. destruct (next _). by repeat eexists.
Qed.

Lemma log_request_returns user_id session_id data request_id (l : LogManager.t D) :
  returns (LogManager.log_request user_id session_id data request_id) l.
Proof.
  unfold LogManager.log_request. run_get.
  destruct (or_uuid4_returns request_id l) as (id & l' & Hid & _).
  destruct (negb _); [by repeat eexists |].
  unfold bind at 1. rewrite Hid. unfold bind at 1.
  match goal with
  | |- context [try_except ?c _ l'] =>
      destruct (try_except_returns c tt l') as (a & l'' & ->)
  end.
  by repeat eexists.
Qed.

Lemma log_response_returns user_id session_id data request_id (l : LogManager.t D) :
  returns (LogManager.log_response user_id session_id data request_id) l.
Proof.
  unfold LogManager.log_response. run_get.
  destruct (negb _); [by repeat eexists | apply try_except_returns].
Qed.

Lemma log_error_returns user_id session_id data (l : LogManager.t D) :
  returns (LogManager.log_error user_id session_id data) l.
Proof.
  unfold LogManager.log_error. run_get.
  destruct (negb _); [by repeat eexists | apply try_except_returns].
Qed.

Lemma get_logs_returns user_id session_id t0 t1 limit (l : LogManager.t D) :
  returns (LogManager.get_logs user_id session_id t0 t1 limit) l.
Proof.
  unfold LogManager.get_logs. run_get.
  destruct (negb _); [by repeat eexists | apply try_except_returns].
Qed.
Lemma save_message_degrades message (m : MemoryManager.t C) st e st' :
  MemoryManager.storage m = Some st →
  ms_bool st = true →
  ms_save_message (user_id message) (session_id message) (role message)
    (stored_content message) (metadata message) st = (Raise e, st') →
  MemoryManager.save_message message m
    = (Ok tt, MemoryManager.set_storage (Some st') m).
Proof.
  intros Hst Hb Hraise. unfold MemoryManager.save_message. run_guard; rewrite Hst, Hb.
  simpl in *. unfold try_except, bind at 1, MemoryManager.on_storage.
  rewrite Hst. fold (stored_content message). by rewrite Hraise.
Qed.

Lemma get_history_degrades user_id session_id limit (m : MemoryManager.t C) st e st' :
  MemoryManager.storage m = Some st →
  ms_bool st = true →
  MemoryManager.cache_truthy (MemoryManager._local_cache m) = false →
  ms_get_history user_id session_id limit st = (Raise e, st') →
  MemoryManager.get_history user_id session_id limit m
    = (Ok [], MemoryManager.set_storage (Some st') m).
Proof.
  intros Hst Hb Hcache Hraise. unfold MemoryManager.get_history.
  run_guard; rewrite Hst, Hb, Hcache. simpl in *.
  unfold try_except, bind at 1, MemoryManager.on_storage.
  by rewrite Hst, Hraise.
Qed.

Lemma clear_history_degrades user_id session_id (m : MemoryManager.t C) st e st' :
  MemoryManager.storage m = Some st →
  ms_bool st = true →
  ms_clear_history user_id session_id st = (Raise e, st') →
  MemoryManager.clear_history user_id session_id m
    = (Ok tt, MemoryManager.set_storage (Some st') m).
Proof.
  intros Hst Hb Hraise. unfold MemoryManager.clear_history. run_guard; rewrite Hst, Hb.
  simpl in *. unfold try_except, bind at 1, MemoryManager.on_storage.
  by rewrite Hst, Hraise.
Qed.

Lemma log_request_degrades user_id session_id data request_id (l : LogManager.t D) st e st' :
  LogManager.storage l = Some st →
  ls_bool st = true →
  (∀ log_data, ls_log_request user_id session_id log_data st = (Raise e, st')) →
  ∃ id l', LogManager.log_request user_id session_id data request_id l = (Ok id, l')
           ∧ LogManager.storage l' = Some st'.
Proof.
  intros Hst Hb Hraise. unfold LogManager.log_request. run_guard; rewrite Hst, Hb.
  destruct (or_uuid4_returns request_id l) as (id & l1 & Hid & Hl1).
  simpl in *. unfold bind at 1. rewrite Hid. unfold bind at 1, try_except, bind at 1.
  unfold LogManager.on_storage. rewrite Hl1, Hst, Hraise.
  by repeat eexists.
Qed.

Lemma log_response_degrades user_id session_id data request_id (l : LogManager.t D) st e st' :
  LogManager.storage l = Some st →
  ls_bool st = true →
  (∀ log_data, ls_log_response user_id session_id log_data request_id st = (Raise e, st')) →
  LogManager.log_response user_id session_id data request_id l
    = (Ok tt, LogManager.set_storage (Some st') l).
Proof.
  intros Hst Hb Hraise. unfold LogManager.log_response. run_guard; rewrite Hst, Hb.
  simpl in *. unfold try_except, bind at 1, LogManager.on_storage.
  by rewrite Hst, Hraise.
Qed.

Lemma log_error_degrades user_id session_id data (l : LogManager.t D) st e st' :
  LogManager.storage l = Some st →
  ls_bool st = true →
  ls_log_error user_id session_id data st = (Raise e, st') →
  LogManager.log_error user_id session_id data l
    = (Ok tt, LogManager.set_storage (Some st') l).
Proof.
  intros Hst Hb Hraise. unfold LogManager.log_error. run_guard; rewrite Hst, Hb.
  simpl in *. unfold try_except, bind at 1, LogManager.on_storage.
  by rewrite Hst, Hraise.
Qed.

Lemma get_logs_degrades user_id session_id t0 t1 limit (l : LogManager.t D) st e st' :
  LogManager.storage l = Some st →
  ls_bool st = true →
  ls_get_logs user_id session_id t0 t1 limit st = (Raise e, st') →
  LogManager.get_logs user_id session_id t0 t1 limit l
    = (Ok [], LogManager.set_storage (Some st') l).
Proof.
  intros Hst Hb Hraise. unfold LogManager.get_logs. run_guard; rewrite Hst, Hb.
  simpl in *. unfold try_except, LogManager.on_storage.
  by rewrite Hst, Hraise.
Qed.

(** C4: no operation of the memory manager or of the log manager lets an
    exception of its storage reach the caller.  Each of them returns
    normally in every state; and when the call into the storage raises,
    [save_message], [clear_history], [log_response] and [log_error] end as
    if skipped, [get_history] and [get_logs] answer the empty list, and
    [log_request] still answers a request id; the manager keeps the
    storage as the failed call left it and its cache untouched.  A call
    reaches the storage when the truth test the manager starts with,
    [if not self.storage], lets it through; with a storage that is falsy
    the operation ends there, as it does without a storage, and nothing
    can raise. *)
Theorem storage_failures_are_swallowed
    (m : MemoryManager.t C) (l : LogManager.t D)
    (mst mst' : StorageFactory.MemoryBackend C)
    (lst lst' : StorageFactory.LogBackend D) (e : exn)
    (message : ChatMessage) (user session : string) (limit : option Z)
    (data : PyDict) (request_id : option string)
    (filter_user filter_session : option string) (t0 t1 : option Z) (n : Z) :
  MemoryManager.storage m = Some mst →
  LogManager.storage l = Some lst →
  (returns (MemoryManager.save_message message) m
   ∧ returns (MemoryManager.get_history user session limit) m
   ∧ returns (MemoryManager.clear_history user session) m
   ∧ returns (LogManager.log_request user session data request_id) l
   ∧ returns (LogManager.log_response user session data request_id) l
   ∧ returns (LogManager.log_error user session data) l
   ∧ returns (LogManager.get_logs filter_user filter_session t0 t1 n) l)
  ∧ (ms_bool mst = true →
     (ms_save_message (user_id message) (session_id message) (role message)
        (stored_content message) (metadata message) mst = (Raise e, mst') →
      MemoryManager.save_message message m
        = (Ok tt, MemoryManager.set_storage (Some mst') m))
     ∧ (MemoryManager.cache_truthy (MemoryManager._local_cache m) = false →
        ms_get_history user session limit mst = (Raise e, mst') →
        MemoryManager.get_history user session limit m
          = (Ok [], MemoryManager.set_storage (Some mst') m))
     ∧ (ms_clear_history user session mst = (Raise e, mst') →
        MemoryManager.clear_history user session m
          = (Ok tt, MemoryManager.set_storage (Some mst') m)))
  ∧ (ls_bool lst = true →
     ((∀ log_data, ls_log_request user session log_data lst = (Raise e, lst')) →
      ∃ id l', LogManager.log_request user session data request_id l = (Ok id, l')
               ∧ LogManager.storage l' = Some lst')
     ∧ ((∀ log_data, ls_log_response user session log_data request_id lst
                     = (Raise e, lst')) →
        LogManager.log_response user session data request_id l
          = (Ok tt, LogManager.set_storage (Some lst') l))
     ∧ (ls_log_error user session data lst = (Raise e, lst') →
        LogManager.log_error user session data l
          = (Ok tt, LogManager.set_storage (Some lst') l))
     ∧ (ls_get_logs filter_user filter_session t0 t1 n lst = (Raise e, lst') →
        LogManager.get_logs filter_user filter_session t0 t1 n l
          = (Ok [], LogManager.set_storage (Some lst') l)))
  ∧ (ms_bool mst = false →
     MemoryManager.save_message message m = (Ok tt, m)
     ∧ MemoryManager.get_history user session limit m = (Ok [], m)
     ∧ MemoryManager.clear_history user session m = (Ok tt, m))
  ∧ (ls_bool lst = false →
     LogManager.log_request user session data request_id l
       = LogManager.or_uuid4 request_id l
     ∧ LogManager.log_response user session data request_id l = (Ok tt, l)
     ∧ LogManager.log_error user session data l = (Ok tt, l)
     ∧ LogManager.get_logs filter_user filter_session t0 t1 n l = (Ok [], l)).
Proof.
  intros Hm Hl. split; [| split; [| split; [| split]]].
  - repeat split.
    + apply save_message_returns.
    + apply get_history_returns.
    + apply clear_history_returns.
    + apply log_request_returns.
    + apply log_response_returns.
    + apply log_error_returns.
    + apply get_logs_returns.
  - intros Hb.
    split; [intros H; by eapply save_message_degrades |].
    split; [intros Hc H; by eapply get_history_degrades |].
    intros H; by eapply clear_history_degrades.
  - intros Hb.
    split; [intros H; by eapply log_request_degrades |].
    split; [intros H; by eapply log_response_degrades |].
    split; [intros H; by eapply log_error_degrades |].
    intros H; by eapply get_logs_degrades.
  - intros Hb.
    unfold MemoryManager.save_message, MemoryManager.get_history,
      MemoryManager.clear_history.
    rewrite !bind_get. unfold MemoryManager.storage_bool. by rewrite Hm, Hb.
  - intros Hb.
    unfold LogManager.log_request, LogManager.log_response, LogManager.log_error,
      LogManager.get_logs.
    rewrite !bind_get. unfold LogManager.storage_bool. by rewrite Hl, Hb.
Qed.
End swallowing.

Lemma storage_failures_are_swallowed_witness :
  MemoryManager.__init__ true empty_server clock0 clock0 down_memory_config
    = Ok down_memory_manager
  ∧ LogManager.__init__ empty_server clock0 uuids0 down_log_config = Ok down_log_manager
  ∧ MemoryManager.save_message (json_module := IntegerJson.json) hello down_memory_manager
    = (Ok tt, down_memory_manager)
  ∧ MemoryManager.get_history (json_module := IntegerJson.json) "u" "s" None
      down_memory_manager = (Ok [], down_memory_manager)
  ∧ MemoryManager.clear_history "u" "s" down_memory_manager = (Ok tt, down_memory_manager)
  ∧ (∃ id l', LogManager.log_request "u" "s" ∅ None down_log_manager = (Ok id, l')
              ∧ LogManager.storage l' = Some (StorageFactory.CustomLog DownStorage.Down))
  ∧ LogManager.log_response "u" "s" ∅ None down_log_manager = (Ok tt, down_log_manager)
  ∧ LogManager.log_error "u" "s" ∅ down_log_manager = (Ok tt, down_log_manager)
  ∧ LogManager.get_logs None None None None 100 down_log_manager
    = (Ok [], down_log_manager).
Proof.
  destruct (storage_failures_are_swallowed (json_module := IntegerJson.json)
              down_memory_manager down_log_manager
              (StorageFactory.CustomMemory DownStorage.Down)
              (StorageFactory.CustomMemory DownStorage.Down)
              (StorageFactory.CustomLog DownStorage.Down)
              (StorageFactory.CustomLog DownStorage.Down)
              DownStorage.ConnectionError hello "u" "s" None ∅ None None None None None 100
              eq_refl eq_refl)
    as (_ & Hmemory & Hlog & _).
  destruct (Hmemory eq_refl) as (Hsave & Hget & Hclear).
  destruct (Hlog eq_refl) as (Hreq & Hresp & Herr & Hlogs).
  split; [reflexivity |]. split; [reflexivity |].
  split; [exact (Hsave eq_refl) |].
  split; [exact (Hget eq_refl eq_refl) |].
  split; [exact (Hclear eq_refl) |].
  split; [exact (Hreq (λ _, eq_refl)) |].
  split; [exact (Hresp (λ _, eq_refl)) |].
  split; [exact (Herr eq_refl) |].
  exact (Hlogs eq_refl).
Defined.

(** ** The per-kind switches of the log configuration *)

(** C6, as stated, fails: with the three switches off and the file log
    storage of [config_examples.py] as custom storage, the manager made
    from that configuration still records a request, a response and an
    error. *)
Lemma log_switches_ignored_by_manager :
  LogManager.__init__ empty_server clock0 uuids0 quiet_log_config = Ok quiet_log_manager
  ∧ LogConfig.log_requests (LogManager.config quiet_log_manager) = false
  ∧ LogConfig.log_responses (LogManager.config quiet_log_manager) = false
  ∧ LogConfig.log_errors (LogManager.config quiet_log_manager) = false
  ∧ written quiet_log_manager = []
  ∧ lr_log_type <$> written (LogManager.log_request "u" "s" ∅ None quiet_log_manager).2
    = ["request"]
  ∧ lr_log_type <$> written (LogManager.log_response "u" "s" ∅ None quiet_log_manager).2
    = ["response"]
  ∧ lr_log_type <$> written (LogManager.log_error "u" "s" ∅ quiet_log_manager).2
    = ["error"].
Proof. repeat split; reflexivity. Qed.

Section log_switches.
Context {D : Type} `{!LogStorage D}.

Lemma set_storage_same (l : LogManager.t D) st :
  LogManager.storage l = Some st → LogManager.set_storage (Some st) l = l.
Proof. destruct l; simpl; by intros ->. Qed.

(** C6, amended: the switches are checked by the built-in MongoDB log
    storage, first thing in each of its three writers: when the switch of
    the kind is off, the call made through the manager returns normally
    and the storage (collection, clock, configuration) is as before.  The
    manager does not look at the switches: whatever they say, a custom
    storage is handed the call.  The one test the manager makes is the
    truth test of the storage, which an object passes unless its class
    makes it falsy; a storage that fails it is not called, whatever the
    switches say. *)
Theorem log_switches_checked_by_builtin_storage
    (l : LogManager.t D) (user session : string) (data : PyDict)
    (request_id : option string) :
  (∀ mongo,
    LogManager.storage l = Some (StorageFactory.BuiltinLog mongo) →
    (LogConfig.log_requests (MongoLogStorage.config mongo) = false →
     ∃ id l', LogManager.log_request user session data request_id l = (Ok id, l')
              ∧ LogManager.storage l' = LogManager.storage l)
    ∧ (LogConfig.log_responses (MongoLogStorage.config mongo) = false →
       LogManager.log_response user session data request_id l = (Ok tt, l))
    ∧ (LogConfig.log_errors (MongoLogStorage.config mongo) = false →
       LogManager.log_error user session data l = (Ok tt, l)))
  ∧ (∀ custom,
      LogManager.storage l = Some (StorageFactory.CustomLog custom) →
      ls_bool custom = true →
      LogManager.storage (LogManager.log_response user session data request_id l).2
        = Some (StorageFactory.CustomLog
                  (ls_log_response user session
                     (<["choices" := LogManager.dict_get data "choices"]>
                      (<["usage" := LogManager.dict_get data "usage"]>
                      (<["model" := LogManager.dict_get data "model"]>
                      (<["created" := LogManager.dict_get data "created"]> ∅))))
                     request_id custom).2)
      ∧ LogManager.storage (LogManager.log_error user session data l).2
        = Some (StorageFactory.CustomLog (ls_log_error user session data custom).2))
  ∧ (∀ custom,
      LogManager.storage l = Some (StorageFactory.CustomLog custom) →
      ls_bool custom = false →
      LogManager.log_response user session data request_id l = (Ok tt, l)
      ∧ LogManager.log_error user session data l = (Ok tt, l)).
Proof.
  split; [| split].
  - intros mongo Hst. split; [| split]; intros Hoff.
    + unfold LogManager.log_request. run_guard; rewrite Hst. simpl.
      destruct (or_uuid4_returns request_id l) as (id & l1 & Hid & Hl1).
      unfold bind at 1. rewrite Hid. unfold bind at 1, try_except, bind at 1.
      unfold LogManager.on_storage. rewrite Hl1, Hst. simpl.
      unfold MongoLogStorage.log_request. rewrite bind_get, Hoff. simpl.
      exists id. eexists. split; [done |]. simpl. congruence.
    + unfold LogManager.log_response. run_guard; rewrite Hst. simpl.
      unfold try_except, bind at 1, LogManager.on_storage. rewrite Hst. simpl.
      unfold MongoLogStorage.log_response. rewrite bind_get, Hoff. simpl.
      by rewrite set_storage_same.
    + unfold LogManager.log_error. run_guard; rewrite Hst. simpl.
      unfold try_except, bind at 1, LogManager.on_storage. rewrite Hst. simpl.
      unfold MongoLogStorage.log_error. rewrite bind_get, Hoff. simpl.
      by rewrite set_storage_same.
  - intros custom Hst Hb. split.
    + unfold LogManager.log_response. run_guard; rewrite Hst. simpl. rewrite Hb. simpl.
      unfold try_except, bind at 1, LogManager.on_storage. rewrite Hst. simpl.
      destruct (ls_log_response _ _ _ _ custom) as [[r | e] c']; reflexivity.
    + unfold LogManager.log_error. run_guard; rewrite Hst. simpl. rewrite Hb. simpl.
      unfold try_except, bind at 1, LogManager.on_storage. rewrite Hst. simpl.
      destruct (ls_log_error _ _ _ custom) as [[r | e] c']; reflexivity.
  - intros custom Hst Hb. split.
    + unfold LogManager.log_response. run_guard; rewrite Hst. simpl. by rewrite Hb.
    + unfold LogManager.log_error. run_guard; rewrite Hst. simpl. by rewrite Hb.
Qed.
End log_switches.

(** ** Reading the history from the built-in storage *)

Lemma Sorted_take {A} (R : relation A) (n : nat) (l : list A) :
  Sorted R l → Sorted R (take n l).
Proof.
  revert n. induction l as [| x l IH]; intros [| n] Hs; simpl; try constructor.
  - apply IH. by inversion Hs.
  - inversion_clear Hs as [| ?? _ Hhd].
    destruct l, n; simpl; constructor. by inversion Hhd.
Qed.

#[global] Instance ascending_total {Doc} (key : Doc → Z) : Total (Mongo.ascending key).
Proof. intros a b. unfold Mongo.ascending. lia. Qed.

#[global] Instance descending_total {Doc} (key : Doc → Z) : Total (Mongo.descending key).
Proof. intros a b. unfold Mongo.descending. lia. Qed.

Lemma truncate_length {A} (k : option nat) (l : list A) n :
  k = Some n → (length (truncate k l) ≤ n)%nat.
Proof. intros ->. simpl. rewrite length_take. lia. Qed.

Lemma session_documents_sorted user session docs :
  Sorted (Mongo.ascending MongoMemoryStorage.doc_timestamp)
    (session_documents user session docs).
Proof. apply (Sorted_merge_sort _). Qed.

Section builtin_history.
Context {C : Type}.
Import MongoMemoryStorage.

Lemma set_remote_same (self : MongoMemoryStorage.t C) :
  set_remote (remote self) self = self.
Proof. by destruct self. Qed.

Lemma mongo_get_history_ready (self : MongoMemoryStorage.t C) user session limit :
  ready self →
  get_history user session limit self
  = (Ok (to_entry <$>
           truncate (applied_limit limit (MemoryConfig.max_history_length (config self)))
             (session_documents user session (Mongo.documents (remote self)))),
     self).
Proof.
  intros [Hc Hup]. unfold get_history. rewrite bind_get, Hc. simpl.
  unfold try_except, bind, on_remote, zoom, Mongo.to_list, applied_limit.
  rewrite Hup, set_remote_same. unfold ret.
  destruct (int_truthy limit) eqn:Hl.
  - destruct limit as [n |]; [| done]. simpl in *.
    unfold Mongo.limit. destruct (n =? 0); [done |]. reflexivity.
  - destruct (0 <? MemoryConfig.max_history_length (config self)) eqn:Hpos; [| done].
    unfold Mongo.limit.
    destruct (MemoryConfig.max_history_length (config self) =? 0) eqn:Hz; [lia | done].
Qed.

Lemma mongo_get_history_not_ready (self : MongoMemoryStorage.t C) user session limit :
  ¬ ready self →
  get_history user session limit self = (Ok [], self).
Proof.
  intros Hn. unfold get_history. rewrite bind_get.
  destruct (_collection self) eqn:Hc; [| done]. simpl.
  unfold try_except, bind, on_remote, zoom, Mongo.to_list.
  destruct (Mongo.server_up (remote self)) eqn:Hup.
  - destruct Hn. by split.
  - destruct (int_truthy limit), (0 <? MemoryConfig.max_history_length (config self));
      by rewrite set_remote_same.
Qed.

Lemma ready_dec (self : MongoMemoryStorage.t C) : ready self ∨ ¬ ready self.
Proof.
  unfold ready. destruct (_collection self), (Mongo.server_up (remote self));
    intuition congruence.
Qed.
End builtin_history.

Lemma advance_next {A} (k : nat) (o : Oracle A) :
  advance k (next o).2 = advance (S k) o.
Proof. unfold advance, next. simpl. f_equal. lia. Qed.

Lemma advance_0 {A} (o : Oracle A) : advance 0 o = o.
Proof. destruct o. unfold advance. simpl. f_equal. lia. Qed.

Section manager_history.
Context {C : Type} `{!MemoryStorage C} {json_module : Json}.

#[local] Arguments MemoryManager.loads_or_keep : simpl never.

Lemma loads_or_keep_settled (s : string) :
  settled s = true → MemoryManager.loads_or_keep (PStr s) = Ok (decode (PStr s)).
Proof.
  unfold settled, MemoryManager.loads_or_keep, decode.
  destruct (json_loads s) as [v | e]; [done |]. by intros ->.
Qed.

Lemma loads_or_keep_unsettled (s : string) :
  settled s = false → ∃ e, MemoryManager.loads_or_keep (PStr s) = Raise e.
Proof.
  unfold settled, MemoryManager.loads_or_keep.
  destruct (json_loads s) as [v | e]; [done |]. intros ->. by eexists.
Qed.

Lemma settled_prefix_all (docs : list MongoMemoryStorage.Document) :
  forallb (λ d, settled (MongoMemoryStorage.doc_content d)) docs = true →
  settled_prefix docs = length docs.
Proof.
  induction docs as [| d docs IH]; simpl; [done |].
  destruct (settled _); [| done]. simpl. intros H. by rewrite IH.
Qed.

Lemma for_each_documents user session (docs : list MongoMemoryStorage.Document)
    (m : MemoryManager.t C) :
  ∃ r,
    MemoryManager.for_each (MemoryManager.to_message user session)
      (MongoMemoryStorage.to_entry <$> docs) m
    = (r, with_now (advance (settled_prefix docs) (MemoryManager.now m)) m)
    ∧ if forallb (λ d, settled (MongoMemoryStorage.doc_content d)) docs
      then r = Ok (message_of_document user session <$> docs)
      else ∃ e, r = Raise e.
Proof.
  revert m. induction docs as [| d docs IH]; intros m.
  - simpl. eexists. split; [| done]. unfold ret. rewrite advance_0. by destruct m.
  - rewrite fmap_cons. cbn [MemoryManager.for_each forallb settled_prefix].
    unfold bind at 1, MemoryManager.to_message at 1, bind at 1, lift.
    cbn [he_content MongoMemoryStorage.to_entry].
    destruct (settled (MongoMemoryStorage.doc_content d)) eqn:Hd;
      cbn [andb].
    + rewrite (loads_or_keep_settled _ Hd).
      unfold bind at 1, MemoryManager.read_now.
      destruct (next (MemoryManager.now m)) as [t0 o] eqn:Hnext.
      unfold ret at 1. cbv beta iota. unfold bind at 1.
      match goal with
      | |- context [MemoryManager.for_each _ _ ?m1] =>
          destruct (IH m1) as (r & -> & Hr)
      end.
      simpl. rewrite <- advance_next, Hnext. simpl.
      destruct (forallb _ docs).
      * subst r. eexists. split; [reflexivity |]. reflexivity.
      * destruct Hr as [e ->]. eexists. split; [reflexivity |]. by eexists.
    + destruct (loads_or_keep_unsettled _ Hd) as [e ->].
      eexists. split; [| by eexists]. rewrite advance_0. by destruct m.
Qed.

(** A read that is served by the built-in storage. *)
Lemma get_history_builtin_ready (m : MemoryManager.t C) mongo user session limit :
  MemoryManager.storage m = Some (StorageFactory.BuiltinMemory mongo) →
  MemoryManager.cache_truthy (MemoryManager._local_cache m) = false →
  ready mongo →
  let docs :=
    truncate
      (applied_limit limit (MemoryConfig.max_history_length (MongoMemoryStorage.config mongo)))
      (session_documents user session
         (Mongo.documents (MongoMemoryStorage.remote mongo))) in
  MemoryManager.get_history user session limit m
  = (Ok (messages_of_documents user session docs),
     with_now (advance (settled_prefix docs) (MemoryManager.now m)) m).
Proof.
  intros Hst Hcache Hready docs. unfold MemoryManager.get_history.
  run_guard; rewrite Hst, Hcache. simpl.
  unfold try_except, bind at 1, MemoryManager.on_storage. rewrite Hst. simpl.
  rewrite (mongo_get_history_ready _ _ _ _ Hready). fold docs.
  unfold bind at 1.
  match goal with
  | |- context [MemoryManager.for_each _ _ ?m1] =>
      destruct (for_each_documents user session docs m1) as (r & -> & Hr)
  end.
  unfold messages_of_documents.
  destruct (forallb _ docs).
  - subst r. rewrite bind_get. simpl. rewrite Hcache. unfold bind, ret. simpl.
    f_equal. destruct m; simpl in *. by subst.
  - destruct Hr as [e ->]. unfold ret. simpl.
    f_equal. destruct m; simpl in *. by subst.
Qed.

Lemma get_history_builtin_not_ready (m : MemoryManager.t C) mongo user session limit :
  MemoryManager.storage m = Some (StorageFactory.BuiltinMemory mongo) →
  MemoryManager.cache_truthy (MemoryManager._local_cache m) = false →
  ¬ ready mongo →
  MemoryManager.get_history user session limit m = (Ok [], m).
Proof.
  intros Hst Hcache Hn. unfold MemoryManager.get_history.
  run_guard; rewrite Hst, Hcache. simpl.
  unfold try_except, bind at 1, MemoryManager.on_storage. rewrite Hst. simpl.
  rewrite (mongo_get_history_not_ready _ _ _ _ Hn).
  unfold bind at 1. simpl. unfold ret at 1. rewrite bind_get. simpl.
  rewrite Hcache. unfold bind, ret. simpl. f_equal.
  destruct m; simpl in *. by subst.
Qed.
End manager_history.

Section sorted_history.
Context {C : Type} `{!MemoryStorage C} {json_module : Json}.

Lemma messages_sorted user session (docs : list MongoMemoryStorage.Document) :
  Sorted (Mongo.ascending MongoMemoryStorage.doc_timestamp) docs →
  Sorted by_timestamp (messages_of_documents user session docs).
Proof.
  intros Hs. unfold messages_of_documents. destruct (forallb _ docs); [| constructor].
  revert Hs. apply Sorted_fmap. by intros a b.
Qed.

Lemma messages_length user session (docs : list MongoMemoryStorage.Document) :
  (length (messages_of_documents user session docs) ≤ length docs)%nat.
Proof.
  unfold messages_of_documents. destruct (forallb _ docs); simpl; [| lia].
  by rewrite length_fmap.
Qed.

Lemma truncate_sorted {A} (R : relation A) k (l : list A) :
  Sorted R l → Sorted R (truncate k l).
Proof. destruct k; simpl; [apply Sorted_take | done]. Qed.

(** C3, amended: a history read that the manager passes to the built-in
    MongoDB storage returns the messages in ascending order of time stamp
    and no more of them than the limit in force, which is the magnitude of
    the [limit] argument when that is given and not zero, else the
    configured [MemoryConfig.max_history_length] when that is positive; in the
    remaining case there is no limit. *)
Theorem history_sorted_and_bounded (m : MemoryManager.t C)
    (mongo : MongoMemoryStorage.t C) (user session : string) (limit : option Z) :
  MemoryManager.storage m = Some (StorageFactory.BuiltinMemory mongo) →
  MemoryManager.cache_truthy (MemoryManager._local_cache m) = false →
  ∃ messages m',
    MemoryManager.get_history user session limit m = (Ok messages, m')
    ∧ Sorted by_timestamp messages
    ∧ ∀ k, applied_limit limit
             (MemoryConfig.max_history_length (MongoMemoryStorage.config mongo)) = Some k →
           (length messages ≤ k)%nat.
Proof.
  intros Hst Hcache. destruct (ready_dec mongo) as [Hr | Hn].
  - eexists _, _. split; [by apply (get_history_builtin_ready m mongo) |]. split.
    + apply messages_sorted, truncate_sorted, session_documents_sorted.
    + intros k Hk. etrans; [apply messages_length |]. by apply truncate_length.
  - eexists _, _. split; [by apply (get_history_builtin_not_ready m mongo) |]. split.
    + constructor.
    + intros k _. simpl. lia.
Qed.
End sorted_history.

Lemma builtin_manager_made (n : Z) :
  ∃ m0, MemoryManager.__init__ true three_turns clock0 clock0 (builtin_memory_config n) = Ok m0
        ∧ MemoryManager.initialize m0 = (Ok true, builtin_manager n).
Proof.
  eexists. split; [reflexivity |].
  unfold MemoryManager.initialize. rewrite bind_get. simpl.
  unfold MongoMemoryStorage.initialize, try_except, bind, modify, ret. simpl.
  by destruct (0 <? 168).
Qed.

(** C3, as stated, fails: an explicit limit of 0 is given and two messages
    come back (the configured length, 2, is applied instead); and with no
    explicit limit and a configured length of 0, three come back. *)
Lemma history_limit_zero_not_applied :
  (MemoryManager.get_history (json_module := IntegerJson.json)
     "u" "s" (Some 0) (builtin_manager 2)).1
  = Ok [read_back 1 "user" "t1"; read_back 2 "assistant" "t2"]
  ∧ (MemoryManager.get_history (json_module := IntegerJson.json)
       "u" "s" None (builtin_manager 0)).1
    = Ok [read_back 1 "user" "t1"; read_back 2 "assistant" "t2"; read_back 3 "user" "t3"].
Proof. split; vm_compute; reflexivity. Qed.

Lemma history_sorted_and_bounded_witness :
  ∃ messages m',
    MemoryManager.get_history (json_module := IntegerJson.json)
      "u" "s" (Some 2) (builtin_manager 10) = (Ok messages, m')
    ∧ Sorted by_timestamp messages
    ∧ ∀ k, applied_limit (Some 2) 10 = Some k → (length messages ≤ k)%nat.
Proof.
  apply (history_sorted_and_bounded (json_module := IntegerJson.json)
           (builtin_manager 10)
           (builtin_storage 10)
           "u" "s" (Some 2)); reflexivity.
Defined.

(** ** The history put into an outbound request *)

Lemma builtin_client_made (n : Z) :
  QianwenClient.initialize builtin_env
    (QianwenClient.__init__
       {| QianwenConfig.model := sample_model_config;
          QianwenConfig.memory := builtin_memory_config n;
          QianwenConfig.log := no_log_config |}
       (λ _, Ok (reply_with (PStr "fine")))
       (λ _, Ok {| chunks := []; failure := None |}) clock0)
  = (Ok tt, builtin_client n).
Proof.
  reflexivity.
Qed.

(** C1 fails on the code: [MemoryConfig.max_history_length = 2], the built-in storage
    holds t1, t2, t3 in that order, and the request built by a new [ask]
    carries t1 and t2, the two oldest messages, before the new one; t3 is
    left out. *)
Theorem build_messages_keeps_oldest :
  (QianwenChat._build_messages (json_module := IntegerJson.json)
     (chat_of (builtin_client 2)) "q" (builtin_client 2)).1
  = Ok [QianwenChat.message_dict "user" (PStr "t1");
        QianwenChat.message_dict "assistant" (PStr "t2");
        QianwenChat.message_dict "user" (PStr "q")].
Proof. vm_compute. reflexivity. Qed.

Section request_history.
Context {C D : Type} `{!MemoryStorage C} `{!LogStorage D} {json_module : Json}.

(** In general: whenever the built-in storage serves the read, the
    history part of the request is the beginning of the session in time
    order, cut after the limit in force (and nothing at all when
    [json.loads] does not settle the content of one of these documents). *)
Lemma build_messages_builtin (client : QianwenClient.t C D) (m : MemoryManager.t C)
    (mongo : MongoMemoryStorage.t C) (self : QianwenChat.t) (message : string) :
  QianwenClient.memory_manager client = Some m →
  MemoryManager.storage m = Some (StorageFactory.BuiltinMemory mongo) →
  MemoryManager.cache_truthy (MemoryManager._local_cache m) = false →
  ready mongo →
  QianwenChat._memory_enabled self = true →
  QianwenChat._system_message self = None →
  (QianwenChat._build_messages self message client).1
  = Ok (((λ msg, QianwenChat.message_dict (role msg) (content msg)) <$>
           messages_of_documents (QianwenChat._user_id self) (QianwenChat._session_id self)
             (truncate
                (applied_limit
                   (Some (MemoryConfig.max_history_length
                            (QianwenConfig.memory (QianwenClient.config client))))
                   (MemoryConfig.max_history_length (MongoMemoryStorage.config mongo)))
                (session_documents (QianwenChat._user_id self)
                   (QianwenChat._session_id self)
                   (Mongo.documents (MongoMemoryStorage.remote mongo)))))
        ++ [QianwenChat.message_dict "user" (PStr message)])%list.
Proof.
  intros Hm Hst Hcache Hready Hon Hsys. unfold QianwenChat._build_messages.
  rewrite bind_get, Hon, Hm, Hsys. simpl.
  unfold bind at 1, bind at 1, QianwenClient.on_memory_manager. rewrite Hm.
  rewrite (get_history_builtin_ready m mongo _ _ _ Hst Hcache Hready).
  reflexivity.
Qed.
End request_history.

Lemma file_client_made (n : Z) :
  QianwenClient.initialize builtin_env
    (QianwenClient.__init__
       {| QianwenConfig.model := sample_model_config;
          QianwenConfig.memory := file_memory_config n;
          QianwenConfig.log := no_log_config |}
       (λ _, Ok (reply_with (PStr "fine")))
       (λ _, Ok {| chunks := []; failure := None |}) clock0)
  = (Ok tt, file_client n).
Proof. reflexivity. Qed.

(** With that storage, which slices [messages[-limit:]], the same request
    carries t2 and t3. *)
Lemma build_messages_on_file_keeps_latest :
  (QianwenChat._build_messages (json_module := IntegerJson.json)
     (chat_of (file_client 2)) "q" (file_client 2)).1
  = Ok [QianwenChat.message_dict "assistant" (PStr "t2");
        QianwenChat.message_dict "user" (PStr "t3");
        QianwenChat.message_dict "user" (PStr "q")].
Proof. vm_compute. reflexivity. Qed.

(** ** Writing to the built-in storage *)
Section builtin_save.
Context {C : Type}.
Import MongoMemoryStorage.

Lemma mongo_save_ready (mongo : MongoMemoryStorage.t C) user session r text md :
  ready mongo →
  save_message user session r text md mongo
  = (Ok true, inserted mongo user session r text md).
Proof.
  intros [Hc Hup]. unfold save_message. rewrite bind_get, Hc. simpl.
  unfold try_except, bind, read_utcnow, on_remote, zoom, Mongo.insert_one. simpl.
  by rewrite Hup.
Qed.

Lemma inserted_ready (mongo : MongoMemoryStorage.t C) user session r text md :
  ready mongo → ready (inserted mongo user session r text md).
Proof. by intros [Hc Hup]. Qed.

(** A storage that is not ready stores nothing. *)
Lemma mongo_save_not_ready (mongo : MongoMemoryStorage.t C) user session r text md :
  ¬ ready mongo →
  ∃ mongo', save_message user session r text md mongo = (Ok false, mongo')
            ∧ remote mongo' = remote mongo
            ∧ _collection mongo' = _collection mongo
            ∧ config mongo' = config mongo.
Proof.
  intros Hn. unfold save_message. rewrite bind_get.
  destruct (_collection mongo) eqn:Hc; simpl; [| by eexists].
  unfold try_except, bind, read_utcnow, on_remote, zoom, Mongo.insert_one. simpl.
  destruct (Mongo.server_up (remote mongo)) eqn:Hup.
  - destruct Hn. by split.
  - eexists. split; [done |]. simpl. by destruct (remote mongo).
Qed.
End builtin_save.

Section manager_save.
Context {C : Type} `{!MemoryStorage C} {json_module : Json}.

(** While the cache is falsy, [save_message] does nothing but call the
    storage, when the storage is truthy. *)
Lemma save_message_state (message : ChatMessage) (m : MemoryManager.t C) st :
  MemoryManager.storage m = Some st →
  MemoryManager.cache_truthy (MemoryManager._local_cache m) = false →
  ms_bool st = true →
  MemoryManager.save_message message m
  = (Ok tt,
     MemoryManager.set_storage
       (Some (ms_save_message (user_id message) (session_id message) (role message)
                (stored_content message) (metadata message) st).2) m).
Proof.
  intros Hst Hcache Hb. unfold MemoryManager.save_message. run_guard; rewrite Hst, Hb.
  simpl. unfold try_except, bind at 1, MemoryManager.on_storage. rewrite Hst.
  fold (stored_content message).
  destruct (StorageFactory.on_memory_backend _ _ st) as [[r | e] st']; simpl.
  - rewrite bind_get. simpl. by rewrite Hcache.
  - done.
Qed.

(** With a storage that is falsy, or none, the three operations end at
    their first test. *)
Lemma falsy_storage_skips (m : MemoryManager.t C) message user session limit :
  MemoryManager.storage_bool m = false →
  MemoryManager.save_message message m = (Ok tt, m)
  ∧ MemoryManager.get_history user session limit m = (Ok [], m)
  ∧ MemoryManager.clear_history user session m = (Ok tt, m).
Proof.
  intros Hb. unfold MemoryManager.save_message, MemoryManager.get_history,
    MemoryManager.clear_history.
  rewrite !bind_get. by rewrite Hb.
Qed.

Lemma to_message_state user session (e : HistoryEntry) (m : MemoryManager.t C) :
  ∃ r o, MemoryManager.to_message user session e m = (r, with_now o m).
Proof.
  unfold MemoryManager.to_message, bind, lift, MemoryManager.read_now, ret.
  destruct (MemoryManager.loads_or_keep (he_content e)).
  - destruct (next (MemoryManager.now m)). by eexists _, _.
  - exists (Raise e0), (MemoryManager.now m). by destruct m.
Qed.

Lemma for_each_state user session (entries : list HistoryEntry)
    (m : MemoryManager.t C) :
  ∃ r o,
    MemoryManager.for_each (MemoryManager.to_message user session) entries m
    = (r, with_now o m).
Proof.
  revert m. induction entries as [| e entries IH]; intros m; simpl.
  - exists (Ok []), (MemoryManager.now m). by destruct m.
  - unfold bind at 1.
    destruct (to_message_state user session e m) as ([message | e'] & o & ->).
    + unfold bind at 1.
      destruct (IH (with_now o m)) as ([ms | e'] & o' & ->); by eexists _, _.
    + by eexists _, _.
Qed.

(** The local cache is never filled: it is created empty, an empty
    [TTLCache] is falsy, and every statement that would write to it is
    guarded by [if self._local_cache:]. *)
Lemma cache_created_falsy cachetools server utc clock (cfg : MemoryConfig.t C) m :
  MemoryManager.__init__ cachetools server utc clock cfg = Ok m →
  MemoryManager.cache_truthy (MemoryManager._local_cache m) = false.
Proof.
  unfold MemoryManager.__init__.
  destruct (StorageFactory.create_memory_storage _ _ _); [| done].
  intros [= <-]. simpl. by destruct (cachetools && MemoryConfig.enabled cfg).
Qed.

Lemma cache_stays_falsy (m : MemoryManager.t C) message user session limit :
  MemoryManager.cache_truthy (MemoryManager._local_cache m) = false →
  MemoryManager._local_cache (MemoryManager.save_message message m).2
    = MemoryManager._local_cache m
  ∧ MemoryManager._local_cache (MemoryManager.get_history user session limit m).2
    = MemoryManager._local_cache m
  ∧ MemoryManager._local_cache (MemoryManager.clear_history user session m).2
    = MemoryManager._local_cache m.
Proof.
  intros Hcache.
  destruct (MemoryManager.storage_bool m) eqn:Hb.
  2: { destruct (falsy_storage_skips m message user session limit Hb)
         as (-> & -> & ->). done. }
  unfold MemoryManager.storage_bool in Hb.
  destruct (MemoryManager.storage m) as [st |] eqn:Hst; [| done].
  split; [| split].
  - by rewrite (save_message_state _ _ _ Hst Hcache Hb).
  - unfold MemoryManager.get_history. run_guard; rewrite Hst, Hb. simpl.
    rewrite Hcache. unfold try_except, bind at 1, MemoryManager.on_storage.
    rewrite Hst.
    destruct (StorageFactory.on_memory_backend _ _ st) as [[es | e] st']; [| done].
    unfold bind at 1.
    destruct (for_each_state user session es
                (MemoryManager.set_storage (Some st') m)) as ([ms | e] & o & ->);
      [| done].
    rewrite bind_get. simpl. by rewrite Hcache.
  - unfold MemoryManager.clear_history. run_guard; rewrite Hst, Hb. simpl.
    unfold try_except, bind at 1, MemoryManager.on_storage. rewrite Hst.
    destruct (StorageFactory.on_memory_backend _ _ st) as [[r | e] st']; [| done].
    rewrite bind_get. simpl. by rewrite Hcache.
Qed.
End manager_save.

(** ** Saving a text and reading it back *)

Lemma applied_limit_positive limit configured k :
  applied_limit limit configured = Some k → (1 ≤ k)%nat.
Proof.
  unfold applied_limit. destruct (int_truthy limit) eqn:Hl.
  - destruct limit as [n |]; [| done]. simpl in *. intros [= <-].
    destruct (Z.eqb_spec n 0); [done | lia].
  - destruct (Z.ltb_spec 0 configured); [| done]. intros [= <-]. lia.
Qed.

Lemma truncate_singleton {A} limit configured (x : A) :
  truncate (applied_limit limit configured) [x] = [x].
Proof.
  destruct (applied_limit limit configured) as [k |] eqn:Hk; [| done].
  apply applied_limit_positive in Hk. destruct k; [lia |].
  simpl. by rewrite take_nil.
Qed.

Lemma session_documents_first user session docs d :
  filter (λ d, MongoMemoryStorage.query user session d = true) docs = [] →
  MongoMemoryStorage.query user session d = true →
  session_documents user session (docs ++ [d]) = [d].
Proof.
  intros Hnone Hd. unfold session_documents.
  rewrite filter_app, Hnone. simpl. rewrite filter_cons_True by done.
  reflexivity.
Qed.


Section round_trip.
Context {C : Type} `{!MemoryStorage C} {json_module : Json}.

End round_trip.



(** ** A calculus for the methods of the session *)
Lemma wp_ret {St A} (a : A) (Q : Outcome A → St → Prop) s :
  Q (Ok a) s → wp (ret a) Q s.
Proof. done. Qed.

Lemma wp_raise {St A} (e : exn) (Q : Outcome A → St → Prop) s :
  Q (Raise e) s → wp (raise e) Q s.
Proof. done. Qed.

Lemma wp_lift {St A} (o : Outcome A) (Q : Outcome A → St → Prop) s :
  Q o s → wp (lift o) Q s.
Proof. done. Qed.

Lemma wp_bind {St A B} (c : M St A) (k : A → M St B) (Q : Outcome B → St → Prop) s :
  wp c (λ r s', match r with
                | Ok a => wp (k a) Q s'
                | Raise e => Q (Raise e) s'
                end) s →
  wp (bind c k) Q s.
Proof. unfold wp, bind. by destruct (c s) as [[a | e] s']. Qed.

Lemma wp_try_except {St A} (c : M St A) (h : exn → M St A) (Q : Outcome A → St → Prop) s :
  wp c (λ r s', match r with
                | Ok a => Q (Ok a) s'
                | Raise e => wp (h e) Q s'
                end) s →
  wp (try_except c h) Q s.
Proof. unfold wp, try_except. by destruct (c s) as [[a | e] s']. Qed.

Lemma wp_get {St A} (k : St → M St A) (Q : Outcome A → St → Prop) s :
  wp (k s) Q s → wp (self <~ get;; k self) Q s.
Proof. done. Qed.

Lemma wp_mono {St A} (c : M St A) (Q Q' : Outcome A → St → Prop) s :
  wp c Q s → (∀ r s', Q r s' → Q' r s') → wp c Q' s.
Proof. unfold wp. auto. Qed.

(** ** The steps of [ask] and [stream] over the built-in storage *)
Section session_steps.
Context {C D : Type} `{!MemoryStorage C} `{!LogStorage D} {json_module : Json}.

Abbreviation Client := (QianwenClient.t C D).

Lemma holds_set_log_manager (client : Client) mongo l :
  holds client mongo → holds (QianwenClient.set_log_manager l client) mongo.
Proof. done. Qed.

Lemma wp_on_log_manager {A} (c : M (LogManager.t D) A)
    (Q : Outcome A → Client → Prop) client l :
  QianwenClient.log_manager client = Some l →
  returns c l →
  (∀ r l', Q (Ok r) (QianwenClient.set_log_manager (Some l') client)) →
  wp (QianwenClient.on_log_manager c) Q client.
Proof.
  intros Hl (r & l' & Hc) HQ. unfold wp, QianwenClient.on_log_manager.
  rewrite Hl, Hc. apply HQ.
Qed.

Lemma wp_log_request (self : QianwenChat.t) request_params
    (Q : Outcome (option string) → Client → Prop) client mongo :
  holds client mongo →
  (∀ rid client', holds client' mongo → Q (Ok rid) client') →
  wp (QianwenChat.log_request self request_params) Q client.
Proof.
  intros Hh HQ. unfold QianwenChat.log_request. apply wp_get.
  destruct (QianwenClient.log_manager client) as [l |] eqn:Hl; simpl.
  - apply wp_bind. eapply wp_on_log_manager; [done | apply log_request_returns |].
    intros r l'. apply wp_ret, HQ. by apply holds_set_log_manager.
  - by apply wp_ret, HQ.
Qed.

Lemma wp_log_response (self : QianwenChat.t) data rid
    (Q : Outcome unit → Client → Prop) (captured client : Client) mongo :
  holds client mongo →
  QianwenClient.log_manager client = QianwenClient.log_manager captured →
  (∀ client', holds client' mongo → Q (Ok tt) client') →
  wp (if bool_decide (is_Some (QianwenClient.log_manager captured))
      then QianwenClient.on_log_manager
             (LogManager.log_response (QianwenChat._user_id self)
                (QianwenChat._session_id self) data rid)
      else ret tt) Q client.
Proof.
  intros Hh Hsame HQ. rewrite <- Hsame.
  destruct (QianwenClient.log_manager client) as [l |] eqn:Hl; simpl.
  - eapply wp_on_log_manager; [done | apply log_response_returns |].
    intros [] l'. apply HQ. by apply holds_set_log_manager.
  - by apply wp_ret, HQ.
Qed.

Lemma wp_on_error {A} (self : QianwenChat.t) prefix request_params e
    (Q : Outcome A → Client → Prop) client mongo :
  holds client mongo →
  (∀ client', holds client' mongo →
     Q (Raise (QianwenChat.QianwenAPIError (prefix ++ exn_message e))) client') →
  wp (QianwenChat.on_error self prefix request_params e) Q client.
Proof.
  intros Hh HQ. unfold QianwenChat.on_error. apply wp_get, wp_bind.
  destruct (QianwenClient.log_manager client) as [l |] eqn:Hl; simpl.
  - eapply wp_on_log_manager; [done | apply log_error_returns |].
    intros [] l'. apply wp_raise, HQ. by apply holds_set_log_manager.
  - apply wp_ret, wp_raise. by apply HQ.
Qed.

Lemma wp_new_message (self : QianwenChat.t) r c
    (Q : Outcome ChatMessage → Client → Prop) client mongo :
  holds client mongo →
  (∀ t client',
     holds client' mongo →
     QianwenClient.log_manager client' = QianwenClient.log_manager client →
     Q (Ok {| role := r; content := c; timestamp := t;
              user_id := QianwenChat._user_id self;
              session_id := QianwenChat._session_id self; metadata := ∅ |}) client') →
  wp (QianwenChat.new_message self r c) Q client.
Proof.
  intros Hh HQ. unfold QianwenChat.new_message, wp, bind, QianwenClient.read_now.
  destruct (next (QianwenClient.now client)) as [t o]. simpl. by apply HQ.
Qed.

Lemma wp_save (self : QianwenChat.t) (message : ChatMessage)
    (Q : Outcome unit → Client → Prop) client mongo :
  holds client mongo →
  user_id message = QianwenChat._user_id self →
  session_id message = QianwenChat._session_id self →
  metadata message = ∅ →
  (∀ client',
     holds client' (saved self mongo (role message) (stored_content message)) →
     QianwenClient.log_manager client' = QianwenClient.log_manager client →
     Q (Ok tt) client') →
  wp (QianwenClient.on_memory_manager (MemoryManager.save_message message)) Q client.
Proof.
  intros (m & Hm & Hst & Hcache) Hu Hs Hmd HQ.
  unfold wp, QianwenClient.on_memory_manager. rewrite Hm.
  rewrite (save_message_state message m _ Hst Hcache eq_refl). simpl.
  apply HQ; [| done]. eexists. split; [done |]. split; [| done].
  simpl. unfold saved. rewrite Hu, Hs, Hmd.
  by destruct (MongoMemoryStorage.save_message _ _ _ _ _ mongo).
Qed.

Lemma wp_build_messages (self : QianwenChat.t) message
    (Q : Outcome (list PyDict) → Client → Prop) client mongo :
  holds client mongo →
  (∀ messages client',
     holds client' mongo →
     QianwenClient.log_manager client' = QianwenClient.log_manager client →
     Q (Ok messages) client') →
  wp (QianwenChat._build_messages self message) Q client.
Proof.
  intros Hh HQ. unfold QianwenChat._build_messages. apply wp_get, wp_bind.
  destruct Hh as (m & Hm & Hst & Hcache).
  destruct (QianwenChat._memory_enabled self); simpl.
  - rewrite Hm. simpl. apply wp_bind.
    unfold wp at 1, QianwenClient.on_memory_manager. rewrite Hm.
    destruct (ready_dec mongo) as [Hr | Hn].
    + rewrite (get_history_builtin_ready m mongo _ _ _ Hst Hcache Hr). simpl.
      apply wp_ret, wp_ret, HQ; [| done]. by eexists.
    + rewrite (get_history_builtin_not_ready m mongo _ _ _ Hst Hcache Hn). simpl.
      apply wp_ret, wp_ret, HQ; [| done]. by eexists.
  - apply wp_ret, wp_ret, HQ; [| done]. by eexists.
Qed.
#[local] Arguments getitem : simpl never.
#[local] Arguments getitem0 : simpl never.

Lemma ask_wp (self : QianwenChat.t) message kwargs client mongo :
  holds client mongo →
  QianwenChat._memory_enabled self = true →
  wp (QianwenChat.ask self message kwargs)
     (λ r client', ∃ mongo', holds client' mongo' ∧ ask_post self message mongo r mongo')
     client.
Proof.
  intros Hh Hon. unfold QianwenChat.ask.
  apply wp_bind, wp_try_except. eapply wp_build_messages; [done |].
  intros messages client1 Hh1 _.
  apply wp_try_except, wp_bind. eapply wp_log_request; [done |].
  intros rid client2 Hh2. apply wp_get, wp_bind, wp_lift.
  destruct (QianwenClient.create client2 _) as [response_dict | e].
  2: { eapply wp_on_error; [done |]. intros client' Hh'.
       exists mongo. split; [done |]. split; [done | by left]. }
  apply wp_bind. eapply wp_log_response; [done | done |].
  intros client3 Hh3. apply wp_bind.
  destruct Hh2 as (m2 & Hm2 & Hst2 & Hc2). rewrite Hon, Hm2. simpl.
  apply wp_bind. eapply wp_new_message; [done |].
  intros t0 client4 Hh4 _. apply wp_bind. eapply wp_save; [done .. |].
  intros client5 Hh5 _. simpl in Hh5.
  destruct (truthy (LogManager.dict_get response_dict "choices")) eqn:Hch.
  2: { apply wp_ret, wp_ret. exists (saved self mongo "user" message).
       split; [done |]. simpl. by rewrite Hch. }
  apply wp_bind, wp_lift.
  destruct (getitem (PDict response_dict) "choices") as [choices | e] eqn:H1.
  2: { eapply wp_on_error; [done |]. intros client' Hh'.
       eexists. split; [done |]. split; [done | by right]. }
  apply wp_bind, wp_lift. destruct (getitem0 choices) as [choice | e] eqn:H2.
  2: { eapply wp_on_error; [done |]. intros client' Hh'.
       eexists. split; [done |]. split; [done | by right]. }
  apply wp_bind, wp_lift. destruct (getitem choice "message") as [reply | e] eqn:H3.
  2: { eapply wp_on_error; [done |]. intros client' Hh'.
       eexists. split; [done |]. split; [done | by right]. }
  apply wp_bind, wp_lift. destruct (getitem reply "content") as [c | e] eqn:H4.
  2: { eapply wp_on_error; [done |]. intros client' Hh'.
       eexists. split; [done |]. split; [done | by right]. }
  apply wp_bind. eapply wp_new_message; [done |].
  intros t1 client6 Hh6 _. eapply wp_save; [done .. |].
  intros client7 Hh7 _. simpl in Hh7. apply wp_ret.
  eexists. split; [done |]. simpl. rewrite Hch. exists c.
  unfold first_choice_content. rewrite H1, H2, H3, H4. split; [reflexivity |].
  unfold stored_content, text_of. simpl. by destruct c.
Qed.
(** What the storage holds after a call, relative to before, when the
    storage is ready. *)
Lemma saved_ready (self : QianwenChat.t) (mongo : MongoMemoryStorage.t C) r text :
  ready mongo →
  saved self mongo r text
  = inserted mongo (QianwenChat._user_id self) (QianwenChat._session_id self) r text ∅.
Proof. intros Hr. unfold saved. by rewrite (mongo_save_ready mongo _ _ _ _ _ Hr). Qed.

(** C2, amended: an [ask] with memory enabled over the built-in storage,
    ready.  When it returns and the reply has a truthy [choices], two
    documents are appended to the collection, the user's message and then
    the content of the first choice as the assistant's; when [choices] is
    empty or missing, the user's message alone is appended; when the call
    fails, what it raises is a [QianwenAPIError] and the collection has
    gained nothing or the user's message, never an assistant's. *)
Theorem ask_persists_turn (self : QianwenChat.t) (message : string) (kwargs : PyDict)
    (client : Client) (mongo : MongoMemoryStorage.t C) :
  holds client mongo →
  ready mongo →
  QianwenChat._memory_enabled self = true →
  let user := QianwenChat._user_id self in
  let session := QianwenChat._session_id self in
  let user_document := new_document mongo user session "user" message ∅ in
  ∃ mongo' added,
    holds (QianwenChat.ask self message kwargs client).2 mongo'
    ∧ Mongo.documents (MongoMemoryStorage.remote mongo')
      = (Mongo.documents (MongoMemoryStorage.remote mongo) ++ added)%list
    ∧ match (QianwenChat.ask self message kwargs client).1 with
      | Ok response_dict =>
          if truthy (LogManager.dict_get response_dict "choices")
          then ∃ c, first_choice_content response_dict = Ok c
                    ∧ added = [user_document;
                               new_document
                                 (inserted mongo user session "user" message ∅)
                                 user session "assistant" (text_of c) ∅]
          else added = [user_document]
      | Raise e =>
          exn_type e = "QianwenAPIError" ∧ (added = [] ∨ added = [user_document])
      end.
Proof.
  intros Hh Hr Hon user session user_document.
  pose proof (ask_wp self message kwargs client mongo Hh Hon) as H.
  unfold wp in H. destruct H as (mongo' & Hh' & Hpost).
  exists mongo'. unfold ask_post in Hpost.
  destruct (QianwenChat.ask self message kwargs client).1 as [response_dict | e].
  - destruct (truthy (LogManager.dict_get response_dict "choices")).
    + destruct Hpost as (c & Hc & ->). eexists. split; [done |].
      rewrite (saved_ready self mongo) by done.
      rewrite saved_ready by by apply inserted_ready.
      split; [| by exists c]. simpl. by rewrite <- app_assoc.
    + subst mongo'. eexists. split; [done |].
      rewrite saved_ready by done. by split.
  - destruct Hpost as [He [-> | ->]].
    + exists []. split; [done |]. split; [by rewrite app_nil_r | auto].
    + eexists. split; [done |]. rewrite saved_ready by done. split; [done | auto].
Qed.
End session_steps.

Lemma ask_persists_turn_witness :
  let self := chat_of (builtin_client 2) in
  let user_document := new_document (builtin_storage 2) "u" "s" "user" "q" ∅ in
  ∃ mongo' added,
    holds (QianwenChat.ask (json_module := IntegerJson.json) self "q" ∅ (builtin_client 2)).2
      mongo'
    ∧ Mongo.documents (MongoMemoryStorage.remote mongo')
      = (Mongo.documents three_turns ++ added)%list
    ∧ match (QianwenChat.ask (json_module := IntegerJson.json) self "q" ∅
               (builtin_client 2)).1 with
      | Ok response_dict =>
          if truthy (LogManager.dict_get response_dict "choices")
          then ∃ c, first_choice_content response_dict = Ok c
                    ∧ added = [user_document;
                               new_document
                                 (inserted (builtin_storage 2) "u" "s" "user" "q" ∅)
                                 "u" "s" "assistant"
                                 (text_of (json_module := IntegerJson.json) c) ∅]
          else added = [user_document]
      | Raise e =>
          exn_type e = "QianwenAPIError" ∧ (added = [] ∨ added = [user_document])
      end.
Proof.
  apply (ask_persists_turn (json_module := IntegerJson.json)
           (chat_of (builtin_client 2)) "q" ∅ (builtin_client 2) (builtin_storage 2)).
  - exists (builtin_manager 2). repeat split; reflexivity.
  - split; reflexivity.
  - reflexivity.
Defined.

(** C2, as stated, fails: the API answers with an empty [choices] list, the
    call returns that answer, and the turn is persisted as one document,
    the user's message, with no assistant's message after it. *)
Lemma turn_without_choices_saves_user_only :
  let client := client_with 2 (<["choices" := PList []]> ∅)
                  {| chunks := []; failure := None |} in
  let after := QianwenChat.ask (json_module := IntegerJson.json)
                 (chat_of client) "q" ∅ client in
  after.1 = Ok (<["choices" := PList []]> ∅)
  ∧ memory_documents after.2
    = (Mongo.documents three_turns ++ [stored 0 "user" "q"])%list.
Proof. vm_compute. split; reflexivity. Qed.

(** ** Streaming *)

Lemma append_nil_r (s : string) : s ++ "" = s.
Proof.
  induction s as [| a s IH]; [done |].
  change (String a (s ++ "") = String a s). by rewrite IH.
Qed.

Lemma append_assoc (s1 s2 s3 : string) : (s1 ++ s2) ++ s3 = s1 ++ (s2 ++ s3).
Proof.
  induction s1 as [| a s1 IH]; [done |].
  change (String a ((s1 ++ s2) ++ s3) = String a (s1 ++ (s2 ++ s3))). by rewrite IH.
Qed.

Lemma accumulate_fragment (full_content : string) (chunk : Chunk) :
  QianwenChat.accumulate full_content chunk = full_content ++ fragment chunk.
Proof.
  unfold QianwenChat.accumulate, fragment.
  destruct (chunk_choices chunk) as [| c ?]; [by rewrite append_nil_r |].
  destruct (delta_content c) as [s |]; simpl; [| by rewrite append_nil_r].
  destruct (String.eqb_spec s ""); simpl; [| done]. subst. by rewrite append_nil_r.
Qed.

Lemma fold_accumulate (yielded : list Chunk) (full_content : string) :
  fold_left QianwenChat.accumulate yielded full_content
  = full_content ++ concat_fragments yielded.
Proof.
  revert full_content. induction yielded as [| chunk yielded IH]; intros acc; simpl.
  - by rewrite append_nil_r.
  - by rewrite IH, accumulate_fragment, append_assoc.
Qed.

Section streaming.
Context {C D : Type} `{!MemoryStorage C} `{!LogStorage D} {json_module : Json}.

Lemma on_error_raises {A} (self : QianwenChat.t) prefix request_params e
    (client : QianwenClient.t C D) mongo (a : A) :
  holds client mongo →
  (QianwenChat.on_error (A := A) self prefix request_params e client).1 ≠ Ok a.
Proof.
  intros Hh.
  pose proof (wp_on_error (A := A) self prefix request_params e
                (λ r _, r ≠ Ok a) client mongo Hh) as H.
  apply H. by intros.
Qed.

(** What [stream] does once the iteration has ended. *)
Lemma finish_wp (self : QianwenChat.t) message full_content rid
    (client : QianwenClient.t C D) mongo :
  holds client mongo →
  QianwenChat._memory_enabled self = true →
  wp (QianwenChat.finish self message full_content rid)
     (λ r client',
        r = Ok tt
        ∧ holds client'
            (if String.eqb full_content "" then mongo
             else saved self (saved self mongo "user" message)
                    "assistant" full_content))
     client.
Proof.
  intros Hh Hon. unfold QianwenChat.finish. apply wp_get, wp_bind.
  destruct Hh as (m & Hm & Hst & Hcache). rewrite Hon, Hm. simpl.
  assert (holds client mongo) as Hh by by exists m.
  destruct (String.eqb full_content ""); simpl.
  - apply wp_ret. eapply wp_log_response; [done | done |]. by intros.
  - apply wp_bind. eapply wp_new_message; [done |].
    intros t0 client1 Hh1 Hl1. apply wp_bind. eapply wp_save; [done .. |].
    intros client2 Hh2 Hl2. apply wp_bind. eapply wp_new_message; [done |].
    intros t1 client3 Hh3 Hl3. eapply wp_save; [done .. |].
    intros client4 Hh4 Hl4. simpl in *.
    eapply wp_log_response; [done | congruence |]. by intros.
Qed.

(** C8: a [stream] call with memory enabled over the built-in storage,
    ready, that runs to its end.  The content persisted for the assistant
    is the concatenation, in order, of the fragments of the chunks yielded
    to the caller: the collection gains the user's message and then an
    assistant's message with exactly that content.  (When the
    concatenation is empty the call persists nothing.) *)
Theorem stream_persists_concatenation (self : QianwenChat.t) (message : string)
    (kwargs : PyDict) (client : QianwenClient.t C D) (mongo : MongoMemoryStorage.t C) :
  holds client mongo →
  ready mongo →
  QianwenChat._memory_enabled self = true →
  (QianwenChat.stream self message kwargs client).2.1 = Ok tt →
  let yielded := (QianwenChat.stream self message kwargs client).1 in
  let user := QianwenChat._user_id self in
  let session := QianwenChat._session_id self in
  ∃ mongo',
    holds (QianwenChat.stream self message kwargs client).2.2 mongo'
    ∧ Mongo.documents (MongoMemoryStorage.remote mongo')
      = (Mongo.documents (MongoMemoryStorage.remote mongo)
         ++ if String.eqb (concat_fragments yielded) "" then []
            else [new_document mongo user session "user" message ∅;
                  new_document (inserted mongo user session "user" message ∅)
                    user session "assistant" (concat_fragments yielded) ∅])%list.
Proof.
  intros Hh Hr Hon. unfold QianwenChat.stream.
  pose proof (wp_try_except _ (QianwenChat.on_error self "流式API调用失败: " ∅)
                (λ r client', ∃ messages, r = Ok messages ∧ holds client' mongo) client
                (wp_build_messages self message _ client mongo Hh
                   (λ messages client' H _, ex_intro _ messages (conj eq_refl H))))
    as Hbuild.
  unfold wp in Hbuild.
  destruct (try_except _ _ client) as [r1 client1]. simpl in Hbuild.
  destruct Hbuild as (messages & -> & Hh1).
  set (request_params := if QianwenChat._search_enabled self then _ else _).
  pose proof (wp_log_request self request_params
                (λ r client', ∃ rid, r = Ok rid ∧ holds client' mongo) client1 mongo Hh1
                (λ rid client' H, ex_intro _ rid (conj eq_refl H))) as Hlog.
  unfold wp in Hlog.
  destruct (QianwenChat.log_request self request_params client1) as [r2 client2].
  simpl in Hlog. destruct Hlog as (rid & -> & Hh2).
  destruct (QianwenChat.connect client2 request_params) as [params [source | e]].
  2: { simpl. intros Hok. by apply on_error_raises with (mongo := mongo) in Hok. }
  destruct (failure source) as [e |].
  { simpl. intros Hok. by apply on_error_raises with (mongo := mongo) in Hok. }
  assert (wp (try_except
                (QianwenChat.finish self message
                   (fold_left QianwenChat.accumulate (chunks source) "") rid)
                (QianwenChat.on_error self "流式API调用失败: " params))
             (λ r client',
                r = Ok tt →
                holds client'
                  (if String.eqb (fold_left QianwenChat.accumulate (chunks source) "") ""
                   then mongo
                   else saved self (saved self mongo "user" message) "assistant"
                          (fold_left QianwenChat.accumulate (chunks source) "")))
             client2) as Hfinish.
  { apply wp_try_except. eapply wp_mono; [by apply finish_wp |].
    by intros r client' [-> Hh']. }
  unfold wp in Hfinish. simpl.
  destruct (try_except _ _ client2) as [r3 client3]. simpl in *.
  intros ->. specialize (Hfinish eq_refl). rename Hfinish into Hh3.
  rewrite fold_accumulate in Hh3.
  change ("" ++ concat_fragments (chunks source))
    with (concat_fragments (chunks source)) in Hh3.
  eexists. split; [exact Hh3 |].
  destruct (String.eqb (concat_fragments (chunks source)) "").
  - by rewrite app_nil_r.
  - rewrite (saved_ready self mongo) by done.
    rewrite saved_ready by by apply inserted_ready.
    simpl. by rewrite <- app_assoc.
Qed.
End streaming.

Lemma stream_persists_concatenation_witness :
  let run := QianwenChat.stream (json_module := IntegerJson.json)
               (chat_of streaming_client) "q" ∅ streaming_client in
  run.1 = [chunk_of "Hel"; chunk_of "lo, "; chunk_of "world!"]
  ∧ run.2.1 = Ok tt
  ∧ concat_fragments run.1 = "Hello, world!"
  ∧ ∃ mongo',
      holds run.2.2 mongo'
      ∧ Mongo.documents (MongoMemoryStorage.remote mongo')
        = (Mongo.documents three_turns
           ++ [stored 0 "user" "q"; stored 1 "assistant" "Hello, world!"])%list.
Proof.
  intros run. split; [reflexivity |]. split; [reflexivity |]. split; [reflexivity |].
  destruct (stream_persists_concatenation (json_module := IntegerJson.json)
              (chat_of streaming_client) "q" ∅ streaming_client (builtin_storage 2))
    as (mongo' & Hh & Hdocs).
  - exists (builtin_manager 2). repeat split; reflexivity.
  - split; reflexivity.
  - reflexivity.
  - reflexivity.
  - exists mongo'. split; [exact Hh |]. rewrite Hdocs. reflexivity.
Defined.

Lemma log_switches_checked_by_builtin_storage_witness :
  (∃ m0, LogManager.__init__ empty_server clock0 uuids0 switched_off_config = Ok m0
         ∧ LogManager.initialize m0 = (Ok true, switched_off_manager))
  ∧ (∃ id l', LogManager.log_request "u" "s" ∅ None switched_off_manager = (Ok id, l')
              ∧ LogManager.storage l' = LogManager.storage switched_off_manager)
  ∧ LogManager.log_response "u" "s" ∅ None switched_off_manager
    = (Ok tt, switched_off_manager)
  ∧ LogManager.log_error "u" "s" ∅ switched_off_manager = (Ok tt, switched_off_manager).
Proof.
  split; [eexists; split; reflexivity |].
  destruct (log_switches_checked_by_builtin_storage switched_off_manager "u" "s" ∅ None)
    as [Hbuiltin _].
  destruct (Hbuiltin switched_off_storage eq_refl) as (Hreq & Hresp & Herr).
  split; [exact (Hreq eq_refl) |]. split; [exact (Hresp eq_refl) | exact (Herr eq_refl)].
Defined.

(** * Further properties

    ** Steps of the session methods, whatever the storages *)

Section stable_steps.
Context {C D : Type} `{!MemoryStorage C} `{!LogStorage D} {json_module : Json}.

Abbreviation Client := (QianwenClient.t C D).

Lemma evolves_refl (client : Client) : evolves client client.
Proof. by repeat split. Qed.

Lemma evolves_log_stable (client0 : Client) : log_stable (evolves client0).
Proof.
  intros l client Hl (H1 & H2 & H3 & H4 & H5). unfold evolves. simpl.
  split_and!; try done. split; [intros _; by apply H5 | by eexists].
Qed.

Lemma evolves_memory_stable (client0 : Client) : memory_stable (evolves client0).
Proof.
  intros m client Hm (H1 & H2 & H3 & H4 & H5). unfold evolves. simpl.
  split_and!; try done. split; [intros _; by apply H4 | by eexists].
Qed.

Lemma evolves_clock_stable (client0 : Client) : clock_stable (evolves client0).
Proof.
  intros client H. unfold QianwenClient.read_now.
  by destruct (next (QianwenClient.now client)).
Qed.

Lemma memory_untouched_log_stable (client0 : Client) :
  log_stable (memory_untouched client0).
Proof. by intros l client _ [H1 H2]. Qed.

Lemma wp_on_log_manager_stable {A} (c : M (LogManager.t D) A) (P : Client → Prop)
    (Q : Outcome A → Client → Prop) client :
  log_stable P → P client →
  is_Some (QianwenClient.log_manager client) →
  (∀ l, returns c l) →
  (∀ r client', P client' → Q (Ok r) client') →
  wp (QianwenClient.on_log_manager c) Q client.
Proof.
  intros HP Hc [l Hl] Hret HQ. destruct (Hret l) as (r & l' & Hrun).
  unfold wp, QianwenClient.on_log_manager. rewrite Hl, Hrun.
  apply HQ, HP; [by eexists | done].
Qed.

Lemma wp_on_memory_manager_stable {A} (c : M (MemoryManager.t C) A) (P : Client → Prop)
    (Q : Outcome A → Client → Prop) client :
  memory_stable P → P client →
  is_Some (QianwenClient.memory_manager client) →
  (∀ m, returns c m) →
  (∀ r client', P client' → Q (Ok r) client') →
  wp (QianwenClient.on_memory_manager c) Q client.
Proof.
  intros HP Hc [m Hm] Hret HQ. destruct (Hret m) as (r & m' & Hrun).
  unfold wp, QianwenClient.on_memory_manager. rewrite Hm, Hrun.
  apply HQ, HP; [by eexists | done].
Qed.

Lemma wp_log_request_stable (self : QianwenChat.t) request_params (P : Client → Prop)
    (Q : Outcome (option string) → Client → Prop) client :
  log_stable P → P client →
  (∀ rid client', P client' → Q (Ok rid) client') →
  wp (QianwenChat.log_request self request_params) Q client.
Proof.
  intros HP Hc HQ. unfold QianwenChat.log_request. apply wp_get.
  case_bool_decide as Hl.
  - apply wp_bind.
    apply (wp_on_log_manager_stable _ P _ client HP Hc Hl
             (λ l, log_request_returns _ _ _ _ l)).
    intros r client' H'. by apply wp_ret, HQ.
  - by apply wp_ret, HQ.
Qed.

Lemma wp_log_response_stable (self : QianwenChat.t) data rid (P : Client → Prop)
    (Q : Outcome unit → Client → Prop) (captured client : Client) :
  log_stable P → P client →
  (is_Some (QianwenClient.log_manager client)
   ↔ is_Some (QianwenClient.log_manager captured)) →
  (∀ client', P client' → Q (Ok tt) client') →
  wp (if bool_decide (is_Some (QianwenClient.log_manager captured))
      then QianwenClient.on_log_manager
             (LogManager.log_response (QianwenChat._user_id self)
                (QianwenChat._session_id self) data rid)
      else ret tt) Q client.
Proof.
  intros HP Hc Hsame HQ. case_bool_decide as Hl.
  - apply (wp_on_log_manager_stable _ P _ client HP Hc (proj2 Hsame Hl)
             (λ l, log_response_returns _ _ _ _ l)).
    intros [] client' H'. by apply HQ.
  - by apply wp_ret, HQ.
Qed.

Lemma wp_on_error_stable {A} (self : QianwenChat.t) prefix request_params e
    (P : Client → Prop) (Q : Outcome A → Client → Prop) client :
  log_stable P → P client →
  (∀ client', P client' →
     Q (Raise (QianwenChat.QianwenAPIError (prefix ++ exn_message e))) client') →
  wp (QianwenChat.on_error self prefix request_params e) Q client.
Proof.
  intros HP Hc HQ. unfold QianwenChat.on_error. apply wp_get, wp_bind.
  case_bool_decide as Hl.
  - apply (wp_on_log_manager_stable _ P _ client HP Hc Hl
             (λ l, log_error_returns _ _ _ l)).
    intros [] client' H'. by apply wp_raise, HQ.
  - apply wp_ret, wp_raise. by apply HQ.
Qed.

Lemma wp_new_message_stable (self : QianwenChat.t) r c (P : Client → Prop)
    (Q : Outcome ChatMessage → Client → Prop) client :
  clock_stable P → P client →
  (∀ message client', P client' → Q (Ok message) client') →
  wp (QianwenChat.new_message self r c) Q client.
Proof.
  intros HP Hc HQ. specialize (HP client Hc). revert HP.
  unfold QianwenChat.new_message, wp, bind, QianwenClient.read_now.
  destruct (next (QianwenClient.now client)) as [t o]. simpl. apply HQ.
Qed.

Lemma wp_save_stable (message : ChatMessage) (P : Client → Prop)
    (Q : Outcome unit → Client → Prop) client :
  memory_stable P → P client →
  is_Some (QianwenClient.memory_manager client) →
  (∀ client', P client' → Q (Ok tt) client') →
  wp (QianwenClient.on_memory_manager (MemoryManager.save_message message)) Q client.
Proof.
  intros HP Hc Hm HQ.
  apply (wp_on_memory_manager_stable _ P _ client HP Hc Hm
           (λ m, save_message_returns message m)).
  intros [] client' H'. by apply HQ.
Qed.

Lemma wp_build_messages_stable (self : QianwenChat.t) message (P : Client → Prop)
    (Q : Outcome (list PyDict) → Client → Prop) client :
  memory_stable P → P client →
  (∀ history client',
     P client' →
     Q (Ok (opening self ++ history
            ++ [QianwenChat.message_dict "user" (PStr message)])%list) client') →
  wp (QianwenChat._build_messages self message) Q client.
Proof.
  intros HP Hc HQ. unfold QianwenChat._build_messages. apply wp_get, wp_bind.
  fold (opening self).
  destruct (QianwenChat._memory_enabled self); simpl.
  - case_bool_decide as Hm.
    + apply wp_bind.
      apply (wp_on_memory_manager_stable _ P _ client HP Hc Hm
               (λ m, get_history_returns _ _ _ m)).
      intros history client' H'. apply wp_ret, wp_ret.
      rewrite <- app_assoc. by apply HQ.
    + apply wp_ret, wp_ret. by apply (HQ []).
  - apply wp_ret, wp_ret. by apply (HQ []).
Qed.

(** Whatever runs under the [try] of a chat method, what leaves the
    method is a normal return or a [QianwenAPIError]. *)
Lemma try_on_error {A} (self : QianwenChat.t) prefix request_params
    (c : M Client A) (client : Client) :
  api_error_or_ok prefix
    (try_except c (QianwenChat.on_error self prefix request_params) client).1.
Proof.
  pose proof (wp_try_except c (QianwenChat.on_error self prefix request_params)
                (λ r _, api_error_or_ok prefix r) client) as H.
  apply H. unfold wp at 1. destruct (c client) as [[a | e] client']; simpl; [done |].
  apply (wp_on_error_stable _ _ _ _ (λ _, True)); try done.
  intros. by eexists.
Qed.
End stable_steps.

(** ** What a chat call returns and raises *)

#[local] Arguments getitem : simpl never.
#[local] Arguments getitem0 : simpl never.

Section chat_outcomes.
Context {C D : Type} `{!MemoryStorage C} `{!LogStorage D} {json_module : Json}.

Lemma on_error_api {A} (self : QianwenChat.t) prefix request_params e
    (client : QianwenClient.t C D) :
  api_error_or_ok prefix
    (QianwenChat.on_error (A := A) self prefix request_params e client).1.
Proof.
  apply (wp_on_error_stable (A := A) self prefix request_params e (λ _, True)
           (λ r _, api_error_or_ok prefix r) client); try done.
  intros. by eexists.
Qed.

Lemma log_request_ok (self : QianwenChat.t) request_params (P : QianwenClient.t C D → Prop)
    client :
  log_stable P → P client →
  ∃ rid client',
    QianwenChat.log_request self request_params client = (Ok rid, client') ∧ P client'.
Proof.
  intros HP Hc.
  assert (wp (QianwenChat.log_request self request_params)
            (λ r client', ∃ rid, r = Ok rid ∧ P client') client) as H.
  { apply (wp_log_request_stable self request_params P _ client HP Hc). by eauto. }
  unfold wp in H.
  destruct (QianwenChat.log_request self request_params client) as [r client'].
  simpl in H. destruct H as (rid & -> & H'). by eauto.
Qed.

(** X2: an [ask] whose remote call answers [reply] returns [reply],
    whatever the memory storage and the log storage do (fail, return
    nonsense): a reply without choices, or with a first choice that has a
    message with a content, is all it takes. *)
Theorem ask_survives_storage_failures (self : QianwenChat.t) (message : string)
    (kwargs : PyDict) (client : QianwenClient.t C D) (reply : PyDict) :
  (∀ request_params, QianwenClient.create client request_params = Ok reply) →
  (truthy (LogManager.dict_get reply "choices") = true →
   ∃ c, first_choice_content reply = Ok c) →
  (QianwenChat.ask self message kwargs client).1 = Ok reply.
Proof.
  intros Hapi Hwf.
  change (wp (QianwenChat.ask self message kwargs) (λ r _, r = Ok reply) client).
  pose proof (evolves_log_stable client) as Hlog.
  pose proof (evolves_memory_stable client) as Hmem.
  pose proof (evolves_clock_stable client) as Hclock.
  unfold QianwenChat.ask. apply wp_bind, wp_try_except.
  apply (wp_build_messages_stable _ _ _ _ _ Hmem (evolves_refl client)).
  intros history client1 H1. apply wp_try_except, wp_bind.
  apply (wp_log_request_stable _ _ _ _ _ Hlog H1).
  intros rid client2 H2. apply wp_get, wp_bind, wp_lift.
  rewrite (proj1 H2), Hapi.
  apply wp_bind. apply (wp_log_response_stable _ _ _ _ _ _ _ Hlog H2); [done |].
  intros client3 H3. apply wp_bind.
  destruct (QianwenChat._memory_enabled self
            && bool_decide (is_Some (QianwenClient.memory_manager client2))) eqn:Hon;
    [| by apply wp_ret, wp_ret].
  apply andb_true_iff in Hon as [_ Hm2]. apply bool_decide_eq_true in Hm2.
  assert (is_Some (QianwenClient.memory_manager client)) as Hm
    by by apply H2.
  apply wp_bind. apply (wp_new_message_stable _ _ _ _ _ _ Hclock H3).
  intros user_message client4 H4. apply wp_bind.
  apply (wp_save_stable _ _ _ _ Hmem H4); [by apply H4 |].
  intros client5 H5.
  destruct (truthy (LogManager.dict_get reply "choices")) eqn:Hch;
    [| by apply wp_ret, wp_ret].
  destruct (Hwf eq_refl) as [c Hc]. unfold first_choice_content in Hc.
  apply wp_bind, wp_lift.
  destruct (getitem (PDict reply) "choices") as [choices |]; [| done].
  apply wp_bind, wp_lift. destruct (getitem0 choices) as [choice |]; [| done].
  apply wp_bind, wp_lift. destruct (getitem choice "message") as [answer |]; [| done].
  apply wp_bind, wp_lift. rewrite Hc.
  apply wp_bind. apply (wp_new_message_stable _ _ _ _ _ _ Hclock H5).
  intros assistant_message client6 H6.
  apply (wp_save_stable _ _ _ _ Hmem H6); [by apply H6 |].
  intros client7 H7. by apply wp_ret.
Qed.

(** X3: with memory switched off for the session, or no memory manager on
    the client, [ask] sends the system message (when it is not empty) and
    the new message and nothing else, answers what the remote API answers
    to that request (a failure as a [QianwenAPIError]), and leaves the
    memory manager as it was. *)
Theorem ask_without_memory (self : QianwenChat.t) (message : string)
    (kwargs : PyDict) (client : QianwenClient.t C D) :
  QianwenChat._memory_enabled self
  && bool_decide (is_Some (QianwenClient.memory_manager client)) = false →
  let request :=
    request_of self kwargs
      (opening self ++ [QianwenChat.message_dict "user" (PStr message)]) in
  (QianwenChat.ask self message kwargs client).1
  = match QianwenClient.create client request with
    | Ok response_dict => Ok response_dict
    | Raise e => Raise (QianwenChat.QianwenAPIError ("API调用失败: " ++ exn_message e))
    end
  ∧ QianwenClient.memory_manager (QianwenChat.ask self message kwargs client).2
    = QianwenClient.memory_manager client.
Proof.
  intros Hoff request.
  change (wp (QianwenChat.ask self message kwargs)
            (λ r client',
               r = match QianwenClient.create client request with
                   | Ok response_dict => Ok response_dict
                   | Raise e =>
                       Raise (QianwenChat.QianwenAPIError
                                ("API调用失败: " ++ exn_message e))
                   end
               ∧ QianwenClient.memory_manager client'
                 = QianwenClient.memory_manager client) client).
  pose proof (memory_untouched_log_stable client) as Hlog.
  assert (memory_untouched client client) as H0 by done.
  unfold QianwenChat.ask. apply wp_bind, wp_try_except.
  unfold QianwenChat._build_messages. apply wp_get, wp_bind.
  rewrite Hoff. apply wp_ret, wp_ret. fold (opening self).
  apply wp_try_except, wp_bind.
  apply (wp_log_request_stable _ _ _ _ _ Hlog H0).
  intros rid client2 H2. apply wp_get, wp_bind, wp_lift.
  rewrite (proj2 H2). fold (request_of self kwargs
    (opening self ++ [QianwenChat.message_dict "user" (PStr message)])).
  fold request. destruct (QianwenClient.create client request) as [response_dict | e].
  - apply wp_bind. apply (wp_log_response_stable _ _ _ _ _ _ _ Hlog H2); [done |].
    intros client3 H3. rewrite (proj1 H2), Hoff.
    apply wp_bind, wp_ret, wp_ret. split; [done | apply H3].
  - apply (wp_on_error_stable _ _ _ _ _ _ _ Hlog H2).
    intros client3 H3. split; [done | apply H3].
Qed.

(** [finish] cannot fail. *)
Lemma finish_returns (self : QianwenChat.t) message full_content rid
    (client0 client : QianwenClient.t C D) :
  evolves client0 client →
  wp (QianwenChat.finish self message full_content rid) (λ r _, r = Ok tt) client.
Proof.
  intros H0.
  pose proof (evolves_log_stable client0) as Hlog.
  pose proof (evolves_memory_stable client0) as Hmem.
  pose proof (evolves_clock_stable client0) as Hclock.
  destruct H0 as (Ha & Hb & Hc & Hm & Hl).
  assert (evolves client0 client) as H0 by done.
  unfold QianwenChat.finish. apply wp_get, wp_bind.
  destruct (QianwenChat._memory_enabled self
            && bool_decide (is_Some (QianwenClient.memory_manager client))
            && negb (String.eqb full_content "")) eqn:Hon.
  - apply andb_true_iff in Hon as [Hon _].
    apply andb_true_iff in Hon as [_ Hm1]. apply bool_decide_eq_true in Hm1.
    apply wp_bind. apply (wp_new_message_stable _ _ _ _ _ _ Hclock H0).
    intros user_message client1 H1. apply wp_bind.
    apply (wp_save_stable _ _ _ _ Hmem H1); [apply H1; by apply Hm |].
    intros client2 H2. apply wp_bind.
    apply (wp_new_message_stable _ _ _ _ _ _ Hclock H2).
    intros assistant_message client3 H3.
    apply (wp_save_stable _ _ _ _ Hmem H3); [apply H3; by apply Hm |].
    intros client4 H4.
    apply (wp_log_response_stable _ _ _ _ _ _ _ Hlog H4); [| done].
    destruct H4 as (_ & _ & _ & _ & Hl4). by rewrite Hl4, Hl.
  - apply wp_ret. by apply (wp_log_response_stable _ _ _ _ _ _ _ Hlog H0).
Qed.

(** X1: whatever the storages do, [ask] and [stream] end as the remote
    API decides, and raise nothing but [QianwenAPIError].  [ask] returns
    the reply of the API to its request; when the API raises, and when
    the turn is to be saved and the first choice of a truthy [choices]
    cannot be subscripted down to its content, the exception caught
    surfaces as a [QianwenAPIError] whose text is ["API调用失败: "]
    followed by the text of that exception.  [stream] ends normally
    unless opening the stream or iterating it raises, and then the
    [QianwenAPIError] carries ["流式API调用失败: "] followed by the text of
    that exception.  The request is the one built from the kwargs, the
    system message, some history and the new message. *)
Theorem chat_raises_only_api_error (self : QianwenChat.t) (message : string)
    (kwargs : PyDict) (client : QianwenClient.t C D) :
  let saves :=
    QianwenChat._memory_enabled self
    && bool_decide (is_Some (QianwenClient.memory_manager client)) in
  (∃ history,
     (QianwenChat.ask self message kwargs client).1
     = ask_outcome saves
         (QianwenClient.create client
            (request_of self kwargs
               (opening self ++ history
                ++ [QianwenChat.message_dict "user" (PStr message)]))))
  ∧ (∃ history,
       (QianwenChat.stream self message kwargs client).2.1
       = stream_outcome
           (QianwenChat.connect client
              (stream_request_of self kwargs
                 (opening self ++ history
                  ++ [QianwenChat.message_dict "user" (PStr message)]))).2).
Proof.
  intros saves.
  pose proof (evolves_log_stable client) as Hlog.
  pose proof (evolves_memory_stable client) as Hmem.
  pose proof (evolves_clock_stable client) as Hclock.
  split.
  - change (wp (QianwenChat.ask self message kwargs)
              (λ r _, ∃ history,
                 r = ask_outcome saves
                       (QianwenClient.create client
                          (request_of self kwargs
                             (opening self ++ history
                              ++ [QianwenChat.message_dict "user" (PStr message)]))))
              client).
    unfold QianwenChat.ask. apply wp_bind, wp_try_except.
    apply (wp_build_messages_stable _ _ _ _ _ Hmem (evolves_refl client)).
    intros history client1 H1. apply wp_try_except, wp_bind.
    apply (wp_log_request_stable _ _ _ _ _ Hlog H1).
    intros rid client2 H2. apply wp_get, wp_bind, wp_lift.
    rewrite (proj1 H2).
    fold (request_of self kwargs
            (opening self ++ history
             ++ [QianwenChat.message_dict "user" (PStr message)])).
    set (request := request_of self kwargs _).
    assert (QianwenChat._memory_enabled self
            && bool_decide (is_Some (QianwenClient.memory_manager client2)) = saves)
      as Hsaves.
    { subst saves. f_equal. apply bool_decide_ext, H2. }
    destruct (QianwenClient.create client request) as [reply | e] eqn:Hcreate.
    2: { apply (wp_on_error_stable _ _ _ _ _ _ _ Hlog H2).
         intros client3 H3. exists history. fold request. by rewrite Hcreate. }
    apply wp_bind. apply (wp_log_response_stable _ _ _ _ _ _ _ Hlog H2); [done |].
    intros client3 H3. apply wp_bind. rewrite Hsaves.
    assert (saves = true → is_Some (QianwenClient.memory_manager client)) as Hm.
    { subst saves. intros [_ Hm]%andb_true_iff. by apply bool_decide_eq_true in Hm. }
    clearbody saves. destruct saves.
    2: { apply wp_ret, wp_ret. exists history. fold request. by rewrite Hcreate. }
    specialize (Hm eq_refl).
    apply wp_bind. apply (wp_new_message_stable _ _ _ _ _ _ Hclock H3).
    intros user_message client4 H4. apply wp_bind.
    apply (wp_save_stable _ _ _ _ Hmem H4); [by apply H4 |].
    intros client5 H5.
    destruct (truthy (LogManager.dict_get reply "choices")) eqn:Hch.
    2: { apply wp_ret, wp_ret. exists history. fold request.
         rewrite Hcreate. simpl. by rewrite Hch. }
    assert (∀ r, r = match first_choice_content reply with
                     | Ok _ => Ok reply
                     | Raise e => Raise (api_error "API调用失败: " e)
                     end →
                 ∃ history0,
                   r = ask_outcome true
                         (QianwenClient.create client
                            (request_of self kwargs
                               (opening self ++ history0
                                ++ [QianwenChat.message_dict "user" (PStr message)]))))
      as Hend.
    { intros r ->. exists history. fold request. rewrite Hcreate. simpl.
      by rewrite Hch. }
    unfold first_choice_content in Hend.
    apply wp_bind, wp_lift.
    destruct (getitem (PDict reply) "choices") as [choices | e].
    2: { apply (wp_on_error_stable _ _ _ _ _ _ _ Hlog H5). intros. by apply Hend. }
    apply wp_bind, wp_lift. destruct (getitem0 choices) as [choice | e].
    2: { apply (wp_on_error_stable _ _ _ _ _ _ _ Hlog H5). intros. by apply Hend. }
    apply wp_bind, wp_lift. destruct (getitem choice "message") as [answer | e].
    2: { apply (wp_on_error_stable _ _ _ _ _ _ _ Hlog H5). intros. by apply Hend. }
    apply wp_bind, wp_lift. destruct (getitem answer "content") as [c | e].
    2: { apply (wp_on_error_stable _ _ _ _ _ _ _ Hlog H5). intros. by apply Hend. }
    apply wp_bind. apply (wp_new_message_stable _ _ _ _ _ _ Hclock H5).
    intros assistant_message client6 H6.
    apply (wp_save_stable _ _ _ _ Hmem H6); [by apply H6 |].
    intros client7 H7. apply wp_ret. by apply Hend.
  - unfold QianwenChat.stream.
    pose proof (wp_try_except _ (QianwenChat.on_error self "流式API调用失败: " ∅)
                  (λ r client',
                     (∃ history,
                        r = Ok (opening self ++ history
                                ++ [QianwenChat.message_dict "user" (PStr message)])%list)
                     ∧ evolves client client')
                  client
                  (wp_build_messages_stable self message _ _ client Hmem
                     (evolves_refl client)
                     (λ history client' H, conj (ex_intro _ history eq_refl) H)))
      as Hbuild.
    unfold wp in Hbuild.
    destruct (try_except _ _ client) as [r1 client1]. simpl in Hbuild.
    destruct Hbuild as [[history ->] H1]. exists history.
    fold (stream_request_of self kwargs
            (opening self ++ history
             ++ [QianwenChat.message_dict "user" (PStr message)])).
    set (request := stream_request_of self kwargs _).
    destruct (log_request_ok self request _ client1 Hlog H1)
      as (rid & client2 & -> & H2).
    assert (QianwenChat.connect client2 request = QianwenChat.connect client request)
      as ->.
    { unfold QianwenChat.connect. by rewrite (proj1 (proj2 H2)). }
    destruct (QianwenChat.connect client request) as [params [source | e]]; simpl.
    2: { apply (wp_on_error_stable (A := unit) self _ params e _
                  (λ r _, r = Raise (api_error "流式API调用失败: " e)) client2 Hlog H2).
         by intros. }
    destruct (failure source) as [e |].
    { apply (wp_on_error_stable (A := unit) self _ params e _
               (λ r _, r = Raise (api_error "流式API调用失败: " e)) client2 Hlog H2).
      by intros. }
    match goal with
    | |- (try_except ?c ?h client2).1 = Ok tt =>
        change (wp (try_except c h) (λ r _, r = Ok tt) client2)
    end.
    apply wp_try_except.
    eapply wp_mono; [by apply (finish_returns _ _ _ _ client) |].
    by intros r client' ->.
Qed.

(** X4: when the remote API opens a stream and the stream ends without
    failure, [stream] yields every chunk of it, in order, and ends
    normally, whatever the memory storage and the log storage do. *)
Theorem stream_survives_storage_failures (self : QianwenChat.t) (message : string)
    (kwargs : PyDict) (client : QianwenClient.t C D) (source : ChunkStream) :
  (∀ request_params, QianwenClient.create_stream client request_params = Ok source) →
  failure source = None →
  (QianwenChat.stream self message kwargs client).1 = chunks source
  ∧ (QianwenChat.stream self message kwargs client).2.1 = Ok tt.
Proof.
  intros Hapi Hnone.
  pose proof (evolves_log_stable client) as Hlog.
  pose proof (evolves_memory_stable client) as Hmem.
  unfold QianwenChat.stream.
  pose proof (wp_try_except _ (QianwenChat.on_error self "流式API调用失败: " ∅)
                (λ r client', (∃ messages, r = Ok messages) ∧ evolves client client')
                client
                (wp_build_messages_stable self message _ _ client Hmem
                   (evolves_refl client)
                   (λ history client' H, conj (ex_intro _ _ eq_refl) H))) as Hbuild.
  unfold wp in Hbuild.
  destruct (try_except _ _ client) as [r1 client1]. simpl in Hbuild.
  destruct Hbuild as [[messages ->] H1].
  set (request_params := if QianwenChat._search_enabled self then _ else _).
  destruct (log_request_ok self request_params _ client1 Hlog H1)
    as (rid & client2 & -> & H2).
  unfold QianwenChat.connect. rewrite (proj1 (proj2 H2)), Hapi, Hnone. simpl.
  split; [done |].
  match goal with
  | |- (try_except ?c ?h client2).1 = Ok tt => change (wp (try_except c h) (λ r _, r = Ok tt) client2)
  end.
  apply wp_try_except.
  eapply wp_mono; [by apply (finish_returns _ _ _ _ client) |].
  by intros r client' ->.
Qed.
End chat_outcomes.

Section failed_stream.
Context {C D : Type} `{!MemoryStorage C} `{!LogStorage D} {json_module : Json}.

(** X5: over the built-in storage, a [stream] that ends with an error
    leaves the storage exactly as it was: nothing of a failed stream is
    persisted, neither the user's message nor the part of the answer
    already received. *)
Theorem failed_stream_persists_nothing (self : QianwenChat.t) (message : string)
    (kwargs : PyDict) (client : QianwenClient.t C D) (mongo : MongoMemoryStorage.t C) :
  holds client mongo →
  match (QianwenChat.stream self message kwargs client).2.1 with
  | Ok _ => True
  | Raise _ => holds (QianwenChat.stream self message kwargs client).2.2 mongo
  end.
Proof.
  intros Hh. unfold QianwenChat.stream.
  assert (wp (try_except (QianwenChat._build_messages self message)
                (QianwenChat.on_error self "流式API调用失败: " ∅))
            (λ _ client', holds client' mongo) client) as Hbuild.
  { apply wp_try_except. eapply wp_build_messages; [done |]. by intros. }
  unfold wp in Hbuild.
  destruct (try_except _ _ client) as [[messages | e] client1]; simpl in Hbuild;
    [| done].
  set (request_params := if QianwenChat._search_enabled self then _ else _).
  assert (wp (QianwenChat.log_request self request_params)
            (λ r client', (∃ rid, r = Ok rid) ∧ holds client' mongo) client1) as Hlog.
  { eapply wp_log_request; [done |]. by eauto. }
  unfold wp in Hlog.
  destruct (QianwenChat.log_request self request_params client1) as [r2 client2].
  simpl in Hlog. destruct Hlog as [[rid ->] Hh2].
  assert (∀ params e,
            holds (QianwenChat.on_error (A := unit) self "流式API调用失败: "
                     params e client2).2 mongo) as Herr.
  { intros params e.
    apply (wp_on_error (A := unit) self _ params e (λ _ client', holds client' mongo)
             client2 mongo Hh2). by intros. }
  destruct (QianwenChat.connect client2 request_params) as [params [source | e]]; simpl.
  - destruct (failure source) as [e |].
    + destruct (QianwenChat.on_error _ _ _ _ _).1 eqn:Hr; [done | apply Herr].
    + assert (wp (try_except
                    (QianwenChat.finish self message
                       (fold_left QianwenChat.accumulate (chunks source) "") rid)
                    (QianwenChat.on_error self "流式API调用失败: " params))
                (λ r _, r = Ok tt) client2) as Hfinish.
      { apply wp_try_except.
        eapply wp_mono; [by apply (finish_returns _ _ _ _ client2), evolves_refl |].
        by intros r client' ->. }
      unfold wp in Hfinish. by rewrite Hfinish.
  - destruct (QianwenChat.on_error _ _ _ _ _).1 eqn:Hr; [done | apply Herr].
Qed.
End failed_stream.

Lemma ask_survives_storage_failures_witness :
  (QianwenChat.ask (json_module := IntegerJson.json)
     (chat_of down_client) "q" ∅ down_client).1
  = Ok (reply_with (PStr "fine")).
Proof.
  apply (ask_survives_storage_failures (json_module := IntegerJson.json)
           (chat_of down_client) "q" ∅ down_client (reply_with (PStr "fine"))).
  - reflexivity.
  - intros _. by eexists.
Defined.

Lemma ask_without_memory_witness :
  let self := QianwenChat.memory false (chat_of (builtin_client 2)) in
  (QianwenChat.ask (json_module := IntegerJson.json) self "q" ∅ (builtin_client 2)).1
  = Ok (reply_with (PStr "fine"))
  ∧ QianwenClient.memory_manager
      (QianwenChat.ask (json_module := IntegerJson.json) self "q" ∅ (builtin_client 2)).2
    = Some (builtin_manager 2).
Proof.
  intros self.
  apply (ask_without_memory (json_module := IntegerJson.json)
           self "q" ∅ (builtin_client 2)).
  reflexivity.
Defined.

Lemma stream_survives_storage_failures_witness :
  (QianwenChat.stream (json_module := IntegerJson.json)
     (chat_of down_client) "q" ∅ down_client).1
  = [chunk_of "Hel"; chunk_of "lo, "; chunk_of "world!"]
  ∧ (QianwenChat.stream (json_module := IntegerJson.json)
       (chat_of down_client) "q" ∅ down_client).2.1 = Ok tt.
Proof.
  apply (stream_survives_storage_failures (json_module := IntegerJson.json)
           (chat_of down_client) "q" ∅ down_client hello_world); reflexivity.
Defined.

Lemma failed_stream_persists_nothing_witness :
  let run := QianwenChat.stream (json_module := IntegerJson.json)
               (chat_of broken_stream_client) "q" ∅ broken_stream_client in
  run.1 = [chunk_of "Hel"]
  ∧ run.2.1 = Raise (QianwenChat.QianwenAPIError "流式API调用失败: connection lost")
  ∧ holds run.2.2 (builtin_storage 2).
Proof.
  intros run. split; [reflexivity |]. split; [reflexivity |].
  exact (failed_stream_persists_nothing (json_module := IntegerJson.json)
           (chat_of broken_stream_client) "q" ∅ broken_stream_client (builtin_storage 2)
           (ex_intro _ (builtin_manager 2) (conj eq_refl (conj eq_refl eq_refl)))).
Defined.

(** ** The built-in memory storage *)

Section builtin_storage_facts.
Context {C : Type}.
Import MongoMemoryStorage.

Lemma reachable_ready (mongo : MongoMemoryStorage.t C) :
  reachable mongo = true ↔ ready mongo.
Proof. unfold reachable, ready. by rewrite andb_true_iff. Qed.

Lemma not_reachable_not_ready (mongo : MongoMemoryStorage.t C) :
  reachable mongo = false → ¬ ready mongo.
Proof. intros H Hr. apply reachable_ready in Hr. congruence. Qed.

(** What a read answers, in every state of the storage. *)
Lemma mongo_get_history_result (mongo : MongoMemoryStorage.t C) user session limit :
  (get_history user session limit mongo).1
  = Ok (if reachable mongo
        then to_entry <$>
               truncate (applied_limit limit (MemoryConfig.max_history_length (config mongo)))
                 (session_documents user session (Mongo.documents (remote mongo)))
        else []).
Proof.
  destruct (reachable mongo) eqn:Hr.
  - apply reachable_ready in Hr. by rewrite (mongo_get_history_ready _ _ _ _ Hr).
  - apply not_reachable_not_ready in Hr.
    by rewrite (mongo_get_history_not_ready _ _ _ _ Hr).
Qed.

Lemma mongo_clear_ready (mongo : MongoMemoryStorage.t C) user session :
  ready mongo →
  clear_history user session mongo
  = (Ok true,
     set_remote {| Mongo.handle_ok := Mongo.handle_ok (remote mongo);
                   Mongo.server_up := true;
                   Mongo.documents :=
                     other_sessions user session (Mongo.documents (remote mongo)) |}
       mongo).
Proof.
  intros [Hc Hup]. unfold clear_history. rewrite bind_get, Hc. simpl.
  unfold try_except, bind, on_remote, zoom, Mongo.delete_many. by rewrite Hup.
Qed.

Lemma mongo_clear_not_ready (mongo : MongoMemoryStorage.t C) user session :
  ¬ ready mongo →
  clear_history user session mongo = (Ok false, mongo).
Proof.
  intros Hn. unfold clear_history. rewrite bind_get.
  destruct (_collection mongo) eqn:Hc; [| done]. simpl.
  unfold try_except, bind, on_remote, zoom, Mongo.delete_many.
  destruct (Mongo.server_up (remote mongo)) eqn:Hup.
  - destruct Hn. by split.
  - simpl. by rewrite set_remote_same.
Qed.

Lemma query_other user session user' session' d :
  (user', session') ≠ (user, session) →
  query user' session' d = true → query user session d = false.
Proof.
  unfold query. intros Hne H. apply andb_true_iff in H as [Hu Hs].
  apply String.eqb_eq in Hu, Hs. apply andb_false_iff. rewrite Hu, Hs.
  destruct (String.eqb_spec user' user) as [-> |]; [| by left].
  destruct (String.eqb_spec session' session) as [-> |]; [| by right].
  by destruct Hne.
Qed.

Lemma session_documents_other_sessions user session user' session' docs :
  (user', session') ≠ (user, session) →
  session_documents user' session' (other_sessions user session docs)
  = session_documents user' session' docs.
Proof.
  intros Hne. unfold session_documents, other_sessions. f_equal.
  induction docs as [| d docs IH]; [done |].
  destruct (query user' session' d) eqn:Hq.
  - rewrite (filter_cons_True (λ d, query user session d = false))
      by by eapply query_other.
    rewrite !(filter_cons_True (λ d, query user' session' d = true)) by done.
    by rewrite IH.
  - rewrite (filter_cons_False (λ d, query user' session' d = true) d docs)
      by congruence.
    destruct (query user session d) eqn:Hq'.
    + by rewrite (filter_cons_False (λ d, query user session d = false)) by congruence.
    + rewrite (filter_cons_True (λ d, query user session d = false)) by done.
      by rewrite (filter_cons_False (λ d, query user' session' d = true)) by congruence.
Qed.

Lemma session_documents_own_cleared user session docs :
  session_documents user session (other_sessions user session docs) = [].
Proof.
  unfold session_documents, other_sessions.
  replace (filter _ (filter _ docs)) with (@nil Document); [done |].
  symmetry. induction docs as [| d docs IH]; [done |].
  destruct (query user session d) eqn:Hq.
  - by rewrite (filter_cons_False (λ d, query user session d = false)) by congruence.
  - rewrite (filter_cons_True (λ d, query user session d = false)) by done.
    by rewrite (filter_cons_False (λ d, query user session d = true)) by congruence.
Qed.

Lemma session_documents_other_added user' session' docs d :
  (user', session') ≠ (doc_user_id d, doc_session_id d) →
  session_documents user' session' (docs ++ [d]) = session_documents user' session' docs.
Proof.
  intros Hne. unfold session_documents. rewrite filter_app.
  rewrite (filter_cons_False _ d []); [by rewrite app_nil_r |].
  intros Hq. apply Hne. unfold query in Hq.
  apply andb_true_iff in Hq as [Hu Hs]. apply String.eqb_eq in Hu, Hs. by subst.
Qed.

(** X6: [save_message] of the built-in storage never raises, and its
    result tells exactly whether the message was stored: [True] when the
    storage is initialised and the server answers, and then the document
    is appended to the collection; [False] otherwise, and then the
    collection is as before. *)
Theorem save_result_tells_stored (mongo : MongoMemoryStorage.t C)
    (user session r text : string) (md : PyDict) :
  let after := save_message user session r text md mongo in
  after.1 = Ok (reachable mongo)
  ∧ Mongo.documents (remote after.2)
    = (if reachable mongo
       then Mongo.documents (remote mongo) ++ [new_document mongo user session r text md]
       else Mongo.documents (remote mongo))%list
  ∧ _collection after.2 = _collection mongo
  ∧ config after.2 = config mongo.
Proof.
  simpl. destruct (reachable mongo) eqn:Hr.
  - apply reachable_ready in Hr. by rewrite (mongo_save_ready _ _ _ _ _ _ Hr).
  - apply not_reachable_not_ready in Hr.
    destruct (mongo_save_not_ready mongo user session r text md Hr)
      as (mongo' & -> & Hrem & Hc & Hcfg).
    simpl. by rewrite Hrem.
Qed.

(** X7: the sessions are isolated in the built-in storage: saving a
    message of one session, or clearing one session, changes nothing of
    what a read of another session (another user, or the same user in
    another session) answers, in every state of the storage and under
    every limit. *)
Theorem sessions_are_isolated (mongo : MongoMemoryStorage.t C)
    (user session r text : string) (md : PyDict)
    (user' session' : string) (limit : option Z) :
  (user', session') ≠ (user, session) →
  (get_history user' session' limit (save_message user session r text md mongo).2).1
  = (get_history user' session' limit mongo).1
  ∧ (get_history user' session' limit (clear_history user session mongo).2).1
    = (get_history user' session' limit mongo).1.
Proof.
  intros Hne. rewrite !mongo_get_history_result. split.
  - destruct (reachable mongo) eqn:Hr.
    + pose proof Hr as Hready. apply reachable_ready in Hready.
      rewrite (mongo_save_ready _ _ _ _ _ _ Hready). simpl.
      assert (reachable (inserted mongo user session r text md) = true) as ->.
      { apply reachable_ready. by apply inserted_ready. }
      simpl. by rewrite session_documents_other_added.
    + pose proof Hr as Hn. apply not_reachable_not_ready in Hn.
      destruct (mongo_save_not_ready mongo user session r text md Hn)
        as (mongo' & -> & Hrem & Hc & Hcfg).
      simpl. unfold reachable in *. by rewrite Hrem, Hc, Hr.
  - destruct (reachable mongo) eqn:Hr.
    + pose proof Hr as Hready. apply reachable_ready in Hready.
      rewrite (mongo_clear_ready _ _ _ Hready). simpl.
      unfold reachable. simpl. rewrite (proj1 Hready). simpl.
      by rewrite session_documents_other_sessions.
    + pose proof Hr as Hn. apply not_reachable_not_ready in Hn.
      rewrite (mongo_clear_not_ready _ _ _ Hn). simpl. by rewrite Hr.
Qed.

(** What [initialize] does, by what it finds. *)
Lemma mongo_initialize_run (mongo : MongoMemoryStorage.t C) :
  initialize mongo
  = if Mongo.handle_ok (remote mongo)
    then (Ok (Mongo.server_up (remote mongo)), set_collection true mongo)
    else (Ok false, mongo).
Proof.
  destruct mongo as [cfg col [handle up docs] clk].
  unfold initialize, try_except, bind, modify, on_remote, zoom, Mongo.open_handle,
    Mongo.create_index, get, ret, set_collection, set_remote.
  simpl. destruct handle; simpl; [| done].
  destruct up; simpl; [| done]. by destruct (0 <? MemoryConfig.ttl_hours cfg).
Qed.

(** X9: [initialize] of the built-in storage never raises, and answers
    [True] exactly when the handle on the collection could be made and
    the server reached.  The handle is assigned once it is made, before
    the server is contacted, so a storage initialised while the server
    was down is in working order as soon as the server answers again.
    When the handle cannot be made (the driver is not installed, or it
    refuses the URI or a name) the storage is left as it was: with no
    handle from before, every later save, read and clear is skipped,
    whatever the server does. *)
Theorem initialize_reports_reachability (mongo : MongoMemoryStorage.t C) :
  initialize mongo
  = (if Mongo.handle_ok (remote mongo)
     then (Ok (Mongo.server_up (remote mongo)), set_collection true mongo)
     else (Ok false, mongo))
  ∧ (Mongo.handle_ok (remote mongo) = true →
     ∀ server,
       Mongo.server_up server = true →
       reachable (set_remote server (initialize mongo).2) = true)
  ∧ (Mongo.handle_ok (remote mongo) = false →
     _collection mongo = false →
     ∀ server user session r text md limit,
       let later := set_remote server (initialize mongo).2 in
       save_message user session r text md later = (Ok false, later)
       ∧ get_history user session limit later = (Ok [], later)
       ∧ clear_history user session later = (Ok false, later)).
Proof.
  split; [apply mongo_initialize_run |]. rewrite mongo_initialize_run. split.
  - intros -> server Hup. unfold reachable. simpl. by rewrite Hup.
  - intros -> Hc server user session r text md limit later. subst later. simpl.
    unfold save_message, get_history, clear_history. rewrite !bind_get. simpl.
    by rewrite Hc.
Qed.
End builtin_storage_facts.

Lemma sessions_are_isolated_witness :
  (MongoMemoryStorage.get_history "u" "s" None
     (MongoMemoryStorage.save_message "v" "s" "user" "hi" ∅ (builtin_storage 10)).2).1
  = (MongoMemoryStorage.get_history "u" "s" None (builtin_storage 10)).1
  ∧ (MongoMemoryStorage.get_history "u" "s" None
       (MongoMemoryStorage.clear_history "v" "s" (builtin_storage 10)).2).1
    = (MongoMemoryStorage.get_history "u" "s" None (builtin_storage 10)).1.
Proof.
  apply (sessions_are_isolated (builtin_storage 10) "v" "s" "user" "hi" ∅ "u" "s" None).
  discriminate.
Defined.

(** ** The memory manager over the built-in storage *)

Section manager_facts.
Context {C : Type} `{!MemoryStorage C} {json_module : Json}.

(** While the cache is falsy, [clear_history] does nothing but call the
    storage, when the storage is truthy. *)
Lemma clear_history_state user session (m : MemoryManager.t C) st :
  MemoryManager.storage m = Some st →
  MemoryManager.cache_truthy (MemoryManager._local_cache m) = false →
  ms_bool st = true →
  MemoryManager.clear_history user session m
  = (Ok tt, MemoryManager.set_storage (Some (ms_clear_history user session st).2) m).
Proof.
  intros Hst Hcache Hb. unfold MemoryManager.clear_history. run_guard; rewrite Hst, Hb.
  simpl. unfold try_except, bind at 1, MemoryManager.on_storage. rewrite Hst.
  destruct (StorageFactory.on_memory_backend _ _ st) as [[r | e] st']; simpl.
  - rewrite bind_get. simpl. by rewrite Hcache.
  - done.
Qed.

Lemma initialize_cache (m : MemoryManager.t C) :
  MemoryManager._local_cache (MemoryManager.initialize m).2
  = MemoryManager._local_cache m.
Proof.
  unfold MemoryManager.initialize. run_guard.
  destruct (MemoryManager.storage m) as [st |] eqn:Hst; [| done].
  destruct (ms_bool st); [| done].
  unfold MemoryManager.on_storage. rewrite Hst.
  by destruct (ms_initialize st).
Qed.

Lemma perform_cache (m : MemoryManager.t C) (call : ManagerCall) :
  MemoryManager.cache_truthy (MemoryManager._local_cache m) = false →
  MemoryManager._local_cache (perform m call) = MemoryManager._local_cache m.
Proof.
  intros Hcache.
  destruct call as [| message | user session limit | user session]; simpl.
  - apply initialize_cache.
  - by apply (cache_stays_falsy m message "" "" None).
  - by apply (cache_stays_falsy m hello user session limit).
  - by apply (cache_stays_falsy m hello user session None).
Qed.

(** X10: the local cache of the memory manager is never filled.  It is
    created empty (or not at all), an empty [TTLCache] is falsy, and each
    statement that would write to it stands behind [if self._local_cache:],
    so after any sequence of calls of [initialize], [save_message],
    [get_history] and [clear_history], on any storage, the cache is what
    [__init__] made it and is falsy: every read goes to the storage. *)
Theorem cache_is_never_filled (cachetools : bool)
    (server : Mongo.Collection MongoMemoryStorage.Document) (utc clock : Oracle Z)
    (cfg : MemoryConfig.t C) (m : MemoryManager.t C) (calls : list ManagerCall) :
  MemoryManager.__init__ cachetools server utc clock cfg = Ok m →
  MemoryManager._local_cache (perform_all calls m) = MemoryManager._local_cache m
  ∧ MemoryManager.cache_truthy (MemoryManager._local_cache (perform_all calls m)) = false
  ∧ default ∅ (MemoryManager._local_cache (perform_all calls m)) = ∅.
Proof.
  intros Hmade. apply cache_created_falsy in Hmade.
  assert (MemoryManager._local_cache (perform_all calls m) = MemoryManager._local_cache m)
    as Hsame.
  { unfold perform_all. revert m Hmade.
    induction calls as [| call calls IH]; intros m Hfalsy; simpl; [done |].
    rewrite IH; [by apply perform_cache |]. by rewrite perform_cache. }
  rewrite Hsame. split; [done |]. split; [done |].
  destruct (MemoryManager._local_cache m) as [cache |]; [| done]. simpl in *.
  apply negb_false_iff, Nat.eqb_eq in Hmade. by apply map_size_empty_iff.
Qed.

(** X11: a message whose content is not a string (the part list of a
    multimodal message, a number) is stored as [json.dumps(content)] and
    read back as the value itself, whenever [json.loads] undoes
    [json.dumps] on it: saved through the manager into the built-in
    storage, the session empty before, the one message read back has the
    content that was saved. *)
Theorem structured_content_round_trip (m : MemoryManager.t C)
    (mongo : MongoMemoryStorage.t C) (message : ChatMessage) (limit : option Z) :
  (∀ text, content message ≠ PStr text) →
  json_loads (json_dumps (content message)) = Ok (content message) →
  MemoryManager.storage m = Some (StorageFactory.BuiltinMemory mongo) →
  MemoryManager.cache_truthy (MemoryManager._local_cache m) = false →
  ready mongo →
  filter (λ d, MongoMemoryStorage.query (user_id message) (session_id message) d = true)
    (Mongo.documents (MongoMemoryStorage.remote mongo)) = [] →
  ∃ back m' mongo',
    MemoryManager.get_history (user_id message) (session_id message) limit
      (MemoryManager.save_message message m).2 = (Ok [back], m')
    ∧ role back = role message
    ∧ content back = content message
    ∧ MemoryManager.storage (MemoryManager.save_message message m).2
      = Some (StorageFactory.BuiltinMemory mongo')
    ∧ MongoMemoryStorage.doc_content <$>
        Mongo.documents (MongoMemoryStorage.remote mongo')
      = ((MongoMemoryStorage.doc_content <$>
            Mongo.documents (MongoMemoryStorage.remote mongo))
         ++ [json_dumps (content message)])%list.
Proof.
  intros Hnot Hround Hst Hcache Hready Hnone.
  rewrite (save_message_state message m _ Hst Hcache eq_refl). simpl.
  rewrite (mongo_save_ready mongo _ _ _ _ _ Hready). simpl.
  set (mongo1 := inserted mongo _ _ _ _ _).
  set (m1 := MemoryManager.set_storage _ m).
  assert (MemoryManager.storage m1 = Some (StorageFactory.BuiltinMemory mongo1)) as Hst1
    by done.
  assert (MemoryManager.cache_truthy (MemoryManager._local_cache m1) = false) as Hcache1
    by done.
  assert (ready mongo1) as Hready1 by by apply inserted_ready.
  rewrite (get_history_builtin_ready m1 mongo1 _ _ limit Hst1 Hcache1 Hready1).
  subst mongo1. unfold inserted at 2 3. simpl.
  rewrite session_documents_first; [| done |].
  2: { unfold MongoMemoryStorage.query. simpl. by rewrite !String.eqb_refl. }
  rewrite truncate_singleton.
  assert (stored_content message = json_dumps (content message)) as Htext.
  { unfold stored_content. destruct (content message) eqn:Hc; try done.
    by destruct (Hnot s). }
  unfold messages_of_documents, settled. simpl. rewrite Htext, Hround. simpl.
  eexists _, _, _. split; [done |]. simpl. split; [done |].
  rewrite Hround. split; [done |]. split; [done |].
  simpl. by rewrite fmap_app.
Qed.
End manager_facts.

Lemma cache_is_never_filled_witness :
  let calls := [Initialize; SaveMessage hello; GetHistory "u" "s" None;
                ClearHistory "u" "s"; GetHistory "u" "s" (Some 2)] in
  MemoryManager.__init__ true three_turns clock0 clock0 (builtin_memory_config 10)
  = Ok (builtin_manager_new 10)
  ∧ MemoryManager._local_cache
      (perform_all (json_module := IntegerJson.json) calls (builtin_manager_new 10))
    = Some ∅
  ∧ MemoryManager.cache_truthy
      (MemoryManager._local_cache
         (perform_all (json_module := IntegerJson.json) calls (builtin_manager_new 10)))
    = false.
Proof.
  intros calls. split; [reflexivity |].
  destruct (cache_is_never_filled (json_module := IntegerJson.json)
              true three_turns clock0 clock0 (builtin_memory_config 10)
              (builtin_manager_new 10) calls eq_refl) as (H1 & H2 & _).
  split; [exact H1 | exact H2].
Defined.

Lemma integer_json_round_trip_7 :
  json_loads (Json := IntegerJson.json) (json_dumps (Json := IntegerJson.json) (PInt 7))
  = Ok (PInt 7).
Proof. reflexivity. Qed.

Lemma structured_content_round_trip_witness :
  ∃ back m' mongo',
    MemoryManager.get_history (json_module := IntegerJson.json) "v" "s" None
      (MemoryManager.save_message (json_module := IntegerJson.json)
         number_message (builtin_manager 10)).2 = (Ok [back], m')
    ∧ role back = "user"
    ∧ content back = PInt 7
    ∧ MemoryManager.storage
        (MemoryManager.save_message (json_module := IntegerJson.json)
           number_message (builtin_manager 10)).2
      = Some (StorageFactory.BuiltinMemory mongo')
    ∧ MongoMemoryStorage.doc_content <$>
        Mongo.documents (MongoMemoryStorage.remote mongo')
      = ["t1"; "t2"; "t3"; "7"].
Proof.
  apply (structured_content_round_trip (json_module := IntegerJson.json)
           (builtin_manager 10) (builtin_storage 10) number_message None).
  - discriminate.
  - exact integer_json_round_trip_7.
  - reflexivity.
  - reflexivity.
  - split; reflexivity.
  - reflexivity.
Defined.

(** ** Clearing the memory of a session *)

Section clearing.
Context {C D : Type} `{!MemoryStorage C} `{!LogStorage D} {json_module : Json}.

(** X8: over the built-in storage, initialised and reachable,
    [clear_memory] removes the documents of the session of the chat and
    no others, and a [get_history] of that session that follows answers
    the empty list. *)
Theorem cleared_session_reads_empty (self : QianwenChat.t)
    (client : QianwenClient.t C D) (mongo : MongoMemoryStorage.t C) (limit : option Z) :
  holds client mongo →
  ready mongo →
  let after := (QianwenChat.clear_memory self client).2 in
  (QianwenChat.clear_memory self client).1 = Ok tt
  ∧ memory_documents after
    = other_sessions (QianwenChat._user_id self) (QianwenChat._session_id self)
        (Mongo.documents (MongoMemoryStorage.remote mongo))
  ∧ (QianwenChat.get_history self limit after).1 = Ok [].
Proof.
  intros (m & Hm & Hst & Hcache) Hready. simpl.
  unfold QianwenChat.clear_memory. rewrite bind_get, Hm. simpl.
  unfold QianwenClient.on_memory_manager at 1 2 3. rewrite Hm.
  rewrite (clear_history_state _ _ m _ Hst Hcache eq_refl). simpl.
  rewrite (mongo_clear_ready _ _ _ Hready). simpl.
  split; [done |]. split; [done |].
  unfold QianwenChat.get_history. rewrite bind_get. simpl.
  unfold QianwenClient.on_memory_manager. simpl.
  set (mongo1 := MongoMemoryStorage.set_remote _ mongo).
  set (m1 := MemoryManager.set_storage _ m).
  assert (ready mongo1) as Hready1 by (split; [apply Hready | done]).
  rewrite (get_history_builtin_ready m1 mongo1 _ _ limit eq_refl Hcache Hready1).
  simpl. rewrite session_documents_own_cleared.
  destruct (applied_limit _ _); simpl; [by rewrite take_nil | done].
Qed.
End clearing.

Lemma cleared_session_reads_empty_witness :
  let self := chat_of (builtin_client 2) in
  let after := (QianwenChat.clear_memory self (builtin_client 2)).2 in
  (QianwenChat.clear_memory self (builtin_client 2)).1 = Ok tt
  ∧ memory_documents after = []
  ∧ (QianwenChat.get_history (json_module := IntegerJson.json) self None after).1 = Ok [].
Proof.
  intros self after.
  apply (cleared_session_reads_empty (json_module := IntegerJson.json)
           self (builtin_client 2) (builtin_storage 2) None).
  - exists (builtin_manager 2). repeat split; reflexivity.
  - split; reflexivity.
Defined.

(** ** The log manager and the built-in log storage *)

Section log_ids.
Context {D : Type} `{!LogStorage D}.

Lemma or_uuid4_run request_id (l : LogManager.t D) :
  LogManager.or_uuid4 request_id l
  = (Ok (request_id_of l request_id),
     if str_truthy request_id then l
     else {| LogManager.config := LogManager.config l;
             LogManager.storage := LogManager.storage l;
             LogManager.uuid4 := (next (LogManager.uuid4 l)).2 |}).
Proof.
  unfold LogManager.or_uuid4, request_id_of. destruct (str_truthy request_id); [done |].
  unfold LogManager.read_uuid4. by destruct (next (LogManager.uuid4 l)).
Qed.

(** X12: [log_request] always answers an identifier, with or without a
    storage and whether or not the storage fails: the one it was given
    when that is a non-empty string, else a new [uuid4]; the uuid source
    is read in the second case only. *)
Theorem log_request_answers_an_id (l : LogManager.t D) (user session : string)
    (data : PyDict) (request_id : option string) :
  (LogManager.log_request user session data request_id l).1
  = Ok (request_id_of l request_id)
  ∧ LogManager.uuid4 (LogManager.log_request user session data request_id l).2
    = if str_truthy request_id then LogManager.uuid4 l
      else (next (LogManager.uuid4 l)).2.
Proof.
  assert (∃ l', LogManager.log_request user session data request_id l
                 = (Ok (request_id_of l request_id), l')
                ∧ LogManager.uuid4 l'
                  = if str_truthy request_id then LogManager.uuid4 l
                    else (next (LogManager.uuid4 l)).2) as (l' & -> & Hu); [| done].
  unfold LogManager.log_request. rewrite bind_get.
  destruct (negb (LogManager.storage_bool l)) eqn:Hst.
  - rewrite or_uuid4_run. eexists. split; [done |]. by destruct (str_truthy request_id).
  - unfold bind at 1. rewrite or_uuid4_run. unfold bind at 1, try_except, bind at 1.
    set (l1 := if str_truthy request_id then l else _).
    assert (LogManager.uuid4 l1
            = if str_truthy request_id then LogManager.uuid4 l
              else (next (LogManager.uuid4 l)).2) as Hu.
    { subst l1. by destruct (str_truthy request_id). }
    unfold LogManager.on_storage.
    destruct (LogManager.storage l1) as [st |]; [| by eexists].
    destruct (ls_log_request _ _ _ st) as [[b | e] st']; by eexists.
Qed.
End log_ids.

Section builtin_log.
Context {D : Type} `{!LogStorage D}.
Import MongoLogStorage.

Lemma log_set_remote_same (mongo : MongoLogStorage.t D) :
  set_remote (remote mongo) mongo = mongo.
Proof. by destruct mongo. Qed.

Lemma mongo_insert_ready (mongo : MongoLogStorage.t D) user session log_type data rid :
  ready_log mongo →
  insert user session log_type data rid mongo
  = (Ok true, logged mongo user session log_type data rid).
Proof.
  intros [Hc Hup]. unfold insert, try_except, bind, read_utcnow, on_remote, zoom,
    Mongo.insert_one. simpl. by rewrite Hup.
Qed.

Lemma logged_ready (mongo : MongoLogStorage.t D) user session log_type data rid :
  ready_log mongo → ready_log (logged mongo user session log_type data rid).
Proof. by intros [Hc Hup]. Qed.

(** X13: what a request leaves in the built-in log storage (initialised,
    reachable, [log_requests] on): one document of type ["request"] whose
    data are the identifier answered to the caller and five fields of the
    request, [model], [messages], [temperature], [max_tokens] and
    [stream] ([None] for a field the request lacks, [False] for a missing
    [stream]); every other parameter of the request ([tools], the caller's
    keyword arguments) is left out, and the [request_id] field of the
    document itself is empty: the identifier is found in the data only. *)
Theorem request_log_record (l : LogManager.t D) (mongo : MongoLogStorage.t D)
    (user session : string) (data : PyDict) (request_id : option string) :
  LogManager.storage l = Some (StorageFactory.BuiltinLog mongo) →
  ready_log mongo →
  LogConfig.log_requests (config mongo) = true →
  let id := request_id_of l request_id in
  let after := LogManager.log_request user session data request_id l in
  let document := log_document mongo user session "request"
                    (request_log_data id data) None in
  after.1 = Ok id
  ∧ LogManager.storage after.2
    = Some (StorageFactory.BuiltinLog
              (logged mongo user session "request" (request_log_data id data) None))
  ∧ doc_data document !! "request_id" = Some (PStr id)
  ∧ doc_request_id document = None
  ∧ dom (doc_data document)
    = list_to_set ["request_id"; "model"; "messages"; "temperature"; "max_tokens";
                   "stream"].
Proof.
  intros Hst [Hc Hup] Hon id after document.
  assert (∃ l', after = (Ok id, l')
                ∧ LogManager.storage l'
                  = Some (StorageFactory.BuiltinLog
                            (logged mongo user session "request"
                               (request_log_data id data) None))) as (l' & -> & Hl').
  { subst after. unfold LogManager.log_request. run_guard; rewrite Hst. simpl.
    unfold bind at 1. rewrite or_uuid4_run. unfold bind at 1, try_except, bind at 1.
    set (l1 := if str_truthy request_id then l else _).
    assert (LogManager.storage l1 = Some (StorageFactory.BuiltinLog mongo)) as Hst1.
    { subst l1. by destruct (str_truthy request_id). }
    unfold LogManager.on_storage. rewrite Hst1. simpl.
    unfold log_request. rewrite bind_get, Hon, Hc. simpl.
    rewrite (mongo_insert_ready mongo _ _ _ _ _ (conj Hc Hup)). simpl.
    by eexists. }
  split; [done |]. split; [done |]. split; [done |]. split; [done |].
  subst document. simpl. unfold request_log_data.
  rewrite !dom_insert_L, dom_empty_L. set_solver.
Qed.

(** X14: what a response leaves in the built-in log storage (initialised,
    reachable, [log_responses] on): one document of type ["response"]
    that carries the request identifier and, as data, the four fields
    [choices], [usage], [model] and [created] of the response, [None]
    where the response has no such field.  For the dictionary [stream]
    passes, [{"content": ..., "stream": True}], the four are [None]: the
    text of a streamed answer does not reach the log. *)
Theorem response_log_record (l : LogManager.t D) (mongo : MongoLogStorage.t D)
    (user session : string) (data : PyDict) (request_id : option string) :
  LogManager.storage l = Some (StorageFactory.BuiltinLog mongo) →
  ready_log mongo →
  LogConfig.log_responses (config mongo) = true →
  LogManager.log_response user session data request_id l
  = (Ok tt,
     LogManager.set_storage
       (Some (StorageFactory.BuiltinLog
                (logged mongo user session "response" (response_log_data data)
                   request_id))) l)
  ∧ ∀ full_content,
      response_log_data (<["content" := PStr full_content]> (<["stream" := PBool true]> ∅))
      = <["choices" := PNone]> (<["usage" := PNone]>
          (<["model" := PNone]> (<["created" := PNone]> ∅))).
Proof.
  intros Hst [Hc Hup] Hon. split; [| done].
  unfold LogManager.log_response. run_guard; rewrite Hst. simpl.
  unfold try_except, bind at 1, LogManager.on_storage. rewrite Hst. simpl.
  unfold log_response. rewrite bind_get, Hon, Hc. simpl.
  by rewrite (mongo_insert_ready mongo _ _ _ _ _ (conj Hc Hup)).
Qed.

Lemma mongo_get_logs_ready (mongo : MongoLogStorage.t D) user session t0 t1 limit :
  ready_log mongo →
  get_logs user session t0 t1 limit mongo
  = (Ok (to_record <$>
           Mongo.limit limit
             (Mongo.sort_descending doc_timestamp
                (filter (λ d, query user session t0 t1 d = true)
                   (Mongo.documents (remote mongo))))),
     mongo).
Proof.
  intros [Hc Hup]. unfold get_logs. rewrite bind_get, Hc. simpl.
  unfold try_except, bind, on_remote, zoom, Mongo.to_list.
  by rewrite Hup, log_set_remote_same.
Qed.

Lemma mongo_get_logs_not_ready (mongo : MongoLogStorage.t D) user session t0 t1 limit :
  ¬ ready_log mongo →
  get_logs user session t0 t1 limit mongo = (Ok [], mongo).
Proof.
  intros Hn. unfold get_logs. rewrite bind_get.
  destruct (_collection mongo) eqn:Hc; [| done]. simpl.
  unfold try_except, bind, on_remote, zoom, Mongo.to_list.
  destruct (Mongo.server_up (remote mongo)) eqn:Hup.
  - destruct Hn. by split.
  - by rewrite log_set_remote_same.
Qed.

Lemma ready_log_dec (mongo : MongoLogStorage.t D) : ready_log mongo ∨ ¬ ready_log mongo.
Proof.
  unfold ready_log. destruct (_collection mongo), (Mongo.server_up (remote mongo));
    intuition congruence.
Qed.

Lemma query_selected user session t0 t1 d :
  query user session t0 t1 d = true → selected user session t0 t1 (to_record d).
Proof.
  unfold query, selected. intros H.
  apply andb_true_iff in H as [H H4]. apply andb_true_iff in H as [H H3].
  apply andb_true_iff in H as [H1 H2]. simpl. split_and!.
  - intros Hu. rewrite Hu in H1. by apply bool_decide_eq_true in H1.
  - intros Hs. rewrite Hs in H2. by apply bool_decide_eq_true in H2.
  - intros t -> . by apply Z.leb_le.
  - intros t -> . by apply Z.leb_le.
Qed.

Lemma selected_query user session t0 t1 d :
  selected user session t0 t1 (to_record d) → query user session t0 t1 d = true.
Proof.
  unfold query, selected. simpl. intros (H1 & H2 & H3 & H4).
  repeat (apply andb_true_iff; split).
  - destruct (str_truthy user); [| done]. by apply bool_decide_eq_true, H1.
  - destruct (str_truthy session); [| done]. by apply bool_decide_eq_true, H2.
  - destruct t0 as [t |]; [| done]. by apply Z.leb_le, H3.
  - destruct t1 as [t |]; [| done]. by apply Z.leb_le, H4.
Qed.

#[global] Instance selected_dec user session t0 t1 record :
  Decision (selected user session t0 t1 record).
Proof.
  unfold selected. repeat apply and_dec.
  - apply impl_dec; apply _.
  - apply impl_dec; apply _.
  - destruct t0 as [t |].
    + destruct (decide (t ≤ lr_timestamp record)) as [Hle | Hgt].
      * left. by intros ? [= <-].
      * right. intros H. by apply Hgt, H.
    + left. by intros.
  - destruct t1 as [t |].
    + destruct (decide (lr_timestamp record ≤ t)) as [Hle | Hgt].
      * left. by intros ? [= <-].
      * right. intros H. by apply Hgt, H.
    + left. by intros.
Defined.

Lemma limit_Forall {A} (P : A → Prop) (n : Z) (l : list A) :
  Forall P l → Forall P (Mongo.limit n l).
Proof. unfold Mongo.limit. destruct (n =? 0); [done | apply Forall_take]. Qed.

Lemma limit_length {A} (n : Z) (l : list A) :
  n ≠ 0 → (length (Mongo.limit n l) ≤ Z.abs_nat n)%nat.
Proof.
  intros Hn. unfold Mongo.limit. destruct (Z.eqb_spec n 0); [done |].
  rewrite length_take. lia.
Qed.

Lemma limit_sorted {A} (R : relation A) (n : Z) (l : list A) :
  Sorted R l → Sorted R (Mongo.limit n l).
Proof. unfold Mongo.limit. destruct (n =? 0); [done | apply Sorted_take]. Qed.

Lemma mongo_logs_properties (docs : list Document) user session t0 t1 limit :
  let logs := to_record <$>
                Mongo.limit limit
                  (Mongo.sort_descending doc_timestamp
                     (filter (λ d, query user session t0 t1 d = true) docs)) in
  Forall (selected user session t0 t1) logs
  ∧ Sorted newest_first logs
  ∧ (limit ≠ 0 → (length logs ≤ Z.abs_nat limit)%nat).
Proof.
  simpl. split_and!.
  - apply Forall_fmap. eapply Forall_impl; [| intros d; apply query_selected].
    apply limit_Forall.
    unfold Mongo.sort_descending. rewrite merge_sort_Permutation.
    apply Forall_forall. by intros d [Hd _]%list_elem_of_filter.
  - apply Sorted_fmap with (R1 := Mongo.descending doc_timestamp); [by intros a b |].
    apply limit_sorted, (Sorted_merge_sort _).
  - intros Hn. rewrite length_fmap. by apply limit_length.
Qed.
End builtin_log.

Section client_logs.
Context {C D : Type} `{!MemoryStorage C} `{!LogStorage D}.

(** X15: what [QianwenClient.get_logs] answers over the built-in log
    storage, in every state of it: records that all meet the selection
    (user and session when given and not empty, time stamp within the
    given bounds), the most recent first, and no more of them than the
    magnitude of [limit] unless [limit] is 0; with [limit = 0] and the
    storage reachable, the records returned are exactly the documents of
    the collection that meet the selection, each once. *)
Theorem logs_are_selected_sorted_bounded (client : QianwenClient.t C D)
    (l : LogManager.t D) (mongo : MongoLogStorage.t D)
    (user session : option string) (t0 t1 : option Z) (limit : Z) :
  QianwenClient.log_manager client = Some l →
  LogManager.storage l = Some (StorageFactory.BuiltinLog mongo) →
  ∃ logs client',
    QianwenClient.get_logs user session t0 t1 limit client = (Ok logs, client')
    ∧ Forall (selected user session t0 t1) logs
    ∧ Sorted newest_first logs
    ∧ (limit ≠ 0 → (length logs ≤ Z.abs_nat limit)%nat)
    ∧ (limit = 0 → ready_log mongo →
       logs ≡ₚ MongoLogStorage.to_record
                 <$> filter (λ d, selected user session t0 t1 (MongoLogStorage.to_record d))
                       (Mongo.documents (MongoLogStorage.remote mongo))).
Proof.
  intros Hl Hst. unfold QianwenClient.get_logs. rewrite bind_get, Hl. simpl.
  unfold QianwenClient.on_log_manager. rewrite Hl.
  unfold LogManager.get_logs. run_guard; rewrite Hst. simpl.
  unfold try_except, LogManager.on_storage. rewrite Hst. simpl.
  destruct (ready_log_dec mongo) as [Hr | Hn].
  - rewrite (mongo_get_logs_ready _ _ _ _ _ _ Hr). simpl.
    eexists _, _. split; [done |].
    destruct (mongo_logs_properties (Mongo.documents (MongoLogStorage.remote mongo))
                user session t0 t1 limit) as (H1 & H2 & H3).
    split_and!; try done.
    intros -> _. unfold Mongo.limit. simpl.
    unfold Mongo.sort_descending. rewrite merge_sort_Permutation.
    rewrite (list_filter_iff _
               (λ d, selected user session t0 t1 (MongoLogStorage.to_record d))); [done |].
    intros d. split; [apply query_selected | apply selected_query].
  - rewrite (mongo_get_logs_not_ready _ _ _ _ _ _ Hn). simpl.
    eexists _, _. split; [done |].
    split_and!; [by constructor | by constructor | intros; simpl; lia | by intros].
Qed.
End client_logs.

Section log_round_trip.
Context {D : Type} `{!LogStorage D}.
Import MongoLogStorage.

#[local] Instance descending_trans (key : Document → Z) :
  Transitive (Mongo.descending key).
Proof. intros a b c. unfold Mongo.descending. lia. Qed.

(** A document strictly more recent than all the others comes first in
    the descending order. *)
Lemma newest_comes_first (docs : list Document) (d : Document) :
  Forall (λ d', doc_timestamp d' < doc_timestamp d) docs →
  ∃ rest, Mongo.sort_descending doc_timestamp (docs ++ [d]) = d :: rest.
Proof.
  intros Hold. unfold Mongo.sort_descending.
  pose proof (merge_sort_Permutation (Mongo.descending doc_timestamp) (docs ++ [d]))
    as Hperm.
  pose proof (StronglySorted_merge_sort (Mongo.descending doc_timestamp) (docs ++ [d]))
    as Hsorted.
  destruct (merge_sort (Mongo.descending doc_timestamp) (docs ++ [d])) as [| h rest].
  { apply Permutation_nil_l in Hperm. by destruct docs. }
  exists rest. f_equal.
  assert (h ∈ (docs ++ [d])%list) as Hh by (rewrite <- Hperm; left).
  assert (d ∈ h :: rest) as Hd
    by (rewrite Hperm, elem_of_app, list_elem_of_singleton; auto).
  apply elem_of_app in Hh as [Hh | Hh]; [| by apply list_elem_of_singleton in Hh].
  rewrite Forall_forall in Hold. specialize (Hold h Hh).
  apply elem_of_cons in Hd as [-> | Hd]; [done |].
  apply StronglySorted_inv in Hsorted as [_ Hall].
  rewrite Forall_forall in Hall. specialize (Hall d Hd).
  unfold Mongo.descending in Hall. lia.
Qed.

Lemma limit_head {A} (n : Z) (x : A) (l : list A) :
  ∃ rest, Mongo.limit n (x :: l) = x :: rest.
Proof.
  unfold Mongo.limit. destruct (Z.eqb_spec n 0); [by eexists |].
  destruct (Z.abs_nat n) eqn:Hn; [lia |]. by eexists.
Qed.

(** X16: an error logged through the manager into the built-in log
    storage (initialised, reachable, [log_errors] on) is the first record
    that a following [get_logs] for its user and session answers, under
    every limit, provided its time stamp is later than those already in
    the collection; the record has type ["error"], the data that were
    logged and no request identifier. *)
Theorem logged_error_is_read_first (l : LogManager.t D) (mongo : MongoLogStorage.t D)
    (user session : string) (data : PyDict) (limit : Z) :
  LogManager.storage l = Some (StorageFactory.BuiltinLog mongo) →
  ready_log mongo →
  LogConfig.log_errors (config mongo) = true →
  Forall (λ d, doc_timestamp d < (next (utcnow mongo)).1)
    (Mongo.documents (remote mongo)) →
  ∃ rest l',
    LogManager.get_logs (Some user) (Some session) None None limit
      (LogManager.log_error user session data l).2
    = (Ok ({| lr_user_id := user; lr_session_id := session; lr_log_type := "error";
              lr_data := data; lr_timestamp := (next (utcnow mongo)).1;
              lr_request_id := None |} :: rest), l').
Proof.
  intros Hst Hready Hon Hold.
  unfold LogManager.log_error. run_guard; rewrite Hst. simpl.
  unfold try_except at 1, bind at 1, LogManager.on_storage at 1. rewrite Hst. simpl.
  unfold log_error. rewrite bind_get, Hon, (proj1 Hready). simpl.
  rewrite (mongo_insert_ready mongo _ _ _ _ _ Hready). simpl.
  unfold LogManager.get_logs. rewrite bind_get. simpl.
  unfold try_except, LogManager.on_storage. simpl.
  rewrite (mongo_get_logs_ready _ _ _ _ _ _
             (logged_ready mongo user session "error" data None Hready)).
  simpl. rewrite filter_app.
  set (d := log_document mongo user session "error" data None).
  assert (query (Some user) (Some session) None None d = true) as Hq.
  { unfold query. simpl.
    destruct (negb (String.eqb user "")), (negb (String.eqb session ""));
      by rewrite ?bool_decide_eq_true_2. }
  rewrite (filter_cons_True _ d []) by done. rewrite filter_nil.
  destruct (newest_comes_first
              (filter (λ d, query (Some user) (Some session) None None d = true)
                 (Mongo.documents (remote mongo))) d) as [rest1 ->].
  { apply Forall_forall. intros d' [_ Hd']%list_elem_of_filter.
    rewrite Forall_forall in Hold. by apply Hold. }
  destruct (limit_head limit d rest1) as [rest2 ->].
  by eexists _, _.
Qed.
End log_round_trip.

Lemma request_log_record_witness :
  let after := LogManager.log_request "u" "s"
                 (<["model" := PStr "qwen-plus"]> (<["tools" := PList []]> ∅))
                 None verbose_manager in
  let document :=
    log_document verbose_storage "u" "s" "request"
      (request_log_data "uuid-0"
         (<["model" := PStr "qwen-plus"]> (<["tools" := PList []]> ∅))) None in
  after.1 = Ok "uuid-0"
  ∧ LogManager.storage after.2
    = Some (StorageFactory.BuiltinLog
              (logged verbose_storage "u" "s" "request"
                 (request_log_data "uuid-0"
                    (<["model" := PStr "qwen-plus"]> (<["tools" := PList []]> ∅))) None))
  ∧ MongoLogStorage.doc_data document !! "request_id" = Some (PStr "uuid-0")
  ∧ MongoLogStorage.doc_request_id document = None
  ∧ dom (MongoLogStorage.doc_data document)
    = list_to_set ["request_id"; "model"; "messages"; "temperature"; "max_tokens";
                   "stream"].
Proof.
  apply (request_log_record verbose_manager verbose_storage "u" "s"
           (<["model" := PStr "qwen-plus"]> (<["tools" := PList []]> ∅)) None).
  - reflexivity.
  - split; reflexivity.
  - reflexivity.
Defined.

Lemma response_log_record_witness :
  LogManager.log_response "u" "s"
    (<["content" := PStr "Hello"]> (<["stream" := PBool true]> ∅)) (Some "uuid-0")
    verbose_manager
  = (Ok tt,
     LogManager.set_storage
       (Some (StorageFactory.BuiltinLog
                (logged verbose_storage "u" "s" "response"
                   (<["choices" := PNone]> (<["usage" := PNone]>
                      (<["model" := PNone]> (<["created" := PNone]> ∅))))
                   (Some "uuid-0")))) verbose_manager).
Proof.
  destruct (response_log_record verbose_manager verbose_storage "u" "s"
              (<["content" := PStr "Hello"]> (<["stream" := PBool true]> ∅))
              (Some "uuid-0") eq_refl (conj eq_refl eq_refl) eq_refl) as [Hrun Hdata].
  rewrite Hrun, (Hdata "Hello"). reflexivity.
Defined.

Lemma logs_are_selected_sorted_bounded_witness :
  ∃ logs client',
    QianwenClient.get_logs (Some "u") None None None 10 logging_client = (Ok logs, client')
    ∧ Forall (selected (Some "u") None None None) logs
    ∧ Sorted newest_first logs
    ∧ (length logs ≤ 10)%nat.
Proof.
  destruct (logs_are_selected_sorted_bounded logging_client verbose_manager
              verbose_storage (Some "u") None None None 10 eq_refl eq_refl)
    as (logs & client' & Hrun & Hsel & Hsorted & Hlen & _).
  exists logs, client'. split; [exact Hrun |]. split; [exact Hsel |].
  split; [exact Hsorted |]. apply Hlen. discriminate.
Defined.

Lemma logged_error_is_read_first_witness :
  ∃ rest l',
    LogManager.get_logs (Some "u") (Some "s") None None 1
      (LogManager.log_error "u" "s" ∅ verbose_manager).2
    = (Ok ({| lr_user_id := "u"; lr_session_id := "s"; lr_log_type := "error";
              lr_data := ∅; lr_timestamp := 0; lr_request_id := None |} :: rest), l').
Proof.
  apply (logged_error_is_read_first verbose_manager verbose_storage "u" "s" ∅ 1).
  - reflexivity.
  - split; reflexivity.
  - reflexivity.
  - repeat constructor.
Defined.

(** ** The file storage of [config_examples.py] *)

Lemma last_slice_suffix {A} (n : Z) (l : list A) :
  0 < n →
  ∃ older, l = (older ++ last_slice n l)%list
           ∧ length (last_slice n l) = (Z.to_nat n `min` length l)%nat.
Proof.
  intros Hn. unfold last_slice. destruct (Z.ltb_spec 0 n); [| lia].
  exists (take (length l - Z.to_nat n) l). split; [by rewrite take_drop |].
  rewrite length_drop. lia.
Qed.

Lemma file_get_history_positive (f : FileMemoryStorage.t) user session n :
  FileMemoryStorage.disk_ok f = true →
  0 < n →
  FileMemoryStorage.get_history user session (Some n) f
  = (Ok (last_slice n (file_messages f user session)), f).
Proof.
  intros Hdisk Hpos. unfold FileMemoryStorage.get_history, file_messages.
  rewrite Hdisk. simpl. destruct (Z.eqb_spec n 0); [lia |]. simpl.
  destruct (FileMemoryStorage.files f !! _) as [messages |]; simpl; [done |].
  unfold last_slice. destruct (0 <? n); by rewrite drop_nil.
Qed.

Section file_history.
Context {D : Type} `{!LogStorage D} {json_module : Json}.

#[local] Arguments MemoryManager.loads_or_keep : simpl never.

Lemma loads_or_keep_content (v : PyVal) :
  if settled_content v then MemoryManager.loads_or_keep v = Ok (decode v)
  else ∃ e, MemoryManager.loads_or_keep v = Raise e.
Proof.
  unfold settled_content, settled, MemoryManager.loads_or_keep, decode.
  destruct v as [| | | | s | |]; try done.
  destruct (json_loads s) as [v | e]; [done |].
  destruct (MemoryManager.decode_error e); [done | by eexists].
Qed.

Lemma for_each_entries user session (entries : list HistoryEntry)
    (m : MemoryManager.t FileMemoryStorage.t) :
  ∃ r o,
    MemoryManager.for_each (MemoryManager.to_message user session) entries m
    = (r, with_now o m)
    ∧ if forallb (λ e, settled_content (he_content e)) entries
      then ∃ messages,
             r = Ok messages
             ∧ (λ msg, QianwenChat.message_dict (role msg) (content msg)) <$> messages
               = (λ e, QianwenChat.message_dict (he_role e) (decode (he_content e)))
                   <$> entries
      else ∃ e, r = Raise e.
Proof.
  revert m. induction entries as [| e entries IH]; intros m.
  - exists (Ok []), (MemoryManager.now m). split; [by destruct m |]. by exists [].
  - cbn [MemoryManager.for_each forallb].
    unfold bind at 1, MemoryManager.to_message at 1, bind at 1, lift.
    pose proof (loads_or_keep_content (he_content e)) as Hload.
    destruct (settled_content (he_content e)); cbn [andb].
    + rewrite Hload. unfold bind at 1, MemoryManager.read_now.
      destruct (next (MemoryManager.now m)) as [t0 o] eqn:Hnext.
      unfold ret at 1. cbv beta iota. unfold bind at 1.
      destruct (IH (with_now o m)) as (r & o' & Hrun & Hr).
      unfold with_now in Hrun at 1. simpl in Hrun. rewrite Hrun.
      destruct (forallb _ entries).
      * destruct Hr as (messages & -> & Hmap). eexists _, o'.
        split; [reflexivity |]. eexists. split; [reflexivity |].
        by rewrite !fmap_cons, Hmap.
      * destruct Hr as [e' ->]. eexists _, o'. split; [reflexivity |]. by eexists.
    + destruct Hload as [e' ->]. exists (Raise e'), (MemoryManager.now m).
      split; [by destruct m | by eexists].
Qed.

(** X17: over the file storage of [config_examples.py] used as custom
    storage, the history a request carries is the end of the session: with
    [max_history_length = n > 0], the [n] most recent messages of the file
    (all of them when the file has fewer), in their order, between the
    system message and the new message.  That is, when [json.loads]
    settles the content of each of these messages; when the content of
    one of them makes it raise an exception the manager does not provide
    for, the request carries no history at all. *)
Theorem file_history_keeps_latest
    (client : QianwenClient.t FileMemoryStorage.t D)
    (m : MemoryManager.t FileMemoryStorage.t) (f : FileMemoryStorage.t)
    (self : QianwenChat.t) (message : string) (n : Z) :
  QianwenClient.memory_manager client = Some m →
  MemoryManager.storage m = Some (StorageFactory.CustomMemory f) →
  MemoryManager.cache_truthy (MemoryManager._local_cache m) = false →
  FileMemoryStorage.disk_ok f = true →
  QianwenChat._memory_enabled self = true →
  MemoryConfig.max_history_length (QianwenConfig.memory (QianwenClient.config client)) = n →
  0 < n →
  let stored :=
    file_messages f (QianwenChat._user_id self) (QianwenChat._session_id self) in
  ∃ older latest,
    stored = (older ++ latest)%list
    ∧ length latest = (Z.to_nat n `min` length stored)%nat
    ∧ (QianwenChat._build_messages self message client).1
      = Ok (opening self
            ++ (if forallb (λ e, settled_content (he_content e)) latest
                then (λ e, QianwenChat.message_dict (he_role e) (decode (he_content e)))
                       <$> latest
                else [])
            ++ [QianwenChat.message_dict "user" (PStr message)])%list.
Proof.
  intros Hm Hst Hcache Hdisk Hon Hn Hpos stored.
  destruct (last_slice_suffix n stored Hpos) as (older & Holder & Hlen).
  exists older, (last_slice n stored). split; [done |]. split; [done |].
  unfold QianwenChat._build_messages. rewrite bind_get, Hon, Hm, Hn. simpl.
  fold (opening self).
  unfold bind at 1, bind at 1, QianwenClient.on_memory_manager. rewrite Hm.
  unfold MemoryManager.get_history. run_guard; rewrite Hst, Hcache. simpl.
  unfold try_except, bind at 1, MemoryManager.on_storage. rewrite Hst. simpl.
  rewrite (file_get_history_positive f _ _ n Hdisk Hpos). fold stored.
  unfold bind at 1.
  destruct (for_each_entries (QianwenChat._user_id self) (QianwenChat._session_id self)
              (last_slice n stored)
              (MemoryManager.set_storage (Some (StorageFactory.CustomMemory f)) m))
    as (r & o & -> & Hr).
  destruct (forallb _ (last_slice n stored)).
  - destruct Hr as (messages & -> & Hmap).
    rewrite bind_get. simpl. rewrite Hcache. unfold bind, ret. simpl.
    by rewrite Hmap, <- app_assoc.
  - destruct Hr as [e ->]. unfold ret. simpl. by rewrite app_nil_r.
Qed.
End file_history.

Section file_storage.
Import FileMemoryStorage.

(** After a save, a read through any path that names the file of the
    session answers what the file held and the message saved. *)
Lemma file_read_after_save (f : t) (user session r text : string) (md : PyDict)
    (user' session' : string) :
  disk_ok f = true →
  locate f (_get_file_path user' session') = locate f (_get_file_path user session) →
  (get_history user' session' None (save_message user session r text md f).2).1
  = Ok (file_messages f user session ++ [file_entry f r text md])%list.
Proof.
  intros Hdisk Hsame. unfold save_message, get_history, file_messages. rewrite Hdisk.
  simpl. by rewrite Hsame, lookup_insert_eq.
Qed.

(** X18: in the file storage, a message saved is the last one a read of
    its session answers, after the ones that were there; and the save
    changes no read of a session whose path names another file, whatever
    the limit.  (On a disk that can be written to; the result of
    [save_message] itself is [None].  Which paths name the same file is
    for the file system to say: [u_s.json] and [./u_s.json] do.) *)
Theorem file_save_then_read (f : t) (user session r text : string) (md : PyDict) :
  disk_ok f = true →
  let after := (save_message user session r text md f).2 in
  (get_history user session None after).1
  = Ok (file_messages f user session ++ [file_entry f r text md])%list
  ∧ ∀ user' session' limit,
      locate f (_get_file_path user' session') ≠ locate f (_get_file_path user session) →
      (get_history user' session' limit after).1 = (get_history user' session' limit f).1.
Proof.
  intros Hdisk after. split; [by apply file_read_after_save |].
  intros user' session' limit Hne. subst after.
  unfold save_message, get_history. rewrite Hdisk. simpl.
  rewrite lookup_insert_ne by done.
  by destruct (files f !! locate f (_get_file_path user' session')).
Qed.

(** X19: the file storage names the file of a session
    [<user_id>_<session_id>.json], so two sessions whose identifiers differ
    only in where the underscore falls share one file: a message saved for
    user [user ++ "_" ++ tail] in session [session] is answered by a read
    for user [user] in session [tail ++ "_" ++ session]. *)
Theorem file_sessions_can_share_a_file (f : t) (user tail session r text : string)
    (md : PyDict) :
  disk_ok f = true →
  _get_file_path (user ++ "_" ++ tail) session
  = _get_file_path user (tail ++ "_" ++ session)
  ∧ (get_history user (tail ++ "_" ++ session) None
       (save_message (user ++ "_" ++ tail) session r text md f).2).1
    = Ok (file_messages f user (tail ++ "_" ++ session) ++ [file_entry f r text md])%list.
Proof.
  intros Hdisk.
  assert (_get_file_path (user ++ "_" ++ tail) session
          = _get_file_path user (tail ++ "_" ++ session)) as Hpath.
  { unfold _get_file_path. by rewrite !append_assoc. }
  split; [done |].
  rewrite (file_read_after_save f (user ++ "_" ++ tail) session r text md
             user (tail ++ "_" ++ session) Hdisk) by by rewrite Hpath.
  unfold file_messages. by rewrite Hpath.
Qed.
End file_storage.

Lemma file_history_keeps_latest_witness :
  ∃ older latest,
    [filed 1 "user" "t1"; filed 2 "assistant" "t2"; filed 3 "user" "t3"]
    = (older ++ latest)%list
    ∧ length latest = 2%nat
    ∧ (QianwenChat._build_messages (json_module := IntegerJson.json)
         (chat_of (file_client 2)) "q" (file_client 2)).1
      = Ok ((if forallb (λ e, settled_content (json_module := IntegerJson.json)
                                (he_content e)) latest
             then (λ e, QianwenChat.message_dict (he_role e)
                          (decode (json_module := IntegerJson.json) (he_content e)))
                    <$> latest
             else [])
            ++ [QianwenChat.message_dict "user" (PStr "q")])%list.
Proof.
  destruct (file_history_keeps_latest (json_module := IntegerJson.json)
              (file_client 2) _ three_turns_on_file (chat_of (file_client 2)) "q" 2
              eq_refl eq_refl eq_refl eq_refl eq_refl eq_refl eq_refl)
    as (older & latest & H1 & H2 & H3).
  exists older, latest. split; [exact H1 |]. split; [exact H2 | exact H3].
Defined.

Lemma file_save_then_read_witness :
  (FileMemoryStorage.get_history "u" "s" None
     (FileMemoryStorage.save_message "u" "s" "user" "hi" ∅ three_turns_on_file).2).1
  = Ok [filed 1 "user" "t1"; filed 2 "assistant" "t2"; filed 3 "user" "t3";
        filed 0 "user" "hi"]
  ∧ (FileMemoryStorage.get_history "v" "s" None
       (FileMemoryStorage.save_message "u" "s" "user" "hi" ∅ three_turns_on_file).2).1
    = Ok [].
Proof.
  destruct (file_save_then_read three_turns_on_file "u" "s" "user" "hi" ∅ eq_refl)
    as [Hread Hother].
  split; [exact Hread |].
  rewrite (Hother "v" "s" None); [reflexivity | by vm_compute].
Defined.

Lemma file_sessions_can_share_a_file_witness :
  FileMemoryStorage._get_file_path "a_b" "c" = FileMemoryStorage._get_file_path "a" "b_c"
  ∧ (FileMemoryStorage.get_history "a" "b_c" None
       (FileMemoryStorage.save_message "a_b" "c" "user" "secret" ∅ file_memory0).2).1
    = Ok [filed 0 "user" "secret"].
Proof.
  exact (file_sessions_can_share_a_file file_memory0 "a" "b" "c" "user" "secret" ∅ eq_refl).
Defined.

(** ** Initialising the client *)

Section initialising.
Context {C D : Type} `{!MemoryStorage C} `{!LogStorage D}.

Lemma mongo_initialize_returns (mongo : MongoMemoryStorage.t C) :
  ∃ b mongo', MongoMemoryStorage.initialize mongo = (Ok b, mongo').
Proof.
  rewrite mongo_initialize_run. destruct (Mongo.handle_ok _); by eexists _, _.
Qed.

Lemma mongo_log_initialize_returns (mongo : MongoLogStorage.t D) :
  ∃ b mongo', MongoLogStorage.initialize mongo = (Ok b, mongo').
Proof.
  unfold MongoLogStorage.initialize, try_except.
  match goal with |- context [?c mongo] => destruct (c mongo) as [[b | e] mongo'] end;
    by eexists _, _.
Qed.

(** X20: [QianwenClient.initialize] with memory enabled, no custom
    storage and a storage type other than ["mongodb"] raises
    ([NotImplementedError] for ["redis"] and ["file"], [ValueError] for
    any other name) and leaves the client as it was: no memory manager,
    and no log manager either, even when logging is enabled and well
    configured. *)
Theorem initialize_with_unsupported_storage (env : QianwenClient.Env)
    (client : QianwenClient.t C D) :
  let cfg := QianwenConfig.memory (QianwenClient.config client) in
  MemoryConfig.enabled cfg = true →
  MemoryConfig.custom_storage cfg = None →
  MemoryConfig.storage_type cfg ≠ "mongodb" →
  ∃ e, QianwenClient.initialize env client = (Raise e, client)
       ∧ exn_type e
         = if bool_decide (MemoryConfig.storage_type cfg = "redis"
                           ∨ MemoryConfig.storage_type cfg = "file")
           then "NotImplementedError" else "ValueError".
Proof.
  intros cfg Hon Hcustom Htype. unfold QianwenClient.initialize.
  rewrite bind_get. fold cfg. rewrite Hon.
  unfold bind at 1, bind at 1, lift, MemoryManager.__init__,
    StorageFactory.create_memory_storage, StorageFactory.memory_storage_of_type.
  rewrite Hon, Hcustom. simpl.
  destruct (String.eqb_spec (MemoryConfig.storage_type cfg) "mongodb"); [done |].
  destruct (String.eqb_spec (MemoryConfig.storage_type cfg) "redis") as [Hr | Hr].
  { eexists. split; [done |]. simpl. rewrite bool_decide_eq_true_2; [done | by left]. }
  destruct (String.eqb_spec (MemoryConfig.storage_type cfg) "file") as [Hf | Hf].
  { eexists. split; [done |]. simpl. rewrite bool_decide_eq_true_2; [done | by right]. }
  eexists. split; [done |]. simpl. rewrite bool_decide_eq_false_2; [done |].
  by intros [? | ?].
Qed.

(** X21: when each of memory and logging is switched off or on the
    built-in MongoDB backend, [QianwenClient.initialize] returns normally
    in every environment, the servers unreachable included (the [False]
    that a storage's [initialize] answers is dropped), and leaves a manager
    exactly for the parts that are enabled. *)
Theorem initialize_ignores_unreachable_servers (env : QianwenClient.Env)
    (client : QianwenClient.t C D) :
  memory_off_or_builtin (QianwenConfig.memory (QianwenClient.config client)) →
  log_off_or_builtin (QianwenConfig.log (QianwenClient.config client)) →
  QianwenClient.memory_manager client = None →
  QianwenClient.log_manager client = None →
  let after := QianwenClient.initialize env client in
  after.1 = Ok tt
  ∧ (is_Some (QianwenClient.memory_manager after.2)
     ↔ MemoryConfig.enabled (QianwenConfig.memory (QianwenClient.config client)) = true)
  ∧ (is_Some (QianwenClient.log_manager after.2)
     ↔ LogConfig.enabled (QianwenConfig.log (QianwenClient.config client)) = true).
Proof.
  intros Hmem Hlog Hm0 Hl0 after.
  set (mcfg := QianwenConfig.memory (QianwenClient.config client)) in *.
  set (lcfg := QianwenConfig.log (QianwenClient.config client)) in *.
  assert (∃ client1,
            (if MemoryConfig.enabled mcfg
             then
               m <~ lift (MemoryManager.__init__ (QianwenClient.cachetools env)
                            (QianwenClient.memory_server env)
                            (QianwenClient.memory_utcnow env)
                            (QianwenClient.manager_now env) mcfg);;
               modify (QianwenClient.set_memory_manager (Some m));;;
               QianwenClient.on_memory_manager MemoryManager.initialize;;;
               ret tt
             else ret tt) client = (Ok tt, client1)
            ∧ QianwenClient.config client1 = QianwenClient.config client
            ∧ QianwenClient.log_manager client1 = None
            ∧ (is_Some (QianwenClient.memory_manager client1)
               ↔ MemoryConfig.enabled mcfg = true)) as (client1 & Hrun1 & Hc1 & Hl1 & Hm1).
  { destruct Hmem as [Hoff | [Hcustom Htype]].
    - rewrite Hoff. exists client. split; [done |]. split; [done |]. split; [done |].
      rewrite Hm0. split; [by intros [? ?] | done].
    - destruct (MemoryConfig.enabled mcfg) eqn:Hon.
      2: { exists client. split; [done |]. split; [done |]. split; [done |].
           rewrite Hm0. split; [by intros [? ?] | done]. }
      unfold bind at 1, lift, MemoryManager.__init__,
        StorageFactory.create_memory_storage, StorageFactory.memory_storage_of_type.
      rewrite Hon, Hcustom, Htype. simpl.
      unfold bind at 1, modify. unfold bind at 1, QianwenClient.on_memory_manager.
      simpl. unfold MemoryManager.initialize. rewrite bind_get. simpl.
      unfold MemoryManager.on_storage. simpl.
      destruct (mongo_initialize_returns
                  (MongoMemoryStorage.__init__ mcfg (QianwenClient.memory_server env)
                     (QianwenClient.memory_utcnow env))) as (b & mongo' & ->).
      simpl. eexists. split; [done |]. simpl. split; [done |]. split; [done |].
      split; [done | by eexists]. }
  assert (∃ client2,
            (if LogConfig.enabled lcfg
             then
               l <~ lift (LogManager.__init__ (QianwenClient.log_server env)
                            (QianwenClient.log_utcnow env) (QianwenClient.uuids env) lcfg);;
               modify (QianwenClient.set_log_manager (Some l));;;
               QianwenClient.on_log_manager LogManager.initialize;;;
               ret tt
             else ret tt) client1 = (Ok tt, client2)
            ∧ QianwenClient.memory_manager client2 = QianwenClient.memory_manager client1
            ∧ (is_Some (QianwenClient.log_manager client2)
               ↔ LogConfig.enabled lcfg = true)) as (client2 & Hrun2 & Hm2 & Hl2).
  { destruct Hlog as [Hoff | [Hcustom Htype]].
    - rewrite Hoff. exists client1. split; [done |]. split; [done |].
      rewrite Hl1. split; [by intros [? ?] | done].
    - destruct (LogConfig.enabled lcfg) eqn:Hon.
      2: { exists client1. split; [done |]. split; [done |].
           rewrite Hl1. split; [by intros [? ?] | done]. }
      unfold bind at 1, lift, LogManager.__init__, StorageFactory.create_log_storage,
        StorageFactory.log_storage_of_type.
      rewrite Hon, Hcustom, Htype. simpl.
      unfold bind at 1, modify. unfold bind at 1, QianwenClient.on_log_manager.
      simpl. unfold LogManager.initialize. rewrite bind_get. simpl.
      unfold LogManager.on_storage. simpl.
      destruct (mongo_log_initialize_returns
                  (MongoLogStorage.__init__ lcfg (QianwenClient.log_server env)
                     (QianwenClient.log_utcnow env))) as (b & mongo' & ->).
      simpl. eexists. split; [done |]. simpl. split; [done |].
      split; [done | by eexists]. }
  assert (after = (Ok tt, client2)) as ->.
  { subst after. unfold QianwenClient.initialize. rewrite bind_get. fold mcfg lcfg.
    unfold bind at 1. by rewrite Hrun1. }
  simpl. by rewrite Hm2.
Qed.
End initialising.

Lemma initialize_with_unsupported_storage_witness :
  ∃ e, QianwenClient.initialize builtin_env
         (new_client redis_memory_config verbose_log_config)
       = (Raise e, new_client redis_memory_config verbose_log_config)
       ∧ exn_type e = "NotImplementedError".
Proof.
  exact (initialize_with_unsupported_storage
           builtin_env (new_client redis_memory_config verbose_log_config)
           eq_refl eq_refl ltac:(discriminate)).
Defined.

Lemma initialize_ignores_unreachable_servers_witness :
  let after := QianwenClient.initialize offline_env
                 (new_client (builtin_memory_config 10) verbose_log_config) in
  after.1 = Ok tt
  ∧ is_Some (QianwenClient.memory_manager after.2)
  ∧ is_Some (QianwenClient.log_manager after.2).
Proof.
  intros after.
  destruct (initialize_ignores_unreachable_servers offline_env
              (new_client (builtin_memory_config 10) verbose_log_config)
              (or_intror (conj eq_refl eq_refl)) (or_intror (conj eq_refl eq_refl))
              eq_refl eq_refl) as (H1 & H2 & H3).
  split; [exact H1 |]. split; [apply H2 | apply H3]; reflexivity.
Defined.

(** ** The output length of a session *)

Section output_length.
Import QianwenChat.

Lemma call_keeps_max_tokens (m : Mutator) (self : t) :
  1 ≤ _max_tokens self → 1 ≤ _max_tokens (call m self).
Proof.
  destruct m; simpl; try done. intros _. unfold py_max_int.
  destruct (Z.leb_spec tokens 1); lia.
Qed.

(** X22: [max_tokens(n)] stores [n] when [n] is at least 1 and 1
    otherwise, and whatever mutators are chained after the call, the
    stored length stays at least 1. *)
Theorem max_tokens_is_at_least_one (self : t) (tokens : Z) :
  _max_tokens (max_tokens tokens self) = Z.max 1 tokens
  ∧ ∀ ms, 1 ≤ _max_tokens (chain ms (max_tokens tokens self)).
Proof.
  assert (_max_tokens (max_tokens tokens self) = Z.max 1 tokens) as Hset.
  { simpl. unfold py_max_int. destruct (Z.leb_spec tokens 1); lia. }
  split; [done |]. intros ms.
  assert (1 ≤ _max_tokens (max_tokens tokens self)) as Hge by (rewrite Hset; lia).
  revert Hge. generalize (max_tokens tokens self). unfold chain.
  induction ms as [| m ms IH]; intros chat Hge; simpl; [done |].
  by apply IH, call_keeps_max_tokens.
Qed.
End output_length.

(** ** The configuration given as a dictionary *)

Section config_dicts.
Import ConfigData.

Lemma keywords_unexpected cls fields (kwargs : PyDict) name :
  is_Some (kwargs !! name) → name ∉ fields →
  keywords cls fields (PDict kwargs) = Raise (unexpected_keyword cls).
Proof.
  intros [v Hv] Hnot. unfold keywords. rewrite bool_decide_eq_false_2; [done |].
  rewrite Forall_forall. intros Hall. apply Hnot, Hall.
  apply list_elem_of_fmap. exists (name, v). split; [done |].
  by apply elem_of_map_to_list.
Qed.

Lemma keywords_type_error cls fields v e :
  keywords cls fields v = Raise e → exn_type e = "TypeError".
Proof.
  unfold keywords. destruct v; try by intros [= <-].
  case_bool_decide; [done | by intros [= <-]].
Qed.

Lemma part_of_dict {T} (config_dict : PyDict) key (current : T) construct :
  QianwenConfig.part (PDict config_dict) key current construct
  = match config_dict !! key with
    | Some v => construct v
    | None => Ok current
    end.
Proof.
  unfold QianwenConfig.part, contains, getitem.
  destruct (config_dict !! key) as [v |] eqn:Hv.
  - by rewrite bool_decide_eq_true_2.
  - rewrite bool_decide_eq_false_2; [done |]. by intros [? ?].
Qed.

Lemma api_type_error v e : APIConfig.__init__ v = Raise e → exn_type e = "TypeError".
Proof.
  unfold APIConfig.__init__.
  destruct (keywords _ _ v) eqn:Hk; [done |]. intros [= <-].
  by eapply keywords_type_error.
Qed.

Lemma model_type_error v e : ModelConfig.__init__ v = Raise e → exn_type e = "TypeError".
Proof.
  unfold ModelConfig.__init__.
  destruct (keywords _ _ v) eqn:Hk; [done |]. intros [= <-].
  by eapply keywords_type_error.
Qed.

Lemma memory_type_error v e : MemoryConfig.__init__ v = Raise e → exn_type e = "TypeError".
Proof.
  unfold MemoryConfig.__init__.
  destruct (keywords _ _ v) eqn:Hk; [done |]. intros [= <-].
  by eapply keywords_type_error.
Qed.

Lemma log_type_error v e : LogConfig.__init__ v = Raise e → exn_type e = "TypeError".
Proof.
  unfold LogConfig.__init__.
  destruct (keywords _ _ v) eqn:Hk; [done |]. intros [= <-].
  by eapply keywords_type_error.
Qed.

(** The parts of a dictionary, one after the other. *)
Lemma from_dict_of_dict (config_dict : PyDict) :
  QianwenConfig.from_dict (PDict config_dict)
  = match (match config_dict !! "api" with
           | Some v => APIConfig.__init__ v
           | None => Ok (APIConfig.make ∅)
           end) with
    | Raise e => Raise e
    | Ok api_config =>
        match (match config_dict !! "model" with
               | Some v => ModelConfig.__init__ v
               | None => Ok (ModelConfig.make ∅)
               end) with
        | Raise e => Raise e
        | Ok model_config =>
            match (match config_dict !! "memory" with
                   | Some v => MemoryConfig.__init__ v
                   | None => Ok (MemoryConfig.make ∅)
                   end) with
            | Raise e => Raise e
            | Ok memory_config =>
                match (match config_dict !! "log" with
                       | Some v => LogConfig.__init__ v
                       | None => Ok (LogConfig.make ∅)
                       end) with
                | Raise e => Raise e
                | Ok log_config =>
                    Ok {| QianwenConfig.api := api_config;
                          QianwenConfig.model := model_config;
                          QianwenConfig.memory := memory_config;
                          QianwenConfig.log := log_config |}
                end
            end
        end
    end.
Proof. unfold QianwenConfig.from_dict. by rewrite !part_of_dict. Qed.

(** X23: [from_dict] raises [TypeError] as soon as one part of the
    dictionary ([api], [model], [memory] or [log]) has a key that is not
    a field of the data class of that part: the constructor is called
    with the part as keyword arguments.  The dictionary
    [example_dict_config] of [config_examples.py], whose [memory] part
    has the keys [mongodb_url] and [database_name], is refused in this
    way. *)
Theorem from_dict_rejects_unknown_keys (config_dict : PyDict) (key name : string)
    (kwargs : PyDict) :
  key ∈ part_names →
  config_dict !! key = Some (PDict kwargs) →
  is_Some (kwargs !! name) →
  name ∉ part_fields key →
  ∃ e, QianwenConfig.from_dict (PDict config_dict) = Raise e
       ∧ exn_type e = "TypeError".
Proof.
  intros Hkey Hpart Hname Hnot. rewrite from_dict_of_dict.
  unfold part_names in Hkey. rewrite !elem_of_cons in Hkey.
  destruct (match config_dict !! "api" with
            | Some v => APIConfig.__init__ v
            | None => Ok (APIConfig.make ∅)
            end) as [api_config | e] eqn:Hapi.
  2: { exists e. split; [done |]. destruct (config_dict !! "api"); [| done].
       by eapply api_type_error. }
  destruct (match config_dict !! "model" with
            | Some v => ModelConfig.__init__ v
            | None => Ok (ModelConfig.make ∅)
            end) as [model_config | e] eqn:Hmodel.
  2: { exists e. split; [done |]. destruct (config_dict !! "model"); [| done].
       by eapply model_type_error. }
  destruct (match config_dict !! "memory" with
            | Some v => MemoryConfig.__init__ v
            | None => Ok (MemoryConfig.make ∅)
            end) as [memory_config | e] eqn:Hmemory.
  2: { exists e. split; [done |]. destruct (config_dict !! "memory"); [| done].
       by eapply memory_type_error. }
  destruct (match config_dict !! "log" with
            | Some v => LogConfig.__init__ v
            | None => Ok (LogConfig.make ∅)
            end) as [log_config | e] eqn:Hlog.
  2: { exists e. split; [done |]. destruct (config_dict !! "log"); [| done].
       by eapply log_type_error. }
  exfalso.
  destruct Hkey as [-> | [-> | [-> | [-> | Hkey]]]]; [.. | by apply elem_of_nil in Hkey].
  - rewrite Hpart in Hapi. unfold APIConfig.__init__ in Hapi.
    by rewrite (keywords_unexpected _ _ _ name) in Hapi.
  - rewrite Hpart in Hmodel. unfold ModelConfig.__init__ in Hmodel.
    by rewrite (keywords_unexpected _ _ _ name) in Hmodel.
  - rewrite Hpart in Hmemory. unfold MemoryConfig.__init__ in Hmemory.
    by rewrite (keywords_unexpected _ _ _ name) in Hmemory.
  - rewrite Hpart in Hlog. unfold LogConfig.__init__ in Hlog.
    by rewrite (keywords_unexpected _ _ _ name) in Hlog.
Qed.

(** X24: [from_dict] looks at the four keys [api], [model], [memory] and
    [log] of the dictionary and at no other: an entry under any other
    key (a part name misspelt, say) changes nothing of the result, error
    or configuration. *)
Theorem from_dict_ignores_other_keys (config_dict : PyDict) (other : string)
    (v : PyVal) :
  other ∉ part_names →
  QianwenConfig.from_dict (PDict (<[other := v]> config_dict))
  = QianwenConfig.from_dict (PDict config_dict).
Proof.
  intros Hother. unfold part_names in Hother. rewrite !not_elem_of_cons in Hother.
  destruct Hother as (H1 & H2 & H3 & H4 & _).
  rewrite !from_dict_of_dict. by rewrite !lookup_insert_ne.
Qed.

(** X25: [to_dict] followed by [from_dict] gives the configuration back,
    every field of every part, but for the three fields [to_dict] does
    not write, which come back as [None]: the Redis password and the two
    custom storages. *)
Theorem to_dict_then_from_dict (c : QianwenConfig.t) :
  QianwenConfig.from_dict (PDict (QianwenConfig.to_dict c)) = Ok (without_unsaved c).
Proof. destruct c as [[] [] [] []]. vm_compute. reflexivity. Qed.

(** X26: [save_to_file] opens the file for writing before it looks at
    the name.  With a name in [.json] the file ends up holding the JSON
    text of [to_dict()], whatever it held; with any other name the call
    raises [ValueError] and the file is left empty: what it held is lost,
    and a file that did not exist has been created. *)
Theorem save_to_file_opens_before_it_checks (json_dump_indent : PyVal → string)
    (self : QianwenConfig.t) (config_file : string) (disk : Disk.t) :
  (Disk.open_write config_file disk).1 = Ok tt →
  let after := QianwenConfig.save_to_file json_dump_indent self config_file disk in
  (if Disk.endswith config_file ".json"
   then after.1 = Ok tt
        ∧ Disk.entries after.2 !! config_file
          = Some (Disk.File (json_dump_indent (PDict (QianwenConfig.to_dict self))))
   else (∃ e, after.1 = Raise e ∧ exn_type e = "ValueError")
        ∧ Disk.entries after.2 !! config_file = Some (Disk.File ""))
  ∧ ∀ other, other ≠ config_file →
             Disk.entries after.2 !! other = Disk.entries disk !! other.
Proof.
  intros Hopen after. subst after. unfold QianwenConfig.save_to_file, bind.
  assert (∃ disk', Disk.open_write config_file disk = (Ok tt, disk')
                   ∧ Disk.entries disk' = <[config_file := Disk.File ""]> (Disk.entries disk))
    as (disk' & -> & Hdisk').
  { revert Hopen. unfold Disk.open_write.
    destruct (Disk.entries disk !! config_file) as [[data | |] |]; try done.
    - intros _. by eexists.
    - destruct (Disk.can_create disk config_file); [| done]. intros _. by eexists. }
  destruct (Disk.endswith config_file ".json").
  - unfold Disk.write. simpl. rewrite Hdisk', lookup_insert_eq. simpl.
    split; [split; [done | by rewrite lookup_insert_eq] |].
    intros other Hne. by rewrite !lookup_insert_ne.
  - unfold raise. simpl. rewrite Hdisk'.
    split; [split; [by eexists | by rewrite lookup_insert_eq] |].
    intros other Hne. by rewrite lookup_insert_ne.
Qed.
End config_dicts.

Lemma from_dict_rejects_unknown_keys_witness :
  ∃ e, ConfigData.QianwenConfig.from_dict (PDict ConfigExamples.example_dict_config)
       = Raise e
       ∧ exn_type e = "TypeError".
Proof.
  apply (from_dict_rejects_unknown_keys ConfigExamples.example_dict_config
           "memory" "mongodb_url"
           (<["enabled" := PBool true]>
            (<["storage_type" := PStr "mongodb"]>
            (<["max_history_length" := PInt 20]>
            (<["mongodb_url" := PStr "mongodb://localhost:27017"]>
            (<["database_name" := PStr "qianwen_memory"]> ∅)))))).
  - unfold part_names. rewrite !elem_of_cons. auto.
  - reflexivity.
  - by eexists.
  - unfold part_fields, ConfigData.MemoryConfig.fields. simpl.
    rewrite !not_elem_of_cons. split_and!; try discriminate. apply not_elem_of_nil.
Defined.

Lemma from_dict_ignores_other_keys_witness :
  ConfigData.QianwenConfig.from_dict
    (PDict (<["memroy" := PDict (<["enabled" := PBool false]> ∅)]> ∅))
  = Ok ConfigData.QianwenConfig.__init__.
Proof.
  rewrite (from_dict_ignores_other_keys ∅ "memroy" (PDict (<["enabled" := PBool false]> ∅))).
  - reflexivity.
  - unfold part_names. rewrite !not_elem_of_cons.
    split_and!; try discriminate. apply not_elem_of_nil.
Defined.

Lemma save_to_file_opens_before_it_checks_witness :
  let after := ConfigData.QianwenConfig.save_to_file (λ _, "{}")
                 ConfigData.QianwenConfig.__init__ "config.yaml" yaml_disk in
  (∃ e, after.1 = Raise e ∧ exn_type e = "ValueError")
  ∧ Disk.entries yaml_disk !! "config.yaml" = Some (Disk.File "model: qwen-plus")
  ∧ Disk.entries after.2 !! "config.yaml" = Some (Disk.File "").
Proof.
  intros after.
  destruct (save_to_file_opens_before_it_checks (λ _, "{}")
              ConfigData.QianwenConfig.__init__ "config.yaml" yaml_disk eq_refl)
    as [[Hraise Hempty] _].
  split; [exact Hraise |]. split; [reflexivity | exact Hempty].
Defined.

(** ** The multimodal methods *)

#[local] Arguments getitem : simpl never.
#[local] Arguments getitem0 : simpl never.

Section multimodal.
Context {C D : Type} `{!MemoryStorage C} `{!LogStorage D} {json_module : Json}.
Context {codec : Disk.Codec}.

(** X27: [_multimodal_request] builds its messages in another order than
    [_build_messages] (the history first, the system message put in front
    afterwards), and ends up with the same list: started on the same
    client the two give the same messages before the last one, leave the
    client in the same state, and differ in the content of the last
    message only, the text for one, the list of parts for the other. *)
Theorem multimodal_messages_as_build_messages (self : QianwenChat.t) (message : string)
    (multimodal_content : list PyDict) (client : QianwenClient.t C D) :
  ∃ earlier client',
    QianwenChat._build_messages self message client
    = (Ok (earlier ++ [QianwenChat.message_dict "user" (PStr message)])%list, client')
    ∧ QianwenChat._multimodal_messages self multimodal_content client
      = (Ok (earlier
             ++ [QianwenChat.message_dict "user" (PList (PDict <$> multimodal_content))])%list,
         client').
Proof.
  unfold QianwenChat._build_messages, QianwenChat._multimodal_messages.
  rewrite !bind_get. unfold bind.
  destruct (QianwenChat._memory_enabled self); simpl.
  - case_bool_decide as Hm.
    + destruct Hm as [m Hm]. unfold QianwenClient.on_memory_manager. rewrite Hm.
      destruct (get_history_returns (QianwenChat._user_id self)
                  (QianwenChat._session_id self)
                  (Some (MemoryConfig.max_history_length
                           (QianwenConfig.memory (QianwenClient.config client)))) m)
        as (history & m' & ->).
      unfold ret. simpl.
      destruct (str_truthy (QianwenChat._system_message self)); by eexists _, _.
    + unfold ret. simpl.
      destruct (str_truthy (QianwenChat._system_message self)); by eexists _, _.
  - unfold ret. simpl.
    destruct (str_truthy (QianwenChat._system_message self)); by eexists _, _.
Qed.

Lemma multimodal_request_api_error (self : QianwenChat.t)
    (multimodal_content : list PyDict) (kwargs : PyDict) (client : QianwenClient.t C D) :
  api_error_or_ok "多模态API调用失败: "
    (QianwenChat._multimodal_request self multimodal_content kwargs client).1.
Proof.
  unfold QianwenChat._multimodal_request, bind at 1.
  pose proof (try_on_error self "多模态API调用失败: " ∅
                (QianwenChat._multimodal_messages self multimodal_content) client) as H1.
  destruct (try_except _ _ client) as [[messages | e] client1]; [| exact H1].
  apply try_on_error.
Qed.

Lemma ask_api_error (self : QianwenChat.t) (message : string) (kwargs : PyDict)
    (client : QianwenClient.t C D) :
  api_error_or_ok "API调用失败: " (QianwenChat.ask self message kwargs client).1.
Proof.
  unfold QianwenChat.ask, bind at 1.
  pose proof (try_on_error self "API调用失败: " ∅
                (QianwenChat._build_messages self message) client) as H1.
  destruct (try_except _ _ client) as [[messages | e] client1]; [| exact H1].
  apply try_on_error.
Qed.

(** X28: what [image] and [document] raise.  For a path that names
    nothing, a [QianwenAPIError] of their own; for a directory or a file
    that may not be read, the error of [open], which is not wrapped in a
    [QianwenAPIError]; in these cases the client is left as it was:
    nothing was sent, logged or saved.  For a regular file, [image] ends
    normally or with the [QianwenAPIError] of the multimodal request, and
    [document] ends normally, with the [QianwenAPIError] of [ask], or,
    the file not being UTF-8 text, with a [QianwenAPIError] of its own
    and the client as it was. *)
Theorem image_and_document_outcomes (disk : Disk.t) (self : QianwenChat.t)
    (message path : string) (kwargs : PyDict) (client : QianwenClient.t C D) :
  match refusal "图片文件不存在: " disk path with
  | Some e => QianwenChat.image disk self message path kwargs client = (Raise e, client)
  | None =>
      api_error_or_ok "多模态API调用失败: "
        (QianwenChat.image disk self message path kwargs client).1
  end
  ∧ match refusal "文档文件不存在: " disk path with
    | Some e => QianwenChat.document disk self message path kwargs client = (Raise e, client)
    | None =>
        api_error_or_ok "API调用失败: "
          (QianwenChat.document disk self message path kwargs client).1
        ∨ QianwenChat.document disk self message path kwargs client
          = (Raise (QianwenChat.QianwenAPIError ("无法读取文档内容: " ++ path)), client)
    end.
Proof.
  unfold refusal, QianwenChat.image, QianwenChat.document, Disk.path_exists,
    QianwenClient._encode_image, Disk.open_read.
  destruct (Disk.entries disk !! path) as [[data | |] |] eqn:Hp.
  - rewrite bool_decide_true by by eexists. simpl. split.
    + apply multimodal_request_api_error.
    + unfold bind, lift. simpl.
      destruct (Disk.read_text data) as [doc_content |]; [left | by right].
      apply ask_api_error.
  - rewrite bool_decide_true by by eexists. by split.
  - rewrite bool_decide_true by by eexists. by split.
  - rewrite bool_decide_false by by intros [? ?]. by split.
Qed.

Lemma frame_parts_stops (disk : Disk.t) (ready : list string) (path : string)
    (rest : list string) (e : exn) :
  Forall (λ frame_path, refusal "视频帧文件不存在: " disk frame_path = None) ready →
  refusal "视频帧文件不存在: " disk path = Some e →
  QianwenChat.frame_parts disk (ready ++ path :: rest) = Raise e.
Proof.
  intros Hready Hpath. induction Hready as [| frame_path ready Hframe _ IH]; simpl.
  - revert Hpath.
    unfold refusal, Disk.path_exists, QianwenClient._encode_image, Disk.open_read.
    destruct (Disk.entries disk !! path) as [[data | |] |] eqn:Hp.
    + done.
    + rewrite bool_decide_true by by eexists. simpl. by intros [= ->].
    + rewrite bool_decide_true by by eexists. simpl. by intros [= ->].
    + rewrite bool_decide_false by by intros [? ?]. simpl. by intros [= ->].
  - revert Hframe.
    unfold refusal, Disk.path_exists, QianwenClient._encode_image, Disk.open_read.
    destruct (Disk.entries disk !! frame_path) as [[data | |] |] eqn:Hp; try done.
    intros _. rewrite bool_decide_true by by eexists. simpl. by rewrite IH.
Qed.

(** X29: [video] reads the frames in order and stops at the first it
    cannot use, with the error [image] gives for such a path (the
    [QianwenAPIError] for a missing frame, the unwrapped error of [open]
    for a directory or an unreadable file); the frames before it have
    been read and encoded, and nothing is sent, logged or saved: the
    client is left as it was, whatever follows the bad frame. *)
Theorem video_stops_at_first_bad_frame (disk : Disk.t) (self : QianwenChat.t)
    (message : string) (ready : list string) (path : string) (rest : list string)
    (e : exn) (kwargs : PyDict) (client : QianwenClient.t C D) :
  Forall (λ frame_path, refusal "视频帧文件不存在: " disk frame_path = None) ready →
  refusal "视频帧文件不存在: " disk path = Some e →
  QianwenChat.video disk self message (ready ++ path :: rest) kwargs client
  = (Raise e, client).
Proof.
  intros Hready Hpath. unfold QianwenChat.video, bind, lift.
  by rewrite (frame_parts_stops disk ready path rest e Hready Hpath).
Qed.
End multimodal.

Lemma video_stops_at_first_bad_frame_witness :
  QianwenChat.video (json_module := IntegerJson.json) (codec := sample_codec)
    picture_disk (chat_of (builtin_client 2)) "what happens?"
    (["cat.jpg"; "cat.jpg"] ++ "album" :: ["dog.jpg"]) ∅ (builtin_client 2)
  = (Raise (Disk.IsADirectoryError "album"), builtin_client 2).
Proof.
  apply (video_stops_at_first_bad_frame (json_module := IntegerJson.json)
           (codec := sample_codec) picture_disk (chat_of (builtin_client 2))
           "what happens?" ["cat.jpg"; "cat.jpg"] "album" ["dog.jpg"]).
  - repeat constructor.
  - reflexivity.
Defined.

(** ** A multimodal turn over the built-in storage *)

Section multimodal_turn.
Context {C D : Type} `{!MemoryStorage C} `{!LogStorage D} {json_module : Json}.
Context {codec : Disk.Codec}.

Lemma wp_multimodal_messages (self : QianwenChat.t) (multimodal_content : list PyDict)
    (Q : Outcome (list PyDict) → QianwenClient.t C D → Prop) client mongo :
  holds client mongo →
  (∀ messages client', holds client' mongo → Q (Ok messages) client') →
  wp (QianwenChat._multimodal_messages self multimodal_content) Q client.
Proof.
  intros Hh HQ. unfold QianwenChat._multimodal_messages. apply wp_get, wp_bind.
  destruct Hh as (m & Hm & Hst & Hcache).
  destruct (QianwenChat._memory_enabled self); simpl.
  - rewrite Hm. simpl. apply wp_bind.
    unfold wp at 1, QianwenClient.on_memory_manager. rewrite Hm.
    destruct (ready_dec mongo) as [Hr | Hn].
    + rewrite (get_history_builtin_ready m mongo _ _ _ Hst Hcache Hr). simpl.
      apply wp_ret, wp_ret, HQ. by eexists.
    + rewrite (get_history_builtin_not_ready m mongo _ _ _ Hst Hcache Hn). simpl.
      apply wp_ret, wp_ret, HQ. by eexists.
  - apply wp_ret, wp_ret, HQ. by eexists.
Qed.

Lemma multimodal_request_wp (self : QianwenChat.t) (multimodal_content : list PyDict)
    kwargs client mongo :
  holds client mongo →
  QianwenChat._memory_enabled self = true →
  wp (QianwenChat._multimodal_request self multimodal_content kwargs)
     (λ r client',
        ∃ mongo', holds client' mongo'
                  ∧ ask_post self (json_dumps (PList (PDict <$> multimodal_content)))
                      mongo r mongo')
     client.
Proof.
  intros Hh Hon. unfold QianwenChat._multimodal_request.
  apply wp_bind, wp_try_except. eapply wp_multimodal_messages; [done |].
  intros messages client1 Hh1.
  apply wp_try_except, wp_bind. eapply wp_log_request; [done |].
  intros rid client2 Hh2. apply wp_get, wp_bind, wp_lift.
  destruct (QianwenClient.create client2 _) as [response_dict | e].
  2: { eapply wp_on_error; [done |]. intros client' Hh'.
       exists mongo. split; [done |]. split; [done | by left]. }
  apply wp_bind. eapply wp_log_response; [done | done |].
  intros client3 Hh3. apply wp_bind.
  destruct Hh2 as (m2 & Hm2 & Hst2 & Hc2). rewrite Hon, Hm2. simpl.
  apply wp_bind. eapply wp_new_message; [done |].
  intros t0 client4 Hh4 _. apply wp_bind. eapply wp_save; [done .. |].
  intros client5 Hh5 _. simpl in Hh5.
  destruct (truthy (LogManager.dict_get response_dict "choices")) eqn:Hch.
  2: { apply wp_ret, wp_ret. eexists. split; [exact Hh5 |]. simpl. by rewrite Hch. }
  apply wp_bind, wp_lift.
  destruct (getitem (PDict response_dict) "choices") as [choices | e] eqn:H1.
  2: { eapply wp_on_error; [done |]. intros client' Hh'.
       eexists. split; [done |]. split; [done | by right]. }
  apply wp_bind, wp_lift. destruct (getitem0 choices) as [choice | e] eqn:H2.
  2: { eapply wp_on_error; [done |]. intros client' Hh'.
       eexists. split; [done |]. split; [done | by right]. }
  apply wp_bind, wp_lift. destruct (getitem choice "message") as [reply | e] eqn:H3.
  2: { eapply wp_on_error; [done |]. intros client' Hh'.
       eexists. split; [done |]. split; [done | by right]. }
  apply wp_bind, wp_lift. destruct (getitem reply "content") as [c | e] eqn:H4.
  2: { eapply wp_on_error; [done |]. intros client' Hh'.
       eexists. split; [done |]. split; [done | by right]. }
  apply wp_bind. eapply wp_new_message; [done |].
  intros t1 client6 Hh6 _. eapply wp_save; [done .. |].
  intros client7 Hh7 _. simpl in Hh7. apply wp_ret.
  eexists. split; [done |]. simpl. rewrite Hch. exists c.
  unfold first_choice_content. rewrite H1, H2, H3, H4. split; [reflexivity |].
  unfold stored_content, text_of. simpl. by destruct c.
Qed.

(** X30: an [image] turn with memory enabled over the built-in storage,
    ready, on a regular file.  What is stored as the user's message is
    the JSON text of the two parts, the question and the whole picture
    in base64 as a [data:] URL; after it comes the content of the first
    choice as the assistant's message, when the reply has a truthy
    [choices], and nothing when it has not.  When the call fails, what it
    raises is a [QianwenAPIError] and the collection has gained nothing
    or the user's message, never an assistant's. *)
Theorem image_turn_is_stored_as_json (disk : Disk.t) (self : QianwenChat.t)
    (message image_path data : string) (kwargs : PyDict)
    (client : QianwenClient.t C D) (mongo : MongoMemoryStorage.t C) :
  holds client mongo →
  ready mongo →
  QianwenChat._memory_enabled self = true →
  Disk.entries disk !! image_path = Some (Disk.File data) →
  let user := QianwenChat._user_id self in
  let session := QianwenChat._session_id self in
  let parts :=
    json_dumps (PList [PDict (QianwenChat.text_part message);
                       PDict (QianwenChat.image_part (Disk.b64encode data))]) in
  let user_document := new_document mongo user session "user" parts ∅ in
  let after := QianwenChat.image disk self message image_path kwargs client in
  ∃ mongo' added,
    holds after.2 mongo'
    ∧ Mongo.documents (MongoMemoryStorage.remote mongo')
      = (Mongo.documents (MongoMemoryStorage.remote mongo) ++ added)%list
    ∧ match after.1 with
      | Ok response_dict =>
          if truthy (LogManager.dict_get response_dict "choices")
          then ∃ c, first_choice_content response_dict = Ok c
                    ∧ added = [user_document;
                               new_document
                                 (inserted mongo user session "user" parts ∅)
                                 user session "assistant" (text_of c) ∅]
          else added = [user_document]
      | Raise e =>
          exn_type e = "QianwenAPIError" ∧ (added = [] ∨ added = [user_document])
      end.
Proof.
  intros Hh Hr Hon Hfile user session parts user_document after.
  assert (after
          = QianwenChat._multimodal_request self
              [QianwenChat.text_part message;
               QianwenChat.image_part (Disk.b64encode data)] kwargs client) as ->.
  { subst after.
    unfold QianwenChat.image, Disk.path_exists, QianwenClient._encode_image,
      Disk.open_read.
    rewrite Hfile. by rewrite bool_decide_true by by eexists. }
  pose proof (multimodal_request_wp self
                [QianwenChat.text_part message;
                 QianwenChat.image_part (Disk.b64encode data)]
                kwargs client mongo Hh Hon) as H.
  unfold wp in H. destruct H as (mongo' & Hh' & Hpost).
  exists mongo'. unfold ask_post in Hpost. simpl in Hpost. fold parts in Hpost.
  destruct (QianwenChat._multimodal_request self _ kwargs client).1
    as [response_dict | e].
  - destruct (truthy (LogManager.dict_get response_dict "choices")).
    + destruct Hpost as (c & Hc & ->). eexists. split; [done |].
      rewrite (saved_ready self mongo) by done.
      rewrite saved_ready by by apply inserted_ready.
      split; [| by exists c]. simpl. by rewrite <- app_assoc.
    + subst mongo'. eexists. split; [done |].
      rewrite saved_ready by done. by split.
  - destruct Hpost as [He [-> | ->]].
    + exists []. split; [done |]. split; [by rewrite app_nil_r | auto].
    + eexists. split; [done |]. rewrite saved_ready by done. split; [done | auto].
Qed.
End multimodal_turn.

Lemma image_turn_is_stored_as_json_witness :
  let self := chat_of (builtin_client 2) in
  let parts :=
    json_dumps (Json := IntegerJson.json)
      (PList [PDict (QianwenChat.text_part "what is this?");
              PDict (QianwenChat.image_part "b64(JFIF)")]) in
  let user_document := new_document (builtin_storage 2) "u" "s" "user" parts ∅ in
  let after := QianwenChat.image (json_module := IntegerJson.json) (codec := sample_codec)
                 picture_disk self "what is this?" "cat.jpg" ∅ (builtin_client 2) in
  ∃ mongo' added,
    holds after.2 mongo'
    ∧ Mongo.documents (MongoMemoryStorage.remote mongo')
      = (Mongo.documents three_turns ++ added)%list
    ∧ match after.1 with
      | Ok response_dict =>
          if truthy (LogManager.dict_get response_dict "choices")
          then ∃ c, first_choice_content response_dict = Ok c
                    ∧ added = [user_document;
                               new_document
                                 (inserted (builtin_storage 2) "u" "s" "user" parts ∅)
                                 "u" "s" "assistant"
                                 (text_of (json_module := IntegerJson.json) c) ∅]
          else added = [user_document]
      | Raise e =>
          exn_type e = "QianwenAPIError" ∧ (added = [] ∨ added = [user_document])
      end.
Proof.
  apply (image_turn_is_stored_as_json (json_module := IntegerJson.json)
           (codec := sample_codec) picture_disk (chat_of (builtin_client 2))
           "what is this?" "cat.jpg" "JFIF" ∅ (builtin_client 2) (builtin_storage 2)).
  - exists (builtin_manager 2). repeat split; reflexivity.
  - split; reflexivity.
  - reflexivity.
  - reflexivity.
Defined.
